(** * Task manager backend: authentication, task ownership and reminders

    A shallow embedding of the Express backend (routes/auth.js,
    routes/tasks.js, middleware/auth.js, middleware/validation.js,
    database.js and the reminder job of index.js) and the properties of
    its registration, login, task and reminder operations. *)

From Stdlib Require Import List ZArith NArith Bool String Ascii Lia.
From Stdlib Require Import Permutation.
Import ListNotations.
Open Scope string_scope.
Open Scope list_scope.
Open Scope Z_scope.

(** ** JavaScript values

    A JavaScript string is a sequence of UTF-16 code units; [lit] turns an
    ASCII literal of the source into one.  Request bodies are parsed JSON:
    a field is absent ([JUndefined]) or holds a scalar.  Arrays and nested
    objects are not part of the model. *)

Definition jsstring := list N.

Definition lit (s : string) : jsstring :=
  map N_of_ascii (list_ascii_of_string s).

Inductive jsval :=
| JUndefined
| JNull
| JBool (b : bool)
| JNum (z : Z)
| JStr (s : jsstring).

Fixpoint str_eqb (a b : jsstring) : bool :=
  match a, b with
  | [], [] => true
  | x :: a', y :: b' => N.eqb x y && str_eqb a' b'
  | _, _ => false
  end.

(** [v] in a boolean position: [!v] is [negb (truthy v)]. *)
Definition truthy (v : jsval) : bool :=
  match v with
  | JUndefined | JNull => false
  | JBool b => b
  | JNum z => negb (z =? 0)
  | JStr s => match s with [] => false | _ => true end
  end.

(** [typeof v === 'string'] *)
Definition is_string (v : jsval) : bool :=
  match v with JStr _ => true | _ => false end.

(** [a === b] on scalars. *)
Definition strict_eq (a b : jsval) : bool :=
  match a, b with
  | JUndefined, JUndefined | JNull, JNull => true
  | JBool x, JBool y => Bool.eqb x y
  | JNum x, JNum y => x =? y
  | JStr x, JStr y => str_eqb x y
  | _, _ => false
  end.

(** [v || d] *)
Definition js_or (v d : jsval) : jsval := if truthy v then v else d.

(** ** String primitives *)

(** ECMAScript WhiteSpace and LineTerminator code units: what
    [String.prototype.trim] strips and what [\s] matches. *)
Definition is_space (c : N) : bool :=
  ((9 <=? c) && (c <=? 13) || (c =? 32) || (c =? 160) || (c =? 5760)
   || (8192 <=? c) && (c <=? 8202) || (c =? 8232) || (c =? 8233)
   || (c =? 8239) || (c =? 8287) || (c =? 12288) || (c =? 65279))%N.

Fixpoint trimStart (s : jsstring) : jsstring :=
  match s with
  | c :: t => if is_space c then trimStart t else s
  | [] => []
  end.

Definition trim (s : jsstring) : jsstring :=
  rev (trimStart (rev (trimStart s))).

(** ASCII case folding, which is all the [i] flag does for the patterns
    below: outside the [u] flag a code unit of 128 or more never folds to
    an ASCII letter. *)
Definition fold_ascii (c : N) : N :=
  (if (65 <=? c) && (c <=? 90) then c + 32 else c)%N.

(** [\w] *)
Definition is_word (c : N) : bool :=
  ((48 <=? c) && (c <=? 57) || (65 <=? c) && (c <=? 90)
   || (97 <=? c) && (c <=? 122) || (c =? 95))%N.

(** [pat] (lower case) matches a prefix of [s], ignoring case. *)
Fixpoint prefix_ci (pat s : jsstring) : bool :=
  match pat, s with
  | [], _ => true
  | p :: pat', c :: s' => N.eqb (fold_ascii c) p && prefix_ci pat' s'
  | _ :: _, [] => false
  end.

(** Length of the longest prefix made of word characters. *)
Fixpoint word_run (s : jsstring) : nat :=
  match s with
  | c :: t => if is_word c then S (word_run t) else O
  | [] => O
  end.

(** [s.replace(re, '')] for a global regular expression: [m s] is the
    length of the match of [re] anchored at the head of [s], if any.  The
    scan is left to right; a match is dropped and the scan resumes after
    it, otherwise one code unit is kept. [skip] counts the code units of
    the current match still to drop. *)
Fixpoint strip (m : jsstring -> option nat) (skip : nat) (s : jsstring)
  : jsstring :=
  match s with
  | [] => []
  | c :: t =>
      match skip with
      | S k => strip m k t
      | O => match m s with
             | Some (S k) => strip m k t
             | _ => c :: strip m O t
             end
      end
  end.

(** [/javascript:/gi] *)
Definition match_javascript (s : jsstring) : option nat :=
  if prefix_ci (lit "javascript:") s then Some 11%nat else None.

(** [/on\w+=/gi]: the greedy [\w+] can only be followed by [=] at the end
    of the whole run of word characters, since [=] is not one. *)
Definition match_handler (s : jsstring) : option nat :=
  match s with
  | o :: n :: t =>
      if N.eqb (fold_ascii o) 111 && N.eqb (fold_ascii n) 110 then
        match word_run t, skipn (word_run t) t with
        | S k, e :: _ => if N.eqb e 61 then Some (S k + 3)%nat else None
        | _, _ => None
        end
      else None
  | _ => None
  end.

(** [/[<>]/g] *)
Definition is_angle (c : N) : bool := ((c =? 60) || (c =? 62))%N.

(** middleware/auth.js (and validation.js), [sanitizeInput] on a string. *)
Definition sanitizeString (s : jsstring) : jsstring :=
  trim (strip match_handler O
          (strip match_javascript O
             (filter (fun c => negb (is_angle c)) s))).

(** [sanitizeInput]: anything that is not a string is returned as it is. *)
Definition sanitizeInput (input : jsval) : jsval :=
  match input with
  | JStr s => JStr (sanitizeString s)
  | _ => input
  end.

(** ** Responses

    Every response is [{success, message?, errors?, code?, data?}] sent
    with an HTTP status; [res.json] alone sends 200. *)

Record Task := {
  t_id : Z;
  t_title : jsstring;
  t_description : jsstring;
  t_status : jsval;
  t_deadline : jsval;
  t_reminder_time : jsval;
  t_user_id : Z;
  t_created_at : Z;
  t_updated_at : Z
}.

Record User := {
  u_id : Z;
  u_name : jsstring;
  u_email : jsstring;
  u_password : jsstring;
  u_created_at : Z;
  u_updated_at : Z
}.

Inductive payload :=
| NoData
| TaskRow (t : Task)
| TaskRows (l : list Task)
| RunResult (id changes : Z)
| Identity (userId : Z) (name email token : jsstring) (createdAt : Z).

Record response := {
  http : Z;
  success : bool;
  message : option string;
  errors : option (list string);
  code : option string;
  data : payload
}.

Definition failure (status : Z) (msg : string) (c : option string)
  : response :=
  {| http := status; success := false; message := Some msg;
     errors := None; code := c; data := NoData |}.

(** ** database.js

    The two tables of [initDatabase].  A column holds the value that was
    bound to it; [user_seq] and [task_seq] are the AUTOINCREMENT counters
    (the largest row id handed out so far). Timestamps written by
    CURRENT_TIMESTAMP are the clock reading of the statement. *)

Record Db := {
  users : list User;
  tasks : list Task;
  user_seq : Z;
  task_seq : Z
}.

Definition empty_db : Db :=
  {| users := []; tasks := []; user_seq := 0; task_seq := 0 |}.

(** AUTOINCREMENT: one more than the largest of the counter and the ids
    present. *)
Definition next_id (seq : Z) (ids : list Z) : Z :=
  fold_right Z.max seq ids + 1.

(** [SELECT ... FROM users WHERE email = ?] *)
Definition user_by_email (db : Db) (email : jsstring) : option User :=
  find (fun u => str_eqb (u_email u) email) (users db).

(** [SELECT ... FROM users WHERE id = ?] *)
Definition user_by_id (db : Db) (id : Z) : option User :=
  find (fun u => u_id u =? id) (users db).

(** [SELECT ... FROM tasks WHERE id = $1 AND user_id = $2] *)
Definition task_of_owner (db : Db) (id userId : Z) : option Task :=
  find (fun t => (t_id t =? id) && (t_user_id t =? userId)) (tasks db).

(** [SELECT * FROM tasks WHERE id = $1] *)
Definition task_by_id (db : Db) (id : Z) : option Task :=
  find (fun t => t_id t =? id) (tasks db).

(** ** The platform

    What the backend calls and does not define: the runtime's
    [toLowerCase], bcryptjs, jsonwebtoken and SQLite's test that a text
    spells a number (applied by the NUMERIC affinity of a DATETIME
    column). *)

Inductive token_type := AccessToken | RefreshToken.

Record token_claims := {
  c_userId : Z;
  c_iat : Z;
  c_type : token_type
}.

Record sign_options := {
  expiresIn : Z;
  issuer : jsstring;
  audience : jsstring
}.

Record decoded_token := {
  d_userId : Z;
  d_iat : Z;
  d_exp : Z
}.

Inductive verify_result :=
| Decoded (d : decoded_token)
| TokenExpiredError
| JsonWebTokenError
| OtherVerifyError.

Class Platform := {
  (** [s.toLowerCase()] *)
  toLowerCase : jsstring -> jsstring;
  (** [bcrypt.hash(password, saltRounds)] *)
  bcrypt_hash : jsstring -> Z -> jsstring;
  (** [bcrypt.compare(password, hash)] *)
  bcrypt_compare : jsstring -> jsstring -> bool;
  (** [jwt.sign(payload, secret, options)] *)
  jwt_sign : token_claims -> jsstring -> sign_options -> jsstring;
  (** [jwt.verify(token, secret)] at a clock reading in seconds *)
  jwt_verify : jsstring -> jsstring -> Z -> verify_result;
  (** the text is a well-formed number to SQLite *)
  numeric_text : jsstring -> bool
}.

(** The contract of jsonwebtoken this backend relies on: a token is a
    non-empty string without a space, and a token verifies under the
    secret that signed it as long as the clock (in seconds) is before its
    expiry, giving back the claims and [exp = iat + expiresIn]. *)
Class JwtContract (P : Platform) : Prop := {
  sign_nonempty : forall c k o, jwt_sign c k o <> [];
  sign_no_space : forall c k o, ~ In 32%N (jwt_sign c k o);
  verify_sign : forall c k o clock,
    clock < c_iat c + expiresIn o ->
    jwt_verify (jwt_sign c k o) k clock =
    Decoded {| d_userId := c_userId c; d_iat := c_iat c;
               d_exp := c_iat c + expiresIn o |}
}.

(** [process.env]: the signing secret (required at start-up) and the
    optional overrides; [JWT_EXPIRES_IN] is the time span the variable
    denotes, in seconds. *)
Record Env := {
  JWT_SECRET : jsstring;
  JWT_EXPIRES_IN : option Z;
  JWT_ISSUER : option jsstring;
  JWT_AUDIENCE : option jsstring
}.

Definition or_default {A} (o : option A) (d : A) : A :=
  match o with Some a => a | None => d end.

Definition len (s : jsstring) : Z := Z.of_nat (List.length s).

(** [s.includes(c)] for a single code unit. *)
Definition includes_unit (c : N) (s : jsstring) : bool :=
  existsb (N.eqb c) s.

(** [list.includes(v)] for a list of string constants. *)
Definition includes (l : list jsstring) (v : jsval) : bool :=
  match v with
  | JStr s => existsb (str_eqb s) l
  | _ => false
  end.

Definition internal_error (msg : string) (c : option string) : response :=
  failure 500 msg c.

Section Backend.

Context {P : Platform} (env : Env).

(** ** middleware/auth.js *)

Definition default_expiry : Z := 86400.

(** [generateToken(userId)] at clock reading [now] (milliseconds). *)
Definition generateToken (userId now : Z) : jsstring :=
  jwt_sign
    {| c_userId := userId; c_iat := now / 1000; c_type := AccessToken |}
    (JWT_SECRET env)
    {| expiresIn := or_default (JWT_EXPIRES_IN env) default_expiry;
       issuer := or_default (JWT_ISSUER env) (lit "task-manager-api");
       audience := or_default (JWT_AUDIENCE env) (lit "task-manager-users") |}.

Record req_user := {
  userId : Z;
  tokenIssuedAt : Z;
  tokenExpiresAt : Z
}.

Inductive auth_result :=
| Rejected (r : response)
| Authenticated (u : req_user).

(** The part of [s] before its first space. *)
Fixpoint until_space (s : jsstring) : jsstring :=
  match s with
  | c :: t => if N.eqb c 32 then [] else c :: until_space t
  | [] => []
  end.

(** The part of [s] after its first space, if it has one. *)
Fixpoint after_space (s : jsstring) : option jsstring :=
  match s with
  | c :: t => if N.eqb c 32 then Some t else after_space t
  | [] => None
  end.

(** [authHeader.split(' ')[1]] *)
Definition bearer_token (authHeader : jsstring) : option jsstring :=
  match after_space authHeader with
  | Some r => Some (until_space r)
  | None => None
  end.

(** [authenticateToken]: the Authorization header of the request and the
    clock are all it reads. *)
Definition authenticateToken (authHeader : option jsstring) (now : Z)
  : auth_result :=
  match authHeader with
  | None | Some [] =>
      Rejected (failure 401 "Access token required" (Some "MISSING_TOKEN"))
  | Some h =>
      match bearer_token h with
      | None | Some [] =>
          Rejected (failure 401 "Invalid token format"
                      (Some "INVALID_TOKEN_FORMAT"))
      | Some token =>
          match jwt_verify token (JWT_SECRET env) (now / 1000) with
          | TokenExpiredError =>
              Rejected (failure 401 "Token has expired"
                          (Some "TOKEN_EXPIRED"))
          | JsonWebTokenError =>
              Rejected (failure 401 "Invalid token" (Some "INVALID_TOKEN"))
          | OtherVerifyError =>
              Rejected (failure 401 "Token verification failed"
                          (Some "TOKEN_VERIFICATION_FAILED"))
          | Decoded d =>
              Authenticated {| userId := d_userId d;
                               tokenIssuedAt := d_iat d;
                               tokenExpiresAt := d_exp d |}
          end
      end
  end.

(** ** routes/auth.js *)

Record RegisterBody := {
  r_name : jsval;
  r_email : jsval;
  r_password : jsval;
  r_confirmPassword : jsval
}.

Record LoginBody := {
  l_email : jsval;
  l_password : jsval
}.

(** The longest prefix of [s] whose code units satisfy [f], and the rest. *)
Fixpoint span (f : N -> bool) (s : jsstring) : jsstring * jsstring :=
  match s with
  | c :: t => if f c then let (a, b) := span f t in (c :: a, b)
              else ([], s)
  | [] => ([], [])
  end.

(** [[^\s@]] *)
Definition email_unit (c : N) : bool := negb (is_space c) && negb (N.eqb c 64).

(** [/^[^\s@]+@[^\s@]+\.[^\s@]+$/.test(s)]: a non-empty local part, one
    [@], and a domain of [[^\s@]] units with a dot that is neither its
    first nor its last unit. *)
Definition emailRegex_test (s : jsstring) : bool :=
  match span email_unit s with
  | (_ :: _, at_ :: domain) =>
      N.eqb at_ 64 && forallb email_unit domain
      && match domain with
         | _ :: t => includes_unit 46 (removelast t)
         | [] => false
         end
  | _ => false
  end.

Definition validation_failed (errs : list string) : response :=
  {| http := 400; success := false; message := Some "Validation failed";
     errors := Some errs; code := Some "VALIDATION_ERROR";
     data := NoData |}.

Definition name_errors (name : jsval) : list string :=
  match name with
  | JStr s =>
      if negb (truthy name) then ["Name is required and must be a string"]
      else if len (trim s) <? 2 then
        ["Name must be at least 2 characters long"]
      else if 100 <? len (trim s) then
        ["Name cannot exceed 100 characters"]
      else []
  | _ => ["Name is required and must be a string"]
  end.

Definition email_errors (email : jsval) : list string :=
  match email with
  | JStr s =>
      if negb (truthy email) then
        ["Email is required and must be a string"]
      else
        (if emailRegex_test (trim s) then []
         else ["Please provide a valid email address"])
        ++ (if 255 <? len (trim s) then
              ["Email cannot exceed 255 characters"]
            else [])
  | _ => ["Email is required and must be a string"]
  end.

Definition password_errors (password : jsval) : list string :=
  match password with
  | JStr s =>
      if negb (truthy password) then
        ["Password is required and must be a string"]
      else if len s <? 6 then
        ["Password must be at least 6 characters long"]
      else if 128 <? len s then
        ["Password cannot exceed 128 characters"]
      else []
  | _ => ["Password is required and must be a string"]
  end.

Definition confirm_errors (password confirmPassword : jsval) : list string :=
  if negb (truthy confirmPassword) || negb (is_string confirmPassword) then
    ["Password confirmation is required"]
  else if negb (strict_eq password confirmPassword) then
    ["Passwords do not match"]
  else [].

(** The [validateRegistration] middleware of routes/auth.js: the list of
    messages it collects; the request goes on when there is none. *)
Definition validateRegistration (b : RegisterBody) : list string :=
  name_errors (r_name b) ++ email_errors (r_email b)
  ++ password_errors (r_password b)
  ++ confirm_errors (r_password b) (r_confirmPassword b).

Definition login_email_errors (email : jsval) : list string :=
  match email with
  | JStr s =>
      if negb (truthy email) then
        ["Email is required and must be a string"]
      else if len (trim s) =? 0 then ["Email cannot be empty"]
      else []
  | _ => ["Email is required and must be a string"]
  end.

Definition login_password_errors (password : jsval) : list string :=
  match password with
  | JStr s =>
      if negb (truthy password) then
        ["Password is required and must be a string"]
      else if len (trim s) =? 0 then ["Password cannot be empty"]
      else []
  | _ => ["Password is required and must be a string"]
  end.

Definition validateLogin (b : LoginBody) : list string :=
  login_email_errors (l_email b) ++ login_password_errors (l_password b).

Definition saltRounds : Z := 12.

(** [INSERT INTO users (name, email, password) VALUES (?, ?, ?)]: the
    database with the new row and [this.lastID]. *)
Definition insert_user (db : Db) (name email password : jsstring) (now : Z)
  : Db * Z :=
  let id := next_id (user_seq db) (map u_id (users db)) in
  ({| users := users db ++
               [{| u_id := id; u_name := name; u_email := email;
                   u_password := password; u_created_at := now;
                   u_updated_at := now |}];
      tasks := tasks db;
      user_seq := id;
      task_seq := task_seq db |}, id).

Definition user_exists : response :=
  failure 409 "User with this email already exists" (Some "USER_EXISTS").

Definition registration_error : response :=
  internal_error "Internal server error during registration"
    (Some "REGISTRATION_ERROR").

(** The handler of [POST /register], entered with the string fields that
    [validateRegistration] let through. *)
Definition register_handler (db : Db)
    (name email password : jsstring) (confirmPassword : jsval) (now : Z)
  : response * Db :=
  let sanitizedName := sanitizeString name in
  let sanitizedEmail := toLowerCase (sanitizeString email) in
  if len sanitizedName <? 2 then
    (failure 400 "Name must be at least 2 characters long"
       (Some "INVALID_NAME"), db)
  else if (len sanitizedEmail =? 0) || negb (includes_unit 64 sanitizedEmail)
  then
    (failure 400 "Please provide a valid email address"
       (Some "INVALID_EMAIL"), db)
  else if len password <? 6 then
    (failure 400 "Password must be at least 6 characters long"
       (Some "INVALID_PASSWORD"), db)
  else if negb (strict_eq (JStr password) confirmPassword) then
    (failure 400 "Passwords do not match" (Some "PASSWORD_MISMATCH"), db)
  else
    match user_by_email db sanitizedEmail with
    | Some _ => (user_exists, db)
    | None =>
        let hashedPassword := bcrypt_hash password saltRounds in
        let (db', id) :=
          insert_user db sanitizedName sanitizedEmail hashedPassword now in
        if id =? 0 then (registration_error, db')
        else
          let token := generateToken id now in
          match user_by_id db' id with
          | Some createdUser =>
              ({| http := 201; success := true;
                  message := Some "User registered successfully";
                  errors := None; code := None;
                  data := Identity (u_id createdUser) (u_name createdUser)
                            (u_email createdUser) token
                            (u_created_at createdUser) |}, db')
          | None => (registration_error, db')
          end
    end.

(** [POST /api/auth/register]: [validateRegistration], then the handler.
    A body that passed validation holds strings; the last branch is the
    handler's [catch] for anything else. *)
Definition register (db : Db) (b : RegisterBody) (now : Z) : response * Db :=
  match validateRegistration b with
  | (_ :: _) as errs => (validation_failed errs, db)
  | [] =>
      match r_name b, r_email b, r_password b with
      | JStr name, JStr email, JStr password =>
          register_handler db name email password (r_confirmPassword b) now
      | _, _, _ => (registration_error, db)
      end
  end.

Definition invalid_credentials : response :=
  failure 401 "Invalid email or password" (Some "INVALID_CREDENTIALS").

Definition login_error : response :=
  internal_error "Internal server error during login" (Some "LOGIN_ERROR").

(** The handler of [POST /login]; it writes nothing. *)
Definition login_handler (db : Db) (email password : jsstring) (now : Z)
  : response :=
  let sanitizedEmail := toLowerCase (sanitizeString email) in
  match user_by_email db sanitizedEmail with
  | None => invalid_credentials
  | Some user =>
      if negb (bcrypt_compare password (u_password user)) then
        invalid_credentials
      else
        {| http := 200; success := true;
           message := Some "Login successful";
           errors := None; code := None;
           data := Identity (u_id user) (u_name user) (u_email user)
                     (generateToken (u_id user) now) (u_created_at user) |}
  end.

(** [POST /api/auth/login]: [validateLogin], then the handler. *)
Definition login (db : Db) (b : LoginBody) (now : Z) : response :=
  match validateLogin b with
  | (_ :: _) as errs => validation_failed errs
  | [] =>
      match l_email b, l_password b with
      | JStr email, JStr password => login_handler db email password now
      | _, _ => login_error
      end
  end.

(** ** routes/tasks.js

    Every handler below runs behind [authenticateToken] and is entered
    with [req.user.userId]; [id] is the task identifier the [:id] path
    segment denotes. *)

Record TaskBody := {
  b_title : jsval;
  b_description : jsval;
  b_status : jsval;
  b_deadline : jsval;
  b_reminder_time : jsval
}.

Definition statuses : list jsstring :=
  [lit "To Do"; lit "In Progress"; lit "Done"].

Definition server_error : response :=
  internal_error "Internal server error" None.

Definition task_not_found : response :=
  failure 404 "Task not found" None.

Definition invalid_status : response :=
  failure 400 "Invalid status. Must be one of: To Do, In Progress, Done" None.

(** [ORDER BY created_at DESC]. SQLite leaves the order of rows with the
    same [created_at] open; here they come in table order, and what is
    proved of a listing either does not depend on it or is proved for
    every order that the statement allows. *)
Fixpoint insert_desc (t : Task) (l : list Task) : list Task :=
  match l with
  | x :: l' => if t_created_at x <=? t_created_at t then t :: l
               else x :: insert_desc t l'
  | [] => [t]
  end.

Definition order_by_created_desc (l : list Task) : list Task :=
  fold_right insert_desc [] l.

(** [GET /api/tasks?status=...] *)
Definition listTasks (db : Db) (userId : Z) (status : jsval) : response :=
  let own := filter (fun t => t_user_id t =? userId) (tasks db) in
  let rows :=
    if truthy status && includes statuses status then
      filter (fun t => strict_eq (t_status t) status) own
    else own in
  {| http := 200; success := true; message := None; errors := None;
     code := None; data := TaskRows (order_by_created_desc rows) |}.

(** [GET /api/tasks/:id] *)
Definition getTask (db : Db) (userId id : Z) : response :=
  match task_of_owner db id userId with
  | None => task_not_found
  | Some task =>
      {| http := 200; success := true; message := None; errors := None;
         code := None; data := TaskRow task |}
  end.

(** [description?.trim() || '']: [None] is the TypeError of calling
    [trim] on a number or a boolean. *)
Definition description_param (description : jsval) : option jsstring :=
  match description with
  | JUndefined | JNull => Some []
  | JStr s => Some (trim s)
  | _ => None
  end.

(** [INSERT INTO tasks (...) VALUES (...)]: [None] when the owner is not a
    row of [users] (the foreign key rejects the insert). The new row
    holds the values as they are bound; SQLite converts some of them on
    the way in, see [kept_as_text] and [kept_as_datetime] for the ones
    it does not. *)
Definition insert_task (db : Db) (title description : jsstring)
    (status deadline reminder_time : jsval) (userId now : Z)
  : option (Db * Z) :=
  match user_by_id db userId with
  | None => None
  | Some _ =>
      let id := next_id (task_seq db) (map t_id (tasks db)) in
      Some ({| users := users db;
               tasks := tasks db ++
                  [{| t_id := id; t_title := title;
                      t_description := description; t_status := status;
                      t_deadline := deadline;
                      t_reminder_time := reminder_time;
                      t_user_id := userId; t_created_at := now;
                      t_updated_at := now |}];
               user_seq := user_seq db;
               task_seq := id |}, id)
  end.

(** [POST /api/tasks] *)
Definition createTask (db : Db) (userId : Z) (b : TaskBody) (now : Z)
  : response * Db :=
  let status :=
    match b_status b with JUndefined => JStr (lit "To Do") | v => v end in
  if negb (truthy (b_title b)) then
    (failure 400 "Task title is required" None, db)
  else
    match b_title b with
    | JStr title =>
        if len (trim title) =? 0 then
          (failure 400 "Task title is required" None, db)
        else if truthy status && negb (includes statuses status) then
          (invalid_status, db)
        else
          match description_param (b_description b) with
          | None => (server_error, db)
          | Some description =>
              match insert_task db (trim title) description status
                      (js_or (b_deadline b) JNull)
                      (js_or (b_reminder_time b) JNull) userId now with
              | None => (server_error, db)
              | Some (db', id) =>
                  ({| http := 201; success := true;
                      message := Some "Task created successfully";
                      errors := None; code := None;
                      data := RunResult id 1 |}, db')
              end
          end
    | _ => (server_error, db)
    end.

(** One [column = $n] of the UPDATE statement that [PUT /:id] builds. *)
Inductive assignment :=
| SetTitle (s : jsstring)
| SetDescription (s : jsstring)
| SetStatus (v : jsval)
| SetDeadline (v : jsval)
| SetReminderTime (v : jsval).

Definition assign (t : Task) (a : assignment) : Task :=
  {| t_id := t_id t;
     t_title := match a with SetTitle s => s | _ => t_title t end;
     t_description :=
       match a with SetDescription s => s | _ => t_description t end;
     t_status := match a with SetStatus v => v | _ => t_status t end;
     t_deadline := match a with SetDeadline v => v | _ => t_deadline t end;
     t_reminder_time :=
       match a with SetReminderTime v => v | _ => t_reminder_time t end;
     t_user_id := t_user_id t;
     t_created_at := t_created_at t;
     t_updated_at := t_updated_at t |}.

Definition touch (now : Z) (t : Task) : Task :=
  {| t_id := t_id t; t_title := t_title t;
     t_description := t_description t; t_status := t_status t;
     t_deadline := t_deadline t; t_reminder_time := t_reminder_time t;
     t_user_id := t_user_id t; t_created_at := t_created_at t;
     t_updated_at := now |}.

(** [UPDATE tasks SET <updates>, updated_at = CURRENT_TIMESTAMP
     WHERE id = $n AND user_id = $m]. The row takes the values as they
    are bound, as in [insert_task]. *)
Definition update_tasks (db : Db) (updates : list assignment)
    (id userId now : Z) : Db :=
  {| users := users db;
     tasks := map (fun t =>
                     if (t_id t =? id) && (t_user_id t =? userId)
                     then touch now (fold_left assign updates t)
                     else t) (tasks db);
     user_seq := user_seq db;
     task_seq := task_seq db |}.

(** [if (v !== undefined) { updates.push(...); params.push(v) }] *)
Definition when_present (mk : jsval -> assignment) (v : jsval)
  : list assignment :=
  match v with JUndefined => [] | _ => [mk v] end.

(** [title !== undefined && title.trim().length === 0]; [None] is the
    TypeError of calling [trim] on what is not a string. *)
Definition blank_title (title : jsval) : option bool :=
  match title with
  | JUndefined => Some false
  | JStr s => Some (len (trim s) =? 0)
  | _ => None
  end.

Definition title_update (title : jsval) : list assignment :=
  match title with
  | JStr s => [SetTitle (trim s)]
  | _ => []
  end.

Definition description_update (description : jsval)
  : option (list assignment) :=
  match description with
  | JUndefined => Some []
  | d => option_map (fun s => [SetDescription s]) (description_param d)
  end.

Definition updated (db : Db) (id : Z) : response :=
  {| http := 200; success := true;
     message := Some "Task updated successfully";
     errors := None; code := None;
     data := match task_by_id db id with
             | Some updatedTask => TaskRow updatedTask
             | None => NoData
             end |}.

(** [PUT /api/tasks/:id] *)
Definition updateTask (db : Db) (userId id : Z) (b : TaskBody) (now : Z)
  : response * Db :=
  match task_of_owner db id userId with
  | None => (task_not_found, db)
  | Some _ =>
      match blank_title (b_title b) with
      | None => (server_error, db)
      | Some true => (failure 400 "Task title cannot be empty" None, db)
      | Some false =>
          if truthy (b_status b) && negb (includes statuses (b_status b))
          then (invalid_status, db)
          else
            match description_update (b_description b) with
            | None => (server_error, db)
            | Some description_set =>
                let updates :=
                  title_update (b_title b) ++ description_set
                  ++ when_present SetStatus (b_status b)
                  ++ when_present SetDeadline (b_deadline b)
                  ++ when_present SetReminderTime (b_reminder_time b) in
                match updates with
                | [] => (failure 400 "No fields to update" None, db)
                | _ :: _ =>
                    let db' := update_tasks db updates id userId now in
                    (updated db' id, db')
                end
            end
      end
  end.

(** [DELETE /api/tasks/:id] *)
Definition deleteTask (db : Db) (userId id : Z) : response * Db :=
  match task_of_owner db id userId with
  | None => (task_not_found, db)
  | Some _ =>
      ({| http := 200; success := true;
          message := Some "Task deleted successfully";
          errors := None; code := None; data := NoData |},
       {| users := users db;
          tasks := filter (fun t => negb ((t_id t =? id)
                                          && (t_user_id t =? userId)))
                     (tasks db);
          user_seq := user_seq db;
          task_seq := task_seq db |})
  end.

(** The tasks router: [router.use(authenticateToken)] in front of a
    handler [h], which receives [req.user.userId]. *)
Definition authenticated (authHeader : option jsstring) (now : Z)
    (db : Db) (h : Z -> response * Db) : response * Db :=
  match authenticateToken authHeader now with
  | Rejected r => (r, db)
  | Authenticated u => h (userId u)
  end.

(** ** The reminder job of index.js *)

(** Text order by code unit: SQLite's order of TEXT values (its byte
    order) for text without surrogate pairs. *)
Fixpoint str_leb (a b : jsstring) : bool :=
  match a, b with
  | [], _ => true
  | _ :: _, [] => false
  | x :: a', y :: b' =>
      if N.ltb x y then true else if N.ltb y x then false else str_leb a' b'
  end.

(** [t.reminder_time <= ?] bound to [now.toISOString()], which is text
    that spells no number. A NULL compares to nothing; a number, or a
    text that the column's affinity turned into one, sorts before every
    text; two texts compare in text order. *)
Definition reminder_due (reminder_time : jsval) (nowIso : jsstring) : bool :=
  match reminder_time with
  | JUndefined | JNull => false
  | JBool _ | JNum _ => true
  | JStr r => numeric_text r || str_leb r nowIso
  end.

(** [t.status != ?] bound to ['Done']: not true of a NULL. *)
Definition not_done (status : jsval) : bool :=
  match status with
  | JUndefined | JNull => false
  | JStr s => negb (str_eqb s (lit "Done"))
  | JBool _ | JNum _ => true
  end.

(** [SELECT t.*, u.email FROM tasks t JOIN users u ON t.user_id = u.id
     WHERE t.reminder_time <= ? AND t.status != ?]: the rows that the job
    logs. It returns them and nothing else. [nowIso] is
    [now.toISOString()], a text of fixed width whose text order is the
    order of the clock. *)
Definition reminderSweep (db : Db) (nowIso : jsstring)
  : list (Task * jsstring) :=
  flat_map
    (fun t => map (fun u => (t, u_email u))
                (filter (fun u => u_id u =? t_user_id t) (users db)))
    (filter (fun t => reminder_due (t_reminder_time t) nowIso
                      && not_done (t_status t)) (tasks db)).

(** ** Runs of the backend

    The requests that can write to the database, and the database after
    a sequence of them. *)
Inductive Op :=
| Register (b : RegisterBody) (now : Z)
| CreateTask (userId : Z) (b : TaskBody) (now : Z)
| UpdateTask (userId id : Z) (b : TaskBody) (now : Z)
| DeleteTask (userId id : Z).

Definition step (db : Db) (op : Op) : Db :=
  match op with
  | Register b now => snd (register db b now)
  | CreateTask u b now => snd (createTask db u b now)
  | UpdateTask u id b now => snd (updateTask db u id b now)
  | DeleteTask u id => snd (deleteTask db u id)
  end.

Definition run (db : Db) (ops : list Op) : Db := fold_left step ops db.

End Backend.

(** ** The clock of the reminder job

    [new Date()] at a sweep, as the fields of UTC that [toISOString]
    writes, from year 0 to year 9999. Moments of UTC come in the order
    of their fields: year, month, day, hours, minutes, seconds,
    milliseconds. *)
Record Date := {
  utc_year : Z; utc_month : Z; utc_day : Z;
  utc_hours : Z; utc_minutes : Z; utc_seconds : Z; utc_ms : Z
}.

Definition valid_date (d : Date) : Prop :=
  0 <= utc_year d <= 9999 /\ 1 <= utc_month d <= 12 /\ 1 <= utc_day d <= 31
  /\ 0 <= utc_hours d <= 23 /\ 0 <= utc_minutes d <= 59
  /\ 0 <= utc_seconds d <= 59 /\ 0 <= utc_ms d <= 999.

(** The code unit of the last decimal digit of [n]. *)
Definition digit (n : Z) : N := Z.to_N (48 + n mod 10).

(** [n] in [width] decimal digits, with leading zeros. *)
Fixpoint pad (width : nat) (n : Z) : jsstring :=
  match width with
  | O => []
  | S w => pad w (n / 10) ++ [digit n]
  end.

(** [YYYY-MM-DD]: the head of [toISOString], and the value of an
    [<input type="date">], which is what the dashboard sends as a
    reminder time. *)
Definition date_text (d : Date) : jsstring :=
  pad 4 (utc_year d) ++ lit "-" ++ pad 2 (utc_month d) ++ lit "-"
  ++ pad 2 (utc_day d).

(** [d.toISOString()]: [YYYY-MM-DDTHH:mm:ss.sssZ] *)
Definition toISOString (d : Date) : jsstring :=
  date_text d ++ lit "T" ++ pad 2 (utc_hours d) ++ lit ":"
  ++ pad 2 (utc_minutes d) ++ lit ":" ++ pad 2 (utc_seconds d) ++ lit "."
  ++ pad 3 (utc_ms d) ++ lit "Z".

(** The same moment written [YYYY-MM-DD HH:mm:ssZ], with a space where
    [toISOString] has a [T]: a form of ISO 8601 that [Date] parses and
    that the [isISO8601] rule of middleware/validation.js accepts. *)
Definition spaced (d : Date) : jsstring :=
  date_text d ++ lit " " ++ pad 2 (utc_hours d) ++ lit ":"
  ++ pad 2 (utc_minutes d) ++ lit ":" ++ pad 2 (utc_seconds d) ++ lit "Z".

Definition then_compare (c d : comparison) : comparison :=
  match c with Eq => d | _ => c end.

(** The order of time. *)
Definition date_compare (a b : Date) : comparison :=
  then_compare (utc_year a ?= utc_year b)
    (then_compare (utc_month a ?= utc_month b)
       (then_compare (utc_day a ?= utc_day b)
          (then_compare (utc_hours a ?= utc_hours b)
             (then_compare (utc_minutes a ?= utc_minutes b)
                (then_compare (utc_seconds a ?= utc_seconds b)
                   (utc_ms a ?= utc_ms b)))))).

Definition not_after (a b : Date) : Prop := date_compare a b <> Gt.

(** The start of the day of [d]. *)
Definition midnight (d : Date) : Date :=
  {| utc_year := utc_year d; utc_month := utc_month d; utc_day := utc_day d;
     utc_hours := 0; utc_minutes := 0; utc_seconds := 0; utc_ms := 0 |}.

(** A reminder as the application writes it: none, a moment written by
    [toISOString], or a day written by the date input of the dashboard,
    which stands for the start of that day. *)
Inductive reminder :=
| NoReminder
| AtMoment (d : Date)
| OnDay (d : Date).

Definition reminder_value (r : reminder) : jsval :=
  match r with
  | NoReminder => JNull
  | AtMoment d => JStr (toISOString d)
  | OnDay d => JStr (date_text d)
  end.

Definition valid_reminder (r : reminder) : Prop :=
  match r with
  | NoReminder => True
  | AtMoment d | OnDay d => valid_date d
  end.

(** The moment of the reminder has come at [now]. *)
Definition due (r : reminder) (now : Date) : Prop :=
  match r with
  | NoReminder => False
  | AtMoment d => not_after d now
  | OnDay d => not_after (midnight d) now
  end.

(** The order of texts that [str_leb] decides, as a three-way
    comparison. *)
Fixpoint str_compare (a b : jsstring) : comparison :=
  match a, b with
  | [], [] => Eq
  | [], _ :: _ => Lt
  | _ :: _, [] => Gt
  | x :: a', y :: b' => then_compare (N.compare x y) (str_compare a' b')
  end.

(** ** middleware/validation.js

    The express-validator chains of this file are exported and mounted on
    no route; of them the password rule of its [validateRegistration] is
    modelled here. *)
Module Validation.

(** [\n], [\r], U+2028 and U+2029, which [.] does not match. *)
Definition is_line_terminator (c : N) : bool :=
  ((c =? 10) || (c =? 13) || (c =? 8232) || (c =? 8233))%N.

Definition is_lower (c : N) : bool := ((97 <=? c) && (c <=? 122))%N.
Definition is_upper (c : N) : bool := ((65 <=? c) && (c <=? 90))%N.
Definition is_digit (c : N) : bool := ((48 <=? c) && (c <=? 57))%N.

(** [/^(?=.*[a-z])(?=.*[A-Z])(?=.*\d)/]: the three lookaheads search the
    first line of the password. *)
Definition password_matches (password : jsstring) : bool :=
  let line := fst (span (fun c => negb (is_line_terminator c)) password) in
  existsb is_lower line && existsb is_upper line && existsb is_digit line.

End Validation.

(** ** More of middleware/auth.js *)

(** SQLite reads no number in a text that has a minus sign right after
    a digit. *)
Class SqliteContract (P : Platform) : Prop := {
  no_minus_after_digit : forall pre d post,
    Validation.is_digit d = true ->
    numeric_text (pre ++ d :: 45%N :: post) = false
}.

(** bcryptjs keeps its contract: a password compares equal to its own
    hash. *)
Class BcryptContract (P : Platform) : Prop := {
  compare_hash : forall password rounds,
    bcrypt_compare password (bcrypt_hash password rounds) = true
}.

Section AuthUtilities.

Context {P : Platform} (env : Env).

Definition refresh_expiry : Z := 604800.

(** [generateRefreshToken(userId)] at clock reading [now];
    [refreshExpiresIn] is what [process.env.JWT_REFRESH_EXPIRES_IN]
    denotes, in seconds, when it is set. *)
Definition generateRefreshToken (refreshExpiresIn : option Z)
    (userId now : Z) : jsstring :=
  jwt_sign
    {| c_userId := userId; c_iat := now / 1000; c_type := RefreshToken |}
    (JWT_SECRET env)
    {| expiresIn := or_default refreshExpiresIn refresh_expiry;
       issuer := or_default (JWT_ISSUER env) (lit "task-manager-api");
       audience := or_default (JWT_AUDIENCE env) (lit "task-manager-users") |}.

(** [validateToken(token)]: [{valid: true, decoded}], or [{valid: false}]
    with the message of the error, which is left out here. *)
Definition validateToken (token : jsstring) (now : Z)
  : option decoded_token :=
  match jwt_verify token (JWT_SECRET env) (now / 1000) with
  | Decoded d => Some d
  | _ => None
  end.

End AuthUtilities.

(** ** More of database.js *)

(** [testConnection(retries, delay)]: [attempt i] tells whether the
    [i]-th query succeeds. The result, and the delays it waited, in
    order. [left] is [retries - i]. *)
Fixpoint testConnection_from (attempt : nat -> bool) (i left : nat)
    (delay : Z) : bool * list Z :=
  match left with
  | O => (false, [])
  | S O => (attempt i, [])
  | S left' =>
      if attempt i then (true, [])
      else
        let (connected, waited) :=
          testConnection_from attempt (S i) left' (delay * 2) in
        (connected, delay :: waited)
  end.

Definition testConnection (attempt : nat -> bool) (retries : nat)
    (delay : Z) : bool * list Z :=
  testConnection_from attempt O retries delay.

(** [initializeDatabase()] with the default [testConnection()]: [None]
    is the thrown 'Failed to establish database connection'. *)
Definition initializeDatabase {A} (attempt : nat -> bool) (initDatabase : A)
  : option A :=
  if fst (testConnection attempt 5 1000) then Some initDatabase else None.

(** ** The callers in the frontend *)

Module Frontend.

(** hooks/useFormValidation.js: the rules a schema is made of. The
    [date] and [futureDate] rules, which parse a date, are left out;
    neither the registration nor the login schema has them. *)
Inductive rule :=
| required
| minLength (min : Z)
| maxLength (max : Z)
| email
| password
| confirmPassword.

(** [VALIDATION_RULES]: [value] is the field, [other] the field that a
    [confirmPassword] rule names. A regular expression tests the string
    a value converts to; no number or boolean converts to a string with
    an [@], or with an upper case letter. *)
Definition passes (r : rule) (value other : jsval) : bool :=
  match r with
  | required =>
      match value with
      | JUndefined | JNull | JStr [] => false
      | _ => true
      end
  | minLength min =>
      match value with
      | JStr s => truthy value && (min <=? len s)
      | _ => false
      end
  | maxLength max =>
      match value with
      | JStr s => truthy value && (len s <=? max)
      | _ => false
      end
  | email =>
      match value with
      | JStr s => negb (truthy value) || emailRegex_test s
      | _ => negb (truthy value)
      end
  | password =>
      match value with
      | JStr s => negb (truthy value) || Validation.password_matches s
      | _ => negb (truthy value)
      end
  | confirmPassword =>
      negb (truthy value) || negb (truthy other) || strict_eq value other
  end.

(** [validateField]: the first rule of the field that fails, if any. *)
Definition validateField (rules : list rule) (value other : jsval)
  : option rule :=
  find (fun r => negb (passes r value other)) rules.

Record RegistrationForm := {
  f_name : jsval;
  f_email : jsval;
  f_password : jsval;
  f_confirmPassword : jsval
}.

(** [validateForm] with [VALIDATION_SCHEMAS.registration]: no field has
    an error. *)
Definition registration_valid (f : RegistrationForm) : bool :=
  match validateField [required; minLength 2; maxLength 100]
          (f_name f) JUndefined,
        validateField [required; email; maxLength 255]
          (f_email f) JUndefined,
        validateField [required; minLength 6; maxLength 128; password]
          (f_password f) JUndefined,
        validateField [required; confirmPassword]
          (f_confirmPassword f) (f_password f)
  with
  | None, None, None, None => true
  | _, _, _, _ => false
  end.

(** utils/api.js, [registerUser]: the body that is posted. *)
Definition registerUser (f : RegistrationForm) : RegisterBody :=
  {| r_name := f_name f; r_email := f_email f;
     r_password := f_password f;
     r_confirmPassword := f_confirmPassword f |}.

(** [s.split('T')[0]] *)
Fixpoint before_T (s : jsstring) : jsstring :=
  match s with
  | c :: t => if N.eqb c 84 then [] else c :: before_T t
  | [] => []
  end.

(** [v ? v.split('T')[0] : '']; [None] is the TypeError of calling
    [split] on a number or a boolean. *)
Definition date_field (v : jsval) : option jsval :=
  if truthy v then
    match v with
    | JStr s => Some (JStr (before_T s))
    | _ => None
    end
  else Some (JStr []).

(** pages/Dashboard.jsx, [openEditModal(task)]: the form data that
    [handleUpdateTask] sends when the form is saved as it was opened. *)
Definition openEditModal (task : Task) : option TaskBody :=
  match date_field (t_deadline task), date_field (t_reminder_time task) with
  | Some deadline, Some reminder_time =>
      Some {| b_title := JStr (t_title task);
              b_description := JStr (t_description task);
              b_status := t_status task;
              b_deadline := deadline;
              b_reminder_time := reminder_time |}
  | _, _ => None
  end.

End Frontend.

(** ** Notions the properties are stated with *)

(** [l] is [l'] with some elements deleted. *)
Inductive subsequence {A} : list A -> list A -> Prop :=
| sub_nil : subsequence [] []
| sub_drop x l l' : subsequence l l' -> subsequence l (x :: l')
| sub_keep x l l' : subsequence l l' -> subsequence (x :: l) (x :: l').

(** No row is older than a row after it. *)
Fixpoint newest_first_order (l : list Task) : Prop :=
  match l with
  | [] => True
  | x :: l' =>
      (forall y, In y l' -> t_created_at y <= t_created_at x)
      /\ newest_first_order l'
  end.

(** [rows] is an answer that the SELECT of [GET /api/tasks] may give: the
    rows of the caller, with the status asked for when it is one of the
    three, none lost, none twice, and none older than a row after it.
    Rows of the same age may come in any order. *)
Definition listing (db : Db) (userId : Z) (status : jsval)
    (rows : list Task) : Prop :=
  Permutation rows
    (filter (fun t => (t_user_id t =? userId)
                      && (negb (includes statuses status)
                          || strict_eq (t_status t) status)) (tasks db))
  /\ newest_first_order rows.

(** The row that [POST /] stores for an accepted body whose status,
    deadline and reminder time are kept as bound. *)
Definition created_row (b : TaskBody) (userId now id : Z) : Task :=
  {| t_id := id;
     t_title := match b_title b with JStr s => trim s | _ => [] end;
     t_description :=
       match b_description b with JStr s => trim s | _ => [] end;
     t_status :=
       match b_status b with JUndefined => JStr (lit "To Do") | v => v end;
     t_deadline := if truthy (b_deadline b) then b_deadline b else JNull;
     t_reminder_time :=
       if truthy (b_reminder_time b) then b_reminder_time b else JNull;
     t_user_id := userId;
     t_created_at := now;
     t_updated_at := now |}.

(** *** Values that a column keeps as they were bound

    A row of [Db] holds what a SELECT reads back. [insert_task] and
    [update_tasks] write the values as the handler binds them, which is
    what the row then holds for the values that SQLite's column affinity
    leaves alone. It does not leave alone: in [status] (TEXT), a number
    or a boolean, which becomes text; in [deadline] and [reminder_time]
    (DATETIME, that is NUMERIC affinity), a boolean and a text that
    spells a number, which become a number. What is said below of the
    value that a request stores in one of these columns is said for the
    values that are kept. *)
Definition kept_as_text (v : jsval) : bool :=
  match v with
  | JUndefined | JNull | JStr _ => true
  | JBool _ | JNum _ => false
  end.

(** NULL, and a text that spells no number; the empty text spells
    none. *)
Definition kept_as_datetime {P : Platform} (v : jsval) : bool :=
  match v with
  | JUndefined | JNull | JStr [] => true
  | JStr s => negb (numeric_text s)
  | JBool _ | JNum _ => false
  end.

(** The deadline and the reminder time of a body are kept. *)
Definition datetimes_kept {P : Platform} (b : TaskBody) : bool :=
  kept_as_datetime (b_deadline b) && kept_as_datetime (b_reminder_time b).

(** The columns that [PUT /:id] can set, the one an assignment sets, and
    what a row and a body hold for a column. *)
Inductive column :=
| Title | Description | Status | Deadline | ReminderTime.

Definition column_of (a : assignment) : column :=
  match a with
  | SetTitle _ => Title
  | SetDescription _ => Description
  | SetStatus _ => Status
  | SetDeadline _ => Deadline
  | SetReminderTime _ => ReminderTime
  end.

Definition cell (c : column) (t : Task) : jsval :=
  match c with
  | Title => JStr (t_title t)
  | Description => JStr (t_description t)
  | Status => t_status t
  | Deadline => t_deadline t
  | ReminderTime => t_reminder_time t
  end.

Definition field (c : column) (b : TaskBody) : jsval :=
  match c with
  | Title => b_title b
  | Description => b_description b
  | Status => b_status b
  | Deadline => b_deadline b
  | ReminderTime => b_reminder_time b
  end.

(** Every identifier in use is at most the counter of its table. *)
Definition counters_cover (db : Db) : Prop :=
  (forall u, In u (users db) -> u_id u <= user_seq db)
  /\ (forall t, In t (tasks db) -> t_id t <= task_seq db).

(** ** The update an accepted request asks for

    The effect of [PUT /:id] said field by field, to be compared with the
    UPDATE statement that [updateTask] assembles. *)

(** The key of a field is in the body. *)
Definition present (v : jsval) : bool :=
  match v with JUndefined => false | _ => true end.

Definition has_field (b : TaskBody) : bool :=
  present (b_title b) || present (b_description b) || present (b_status b)
  || present (b_deadline b) || present (b_reminder_time b).

(** The fields of the body are of a kind the handler accepts: a title
    that is a string and not blank, a description that is a string or
    null, a status among the three. *)
Definition acceptable (b : TaskBody) : bool :=
  match b_title b with
  | JUndefined => true
  | JStr s => negb (len (trim s) =? 0)
  | _ => false
  end
  && match b_description b with
     | JUndefined | JNull | JStr _ => true
     | _ => false
     end
  && match b_status b with
     | JUndefined => true
     | v => includes statuses v
     end.

(** The row after the update: a field whose key is present takes the
    value sent (title and description trimmed, a null description
    emptied; a deadline and a reminder time that are kept as bound),
    every other field stays, and [updated_at] is the clock. *)
Definition updated_row (b : TaskBody) (now : Z) (t : Task) : Task :=
  {| t_id := t_id t;
     t_title := match b_title b with JStr s => trim s | _ => t_title t end;
     t_description :=
       match b_description b with
       | JStr s => trim s
       | JNull => []
       | _ => t_description t
       end;
     t_status := if present (b_status b) then b_status b else t_status t;
     t_deadline :=
       if present (b_deadline b) then b_deadline b else t_deadline t;
     t_reminder_time :=
       if present (b_reminder_time b) then b_reminder_time b
       else t_reminder_time t;
     t_user_id := t_user_id t;
     t_created_at := t_created_at t;
     t_updated_at := now |}.

(** A string starts and ends with a code unit that is not white space
    (or is empty). *)
Definition no_outer_space (s : jsstring) : Prop :=
  (forall c, hd_error s = Some c -> is_space c = false) /\
  (forall c, hd_error (rev s) = Some c -> is_space c = false).

(** ** A sample platform and sample data

    A stand-in for the runtime and the two libraries, small enough to
    evaluate, and a database with two users, on which the examples are
    run. Its tokens spell the three numbers of the claims followed by the
    secret, every code unit shifted above the space. *)
Module Sample.

Definition lower (s : jsstring) : jsstring := map fold_ascii s.

Definition hash (password : jsstring) (rounds : Z) : jsstring :=
  lit "$2a$" ++ password.

Definition compare (password hashed : jsstring) : bool :=
  str_eqb hashed (lit "$2a$" ++ password).

Definition zcode (z : Z) : jsstring :=
  [if z <? 0 then 45%N else 43%N; (33 + Z.to_N (Z.abs z))%N].

Definition zdecode (sign magnitude : N) : Z :=
  (if N.eqb sign 45 then -1 else 1) * (Z.of_N magnitude - 33).

Definition seal (secret : jsstring) : jsstring := map (N.add 33) secret.

Definition sign (c : token_claims) (secret : jsstring) (o : sign_options)
  : jsstring :=
  zcode (c_userId c) ++ zcode (c_iat c) ++ zcode (c_iat c + expiresIn o)
  ++ seal secret.

Definition verify (token secret : jsstring) (clock : Z) : verify_result :=
  match token with
  | s1 :: u :: s2 :: i :: s3 :: e :: sealed =>
      if str_eqb sealed (seal secret) then
        if clock <? zdecode s3 e then
          Decoded {| d_userId := zdecode s1 u; d_iat := zdecode s2 i;
                     d_exp := zdecode s3 e |}
        else TokenExpiredError
      else JsonWebTokenError
  | _ => JsonWebTokenError
  end.

Definition digits (s : jsstring) : bool :=
  match s with
  | [] => false
  | _ => forallb (fun c => (48 <=? c) && (c <=? 57))%N s
  end.

#[export] Instance platform : Platform := {|
  toLowerCase := lower;
  bcrypt_hash := hash;
  bcrypt_compare := compare;
  jwt_sign := sign;
  jwt_verify := verify;
  numeric_text := digits
|}.

Definition env : Env := {|
  JWT_SECRET := lit "s3cret";
  JWT_EXPIRES_IN := None;
  JWT_ISSUER := None;
  JWT_AUDIENCE := None
|}.

Definition ann : User := {|
  u_id := 1; u_name := lit "Ann"; u_email := lit "ann@x.com";
  u_password := hash (lit "Abc123") 12;
  u_created_at := 1000; u_updated_at := 1000
|}.

Definition bob : User := {|
  u_id := 2; u_name := lit "Bob"; u_email := lit "bob@x.com";
  u_password := hash (lit "Xyz789") 12;
  u_created_at := 2000; u_updated_at := 2000
|}.

Definition spec_task : Task := {|
  t_id := 1; t_title := lit "Write spec"; t_description := [];
  t_status := JStr (lit "To Do"); t_deadline := JNull;
  t_reminder_time := JStr (lit "2025-01-01T09:00:00.000Z");
  t_user_id := 1; t_created_at := 3000; t_updated_at := 3000
|}.

Definition db : Db := {|
  users := [ann; bob]; tasks := [spec_task]; user_seq := 2; task_seq := 1
|}.

Definition no_fields : TaskBody := {|
  b_title := JUndefined; b_description := JUndefined;
  b_status := JUndefined; b_deadline := JUndefined;
  b_reminder_time := JUndefined
|}.

(** A body with a title, a status and a deadline, each possibly absent. *)
Definition task_body (title status deadline : jsval) : TaskBody :=
  {| b_title := title; b_description := JUndefined; b_status := status;
     b_deadline := deadline; b_reminder_time := JUndefined |}.

Definition registration (name email password : string) : RegisterBody := {|
  r_name := JStr (lit name); r_email := JStr (lit email);
  r_password := JStr (lit password);
  r_confirmPassword := JStr (lit password)
|}.

Definition credentials (email password : string) : LoginBody := {|
  l_email := JStr (lit email); l_password := JStr (lit password)
|}.

(** The bodies of the sample requests. *)
Definition new_task : TaskBody :=
  task_body (JStr (lit "x")) JUndefined JUndefined.

Definition mark_done : TaskBody :=
  task_body JUndefined (JStr (lit "Done")) JUndefined.

Definition blank_title_update : TaskBody :=
  task_body (JStr (lit "   ")) JUndefined JUndefined.

Definition empty_status_task : TaskBody :=
  task_body (JStr (lit "x")) (JStr []) JUndefined.

Definition null_status_task : TaskBody :=
  task_body (JStr (lit "x")) JNull JUndefined.

Definition empty_status_update : TaskBody :=
  task_body JUndefined (JStr []) JUndefined.

Definition bad_deadline_task : TaskBody :=
  task_body (JStr (lit "x")) JUndefined (JStr (lit "not-a-date")).

Definition later_task : TaskBody :=
  task_body (JStr (lit "x")) (JStr (lit "Later")) JUndefined.

Definition ann_registration : RegisterBody :=
  registration "Ann" "ann@x.com" "Abc123".

Definition weak_registration : RegisterBody :=
  registration "Ann" "ann@x.com" "abcdef".

End Sample.

(** * Properties *)

(** ** Strings *)

Lemma str_eqb_eq (a b : jsstring) : str_eqb a b = true <-> a = b.
Proof.
  revert b; induction a as [|x a IH]; intros [|y b]; simpl;
    try (split; [discriminate | congruence]); [tauto|].
  rewrite andb_true_iff, N.eqb_eq, IH.
  split; [intros [-> ->]; reflexivity | intros E; inversion E; auto].
Qed.

Lemma str_eqb_refl (a : jsstring) : str_eqb a a = true.
Proof. apply str_eqb_eq; reflexivity. Qed.

Lemma str_eqb_neq (a b : jsstring) : str_eqb a b = false <-> a <> b.
Proof.
  rewrite <- str_eqb_eq. destruct (str_eqb a b); split; congruence.
Qed.

(** What is left of a string after a global replace is made of code
    units of the string. *)
Lemma strip_In (m : jsstring -> option nat) (c : N) (s : jsstring) :
  forall skip, In c (strip m skip s) -> In c s.
Proof.
  induction s as [|x s IH]; simpl; [tauto|].
  intros [|k].
  - destruct (m (x :: s)) as [[|k]|]; simpl; intros H;
      try (destruct H; [auto | eauto]); eauto.
  - eauto.
Qed.

Lemma trimStart_suffix (s : jsstring) :
  exists pre, s = pre ++ trimStart s /\ forallb is_space pre = true.
Proof.
  induction s as [|x s (pre & E & Hp)]; simpl.
  - exists []; auto.
  - destruct (is_space x) eqn:Hx.
    + exists (x :: pre); simpl; rewrite Hx, Hp; split; [congruence | auto].
    + exists []; auto.
Qed.

Lemma trimStart_head (s : jsstring) (c : N) :
  hd_error (trimStart s) = Some c -> is_space c = false.
Proof.
  induction s as [|x s IH]; simpl; [discriminate|].
  destruct (is_space x) eqn:Hx; [exact IH | simpl; congruence].
Qed.

Lemma trimStart_In (s : jsstring) (c : N) : In c (trimStart s) -> In c s.
Proof.
  destruct (trimStart_suffix s) as (pre & E & _).
  intros H; rewrite E; apply in_or_app; auto.
Qed.

Lemma trim_In (s : jsstring) (c : N) : In c (trim s) -> In c s.
Proof.
  unfold trim; intros H.
  apply trimStart_In, in_rev, trimStart_In. now apply in_rev in H.
Qed.

Lemma trim_no_outer_space (s : jsstring) : no_outer_space (trim s).
Proof.
  unfold no_outer_space, trim; split; intros c.
  - destruct (trimStart_suffix (rev (trimStart s))) as (pre & E & Hp).
    set (b := trimStart (rev (trimStart s))) in *.
    intros H.
    assert (Ha : hd_error (trimStart s) = Some c).
    { rewrite <- (rev_involutive (trimStart s)), E, rev_app_distr.
      destruct (rev b); [discriminate | exact H]. }
    eapply trimStart_head; eauto.
  - rewrite rev_involutive. apply trimStart_head.
Qed.

Lemma sanitizeString_In (s : jsstring) (c : N) :
  In c (sanitizeString s) -> In c s /\ is_angle c = false.
Proof.
  unfold sanitizeString; intros H.
  apply trim_In, strip_In, strip_In, filter_In in H.
  destruct H as [H1 H2]; split; [exact H1 | now apply negb_true_iff].
Qed.

(** ** Row identifiers and well-formed databases *)

Lemma next_id_above (seq : Z) (ids : list Z) :
  seq < next_id seq ids /\ forall x, In x ids -> x < next_id seq ids.
Proof.
  unfold next_id; induction ids as [|y ids [IH1 IH2]]; simpl.
  - split; [lia | tauto].
  - split; [lia|]. intros x [<-|H]; [lia | specialize (IH2 x H); lia].
Qed.

Lemma next_id_fresh (seq : Z) (ids : list Z) : ~ In (next_id seq ids) ids.
Proof.
  intros H; apply (proj2 (next_id_above seq ids)) in H; lia.
Qed.

Lemma NoDup_snoc {A} (l : list A) (x : A) :
  NoDup l -> ~ In x l -> NoDup (l ++ [x]).
Proof.
  intros Hl Hx. apply NoDup_app; [exact Hl | repeat constructor; tauto|].
  intros a Ha [<-|[]]; exact (Hx Ha).
Qed.

(** Deleting rows keeps the identifiers of the rest distinct. *)
Lemma filter_keeps_ids_distinct (keep : Task -> bool) (rows : list Task) :
  NoDup (map t_id rows) -> NoDup (map t_id (filter keep rows)).
Proof.
  induction rows as [|r rows IH]; simpl; [auto|].
  intros D; inversion_clear D as [|? ? Hr Hrows].
  destruct (keep r); simpl; auto.
  constructor; auto.
  intros Hin; apply Hr.
  apply in_map_iff in Hin; destruct Hin as (y & E & Hy).
  apply filter_In in Hy; rewrite <- E; apply in_map; tauto.
Qed.

(** The constraints of the schema: primary keys, the unique email, the
    foreign key of a task, and counters that are not behind the rows. *)
Record wf (db : Db) : Prop := {
  wf_user_ids : NoDup (map u_id (users db));
  wf_emails : NoDup (map u_email (users db));
  wf_task_ids : NoDup (map t_id (tasks db));
  wf_owner : forall t, In t (tasks db) ->
                       exists u, In u (users db) /\ u_id u = t_user_id t;
  wf_user_seq : 0 <= user_seq db;
  wf_task_seq : 0 <= task_seq db
}.

Lemma wf_empty : wf empty_db.
Proof. split; simpl; try constructor; try lia; tauto. Qed.

Lemma user_by_email_none (db : Db) (e : jsstring) :
  user_by_email db e = None -> ~ In e (map u_email (users db)).
Proof.
  unfold user_by_email; intros H Hin. apply in_map_iff in Hin.
  destruct Hin as (u & <- & Hu).
  apply (find_none _ _ H) in Hu. rewrite str_eqb_refl in Hu; discriminate.
Qed.

Lemma user_by_email_some (db : Db) (e : jsstring) (u : User) :
  In u (users db) -> u_email u = e -> user_by_email db e <> None.
Proof.
  unfold user_by_email; intros Hu <- H.
  apply (find_none _ _ H) in Hu. rewrite str_eqb_refl in Hu; discriminate.
Qed.

Lemma user_by_id_In (db : Db) (id : Z) (u : User) :
  user_by_id db id = Some u -> In u (users db) /\ u_id u = id.
Proof.
  unfold user_by_id; intros H; apply find_some in H.
  destruct H as [H1 H2]; split; [exact H1 | lia].
Qed.

Lemma task_of_owner_In (db : Db) (id userId : Z) (t : Task) :
  task_of_owner db id userId = Some t ->
  In t (tasks db) /\ t_id t = id /\ t_user_id t = userId.
Proof.
  unfold task_of_owner; intros H; apply find_some in H.
  destruct H as [H1 H2]; apply andb_true_iff in H2; repeat split; lia || auto.
Qed.

(** With unique task identifiers, the owner-scoped lookup finds a task
    exactly when the task of that identifier belongs to that owner. *)
Lemma task_of_owner_other (db : Db) (t : Task) (userId : Z) :
  NoDup (map t_id (tasks db)) -> In t (tasks db) -> userId <> t_user_id t ->
  task_of_owner db (t_id t) userId = None.
Proof.
  unfold task_of_owner; generalize (tasks db); intros l.
  induction l as [|x l IH]; simpl; [auto|].
  intros Hnd Hin Hne; inversion_clear Hnd as [|? ? Hx Hl].
  destruct Hin as [->|Hin].
  - replace (t_user_id t =? userId) with false by lia.
    rewrite andb_false_r. destruct (find _ l) as [y|] eqn:E; [|auto].
    apply find_some in E; destruct E as [Hy E].
    exfalso; apply Hx, in_map_iff; exists y; split; [lia | auto].
  - destruct (t_id x =? t_id t) eqn:E.
    + exfalso; apply Hx, in_map_iff; exists t; split; [lia | auto].
    + simpl; auto.
Qed.

Lemma task_of_owner_missing (db : Db) (id userId : Z) :
  ~ In id (map t_id (tasks db)) -> task_of_owner db id userId = None.
Proof.
  intros H. destruct (task_of_owner db id userId) as [t|] eqn:E; [|auto].
  apply task_of_owner_In in E; destruct E as (Hin & <- & _).
  exfalso; apply H, in_map; auto.
Qed.

(** ** Reading a task *)

(** C1. A task read by an identity other than its owner is answered with
    404 "Task not found", a response that carries no row, and that is the
    very response given for an identifier no task has. Task identifiers
    are the primary key of the table, hence unique. *)
Theorem getTask_foreign_is_not_found
    (db : Db) (t : Task) (u missing : Z) :
  NoDup (map t_id (tasks db)) ->
  In t (tasks db) ->
  u <> t_user_id t ->
  ~ In missing (map t_id (tasks db)) ->
  getTask db u (t_id t) = failure 404 "Task not found" None
  /\ data (getTask db u (t_id t)) = NoData
  /\ getTask db u (t_id t) = getTask db u missing.
Proof.
  intros Hnd Hin Hne Hmiss. unfold getTask.
  rewrite (task_of_owner_other db t u Hnd Hin Hne).
  rewrite (task_of_owner_missing db missing u Hmiss).
  repeat split.
Qed.

(** ** Registration *)

Lemma strict_eq_str (s : jsstring) (v : jsval) :
  strict_eq (JStr s) v = true <-> v = JStr s.
Proof.
  destruct v; simpl; try (split; [discriminate | congruence]).
  rewrite str_eqb_eq; split; congruence.
Qed.

(** A body that [validateRegistration] lets through holds four strings
    within the bounds it checks. *)
Lemma validateRegistration_passed (b : RegisterBody) :
  validateRegistration b = [] ->
  exists name email password,
    r_name b = JStr name /\ r_email b = JStr email /\
    r_password b = JStr password /\ r_confirmPassword b = JStr password /\
    2 <= len (trim name) <= 100 /\
    emailRegex_test (trim email) = true /\ len (trim email) <= 255 /\
    6 <= len password <= 128.
Proof.
  unfold validateRegistration; intros H.
  apply app_eq_nil in H; destruct H as [Hn H].
  apply app_eq_nil in H; destruct H as [He H].
  apply app_eq_nil in H; destruct H as [Hp Hc].
  destruct b as [n e p c]; simpl in *.
  destruct n as [| | | |name]; try discriminate.
  destruct e as [| | | |email]; try discriminate.
  destruct p as [| | | |password]; try discriminate.
  exists name, email, password.
  unfold name_errors, email_errors, password_errors, confirm_errors in *.
  destruct (negb (truthy (JStr name))); [discriminate|].
  destruct (len (trim name) <? 2) eqn:N1; [discriminate|].
  destruct (100 <? len (trim name)) eqn:N2; [discriminate|].
  destruct (negb (truthy (JStr email))); [discriminate|].
  destruct (emailRegex_test (trim email)); [|discriminate].
  destruct (255 <? len (trim email)) eqn:E2; [discriminate|].
  destruct (negb (truthy (JStr password))); [discriminate|].
  destruct (len password <? 6) eqn:P1; [discriminate|].
  destruct (128 <? len password) eqn:P2; [discriminate|].
  destruct (negb (truthy c) || negb (is_string c)); [discriminate|].
  destruct (strict_eq (JStr password) c) eqn:C1; [|discriminate].
  apply strict_eq_str in C1.
  repeat split; auto; lia.
Qed.

(** Closes the case of a request that was turned away: the database is
    the one it found and the status is not 201. *)
Ltac refused := left; split; [reflexivity | cbv; discriminate].

(** Case analysis on the test or the lookup the goal branches on. *)
Ltac case_goal :=
  match goal with
  | |- context [if ?c then _ else _] => destruct c
  | |- context [match ?c with Some _ => _ | None => _ end] => destruct c
  end.

Section Registration.

Context {P : Platform} (env : Env).

(** What [POST /register] can do to the database: nothing, or append one
    row built from the sanitized name, the sanitized and lower-cased
    email and the hash of the password, after its checks passed and it
    found no row with that email. *)
Lemma register_effect (db : Db) (b : RegisterBody) (now : Z) :
  (snd (register env db b now) = db
   /\ http (fst (register env db b now)) <> 201)
  \/ exists name email password,
       validateRegistration b = [] /\
       r_name b = JStr name /\ r_email b = JStr email /\
       r_password b = JStr password /\
       (len (sanitizeString name) <? 2) = false /\
       (len (toLowerCase (sanitizeString email)) =? 0)
       || negb (includes_unit 64 (toLowerCase (sanitizeString email)))
       = false /\
       user_by_email db (toLowerCase (sanitizeString email)) = None /\
       snd (register env db b now) =
       fst (insert_user db (sanitizeString name)
              (toLowerCase (sanitizeString email))
              (bcrypt_hash password saltRounds) now).
Proof.
  unfold register.
  destruct (validateRegistration b) eqn:V; [|refused].
  destruct (validateRegistration_passed b V)
    as (name & email & password & -> & -> & -> & Hc & _).
  unfold register_handler; cbv zeta.
  destruct (len (sanitizeString name) <? 2) eqn:C1; [refused|].
  destruct (_ || _) eqn:C2; [refused|].
  destruct (len password <? 6); [refused|].
  destruct (negb (strict_eq (JStr password) (r_confirmPassword b)));
    [refused|].
  destruct (user_by_email db (toLowerCase (sanitizeString email))) eqn:L;
    [refused|].
  right; exists name, email, password.
  repeat split; auto.
  unfold insert_user; cbv zeta.
  repeat case_goal; reflexivity.
Qed.

(** The 409 of [POST /register] is the answer to a lookup, by the
    sanitized and lower-cased email, that found a row. *)
Lemma register_conflict (db : Db) (b : RegisterBody) (now : Z) :
  fst (register env db b now) = user_exists ->
  exists email,
    r_email b = JStr email /\
    user_by_email db (toLowerCase (sanitizeString email)) <> None.
Proof.
  unfold register.
  destruct (validateRegistration b) eqn:V; [|discriminate].
  destruct (validateRegistration_passed b V)
    as (name & email & password & -> & -> & -> & Hc & _).
  unfold register_handler; cbv zeta.
  destruct (len (sanitizeString name) <? 2); [discriminate|].
  destruct (_ || _); [discriminate|].
  destruct (len password <? 6); [discriminate|].
  destruct (negb (strict_eq (JStr password) (r_confirmPassword b)));
    [discriminate|].
  destruct (user_by_email db (toLowerCase (sanitizeString email))) eqn:L.
  - intros _; exists email; split; [reflexivity | rewrite L; discriminate].
  - unfold insert_user; cbv zeta.
    repeat case_goal; discriminate.
Qed.

End Registration.

(** ** The schema constraints hold along every run *)

Lemma insert_user_wf (db : Db) (name email password : jsstring) (now : Z) :
  wf db -> user_by_email db email = None ->
  wf (fst (insert_user db name email password now)).
Proof.
  intros [H1 H2 H3 H4 H5 H6] L; unfold insert_user; simpl.
  pose proof (next_id_above (user_seq db) (map u_id (users db))) as [Hs _].
  split; simpl; auto; try lia.
  - rewrite map_app; simpl. apply NoDup_snoc; [auto | apply next_id_fresh].
  - rewrite map_app; simpl.
    apply NoDup_snoc; [auto | now apply user_by_email_none].
  - intros t Ht; destruct (H4 t Ht) as (u & Hu & E).
    exists u; split; [apply in_or_app; auto | auto].
Qed.

Lemma insert_task_wf (db db' : Db) (title description : jsstring)
    (status deadline reminder_time : jsval) (userId now id : Z) :
  wf db ->
  insert_task db title description status deadline reminder_time userId now
  = Some (db', id) ->
  wf db'.
Proof.
  intros [H1 H2 H3 H4 H5 H6]; unfold insert_task.
  destruct (user_by_id db userId) as [u|] eqn:L; [|discriminate].
  intros E; inversion E; subst; clear E.
  pose proof (next_id_above (task_seq db) (map t_id (tasks db))) as [Hs _].
  apply user_by_id_In in L; destruct L as [Hu Hid].
  split; simpl; auto; try lia.
  - rewrite map_app; simpl. apply NoDup_snoc; [auto | apply next_id_fresh].
  - intros t Ht; apply in_app_or in Ht; destruct Ht as [Ht|[<-|[]]]; eauto.
Qed.

Lemma assignments_frame (updates : list assignment) (t : Task) :
  t_id (fold_left assign updates t) = t_id t
  /\ t_user_id (fold_left assign updates t) = t_user_id t
  /\ t_created_at (fold_left assign updates t) = t_created_at t.
Proof.
  revert t; induction updates as [|a l IH]; intros t; simpl; [auto|].
  destruct (IH (assign t a)) as (-> & -> & ->). repeat split.
Qed.

Lemma update_tasks_wf (db : Db) (updates : list assignment)
    (id userId now : Z) :
  wf db -> wf (update_tasks db updates id userId now).
Proof.
  intros [H1 H2 H3 H4 H5 H6]; unfold update_tasks.
  assert (Hrow : forall t,
    let t' := if (t_id t =? id) && (t_user_id t =? userId)
              then touch now (fold_left assign updates t) else t in
    t_id t' = t_id t /\ t_user_id t' = t_user_id t).
  { intros r; cbv zeta. destruct (_ && _); [|auto]. simpl.
    destruct (assignments_frame updates r) as (-> & -> & _); auto. }
  split; simpl; auto.
  - rewrite map_map. erewrite map_ext; [exact H3|].
    intros r; apply (Hrow r).
  - intros t Ht; apply in_map_iff in Ht; destruct Ht as (t0 & <- & Ht0).
    destruct (H4 t0 Ht0) as (u & Hu & E). exists u; split; [auto|].
    rewrite E; symmetry; apply (Hrow t0).
Qed.

Section Runs.

Context {P : Platform} (env : Env).

Lemma createTask_effect (db : Db) (userId : Z) (b : TaskBody) (now : Z) :
  (snd (createTask db userId b now) = db
   /\ http (fst (createTask db userId b now)) <> 201)
  \/ exists title description db' id,
       b_title b = JStr title /\
       insert_task db (trim title) description
         (match b_status b with JUndefined => JStr (lit "To Do") | v => v end)
         (js_or (b_deadline b) JNull) (js_or (b_reminder_time b) JNull)
         userId now = Some (db', id) /\
       createTask db userId b now =
       ({| http := 201; success := true;
           message := Some "Task created successfully";
           errors := None; code := None; data := RunResult id 1 |}, db').
Proof.
  unfold createTask; cbv zeta.
  destruct (negb (truthy (b_title b))); [refused|].
  destruct (b_title b) as [| | | |title]; try refused.
  destruct (len (trim title) =? 0); [refused|].
  destruct (_ && _); [refused|].
  destruct (description_param (b_description b)) as [d|]; [|refused].
  destruct (insert_task _ _ _ _ _ _ _ _) as [[db' id]|] eqn:E; [|refused].
  right; exists title, d, db', id; auto.
Qed.

Lemma updateTask_effect (db : Db) (userId id : Z) (b : TaskBody) (now : Z) :
  (snd (updateTask db userId id b now) = db
   /\ http (fst (updateTask db userId id b now)) <> 201)
  \/ exists updates,
       snd (updateTask db userId id b now) =
       update_tasks db updates id userId now.
Proof.
  unfold updateTask.
  destruct (task_of_owner db id userId); [|refused].
  destruct (blank_title (b_title b)) as [[|]|]; try refused.
  destruct (_ && _); [refused|].
  destruct (description_update (b_description b)) as [d|]; [|refused].
  cbv zeta. destruct (_ ++ _) eqn:E; [refused|].
  right; eexists; reflexivity.
Qed.

Lemma deleteTask_wf (db : Db) (userId id : Z) :
  wf db -> wf (snd (deleteTask db userId id)).
Proof.
  intros W; unfold deleteTask.
  destruct (task_of_owner db id userId); [|exact W].
  destruct W as [H1 H2 H3 H4 H5 H6]; split; simpl; auto.
  - now apply filter_keeps_ids_distinct.
  - intros r Hr; apply filter_In in Hr; destruct Hr as [Hr _]; auto.
Qed.

(** Every write request keeps the constraints of the schema. *)
Lemma step_wf (db : Db) (op : Op) : wf db -> wf (step env db op).
Proof.
  intros W; destruct op as [b now|u b now|u id b now|u id]; simpl.
  - destruct (register_effect env db b now)
      as [[-> _]|(n & e & p & _ & _ & _ & _ & _ & _ & L & ->)]; [exact W|].
    now apply insert_user_wf.
  - destruct (createTask_effect db u b now)
      as [[-> _]|(t & d & db' & id & _ & I & ->)]; [exact W|].
    simpl; eapply insert_task_wf; eauto.
  - destruct (updateTask_effect db u id b now) as [[-> _]|(ups & ->)];
      [exact W | now apply update_tasks_wf].
  - now apply deleteTask_wf.
Qed.

Lemma run_wf (db : Db) (ops : list Op) : wf db -> wf (run env db ops).
Proof.
  revert db; induction ops as [|op ops IH]; intros db W; simpl; [exact W|].
  apply IH, step_wf, W.
Qed.

(** No request removes or rewrites a row of [users]. *)
Lemma step_keeps_users (db : Db) (op : Op) (u : User) :
  In u (users db) -> In u (users (step env db op)).
Proof.
  intros Hu; destruct op as [b now|w b now|w id b now|w id]; simpl.
  - destruct (register_effect env db b now)
      as [[-> _]|(n & e & p & _ & _ & _ & _ & _ & _ & _ & ->)]; [exact Hu|].
    simpl; apply in_or_app; auto.
  - destruct (createTask_effect db w b now)
      as [[-> _]|(t & d & db' & id & _ & I & ->)]; [exact Hu|].
    unfold insert_task in I. destruct (user_by_id db w); [|discriminate].
    inversion I; subst; exact Hu.
  - destruct (updateTask_effect db w id b now) as [[-> _]|(ups & ->)];
      exact Hu.
  - unfold deleteTask. destruct (task_of_owner db id w); exact Hu.
Qed.

Lemma run_keeps_users (db : Db) (ops : list Op) (u : User) :
  In u (users db) -> In u (users (run env db ops)).
Proof.
  revert db; induction ops as [|op ops IH]; intros db Hu; simpl; [exact Hu|].
  apply IH, step_keeps_users, Hu.
Qed.

(** X1. From the empty database, every sequence of registrations and
    task writes leaves a database that satisfies the constraints of the
    schema. *)
Theorem schema_constraints_along_runs (ops : list Op) :
  wf (run env empty_db ops).
Proof. apply run_wf, wf_empty. Qed.

End Runs.

(** ** Deleting a task *)

Lemma find_filter_negb {A} (p : A -> bool) (l : list A) :
  find p (filter (fun x => negb (p x)) l) = None.
Proof.
  induction l as [|x l IH]; simpl; [reflexivity|].
  destruct (p x) eqn:E; simpl; [exact IH | now rewrite E].
Qed.

(** X5. A delete that succeeded is answered 404 when it is repeated. *)
Theorem deleteTask_twice (db : Db) (userId id : Z) :
  http (fst (deleteTask db userId id)) = 200 ->
  deleteTask (snd (deleteTask db userId id)) userId id
  = (failure 404 "Task not found" None, snd (deleteTask db userId id)).
Proof.
  unfold deleteTask at 1 3 4.
  destruct (task_of_owner db id userId); [|discriminate].
  intros _; simpl snd. unfold deleteTask, task_of_owner; simpl tasks.
  now rewrite (find_filter_negb
                 (fun t => (t_id t =? id) && (t_user_id t =? userId))).
Qed.

(** ** Sanitization and duplicate emails *)

Section Accounts.

Context {P : Platform} (env : Env).

(** C10. [sanitizeInput] turns every string into a string with no [<],
    no [>] and no white space at either end; registration looks up the
    duplicate by the sanitized (then lower-cased) email, and the row it
    stores holds the sanitized name and that email. *)
Theorem sanitizeInput_clean_and_used_by_register :
  (forall s, exists s',
      sanitizeInput (JStr s) = JStr s' /\
      ~ In 60%N s' /\ ~ In 62%N s' /\ no_outer_space s')
  /\ (forall db b now,
        fst (register env db b now) = user_exists ->
        exists e,
          sanitizeInput (r_email b) = JStr e /\
          user_by_email db (toLowerCase e) <> None)
  /\ (forall db b now,
        users (snd (register env db b now)) = users db
        \/ exists n e u,
             sanitizeInput (r_name b) = JStr n /\
             sanitizeInput (r_email b) = JStr e /\
             user_by_email db (toLowerCase e) = None /\
             users (snd (register env db b now)) = users db ++ [u] /\
             u_name u = n /\ u_email u = toLowerCase e).
Proof.
  split; [|split].
  - intros s; exists (sanitizeString s); split; [reflexivity|].
    split; [|split; [|apply trim_no_outer_space]];
      intros H; apply sanitizeString_In in H; destruct H as [_ H];
      discriminate.
  - intros db b now H.
    destruct (register_conflict env db b now H) as (email & E & L).
    exists (sanitizeString email); rewrite E; auto.
  - intros db b now.
    destruct (register_effect env db b now)
      as [[-> _]|(n & e & p & _ & En & Ee & _ & _ & _ & L & ->)];
      [left; reflexivity|].
    right; exists (sanitizeString n), (sanitizeString e).
    eexists; rewrite En, Ee; simpl; repeat split; auto.
Qed.


End Accounts.

(** ** Login *)

Section Login.

Context {P : Platform} (env : Env).

Lemma validateLogin_passed (b : LoginBody) :
  validateLogin b = [] ->
  exists email password, l_email b = JStr email /\ l_password b = JStr password.
Proof.
  unfold validateLogin; intros H.
  apply app_eq_nil in H; destruct H as [He Hp].
  destruct b as [e p]; simpl in *.
  destruct e as [| | | |email]; try discriminate.
  destruct p as [| | | |password]; try discriminate.
  eauto.
Qed.

(** C2, amended. Among the login requests that pass [validateLogin], one
    whose email matches no user and one whose email matches a user but
    whose password fails [bcrypt.compare] get the same response: status
    401 and the one generic body. *)
Theorem login_failures_are_identical
    (db : Db) (b1 b2 : LoginBody) (now1 now2 : Z)
    (e1 e2 p2 : jsstring) (u : User) :
  validateLogin b1 = [] ->
  validateLogin b2 = [] ->
  l_email b1 = JStr e1 ->
  l_email b2 = JStr e2 ->
  l_password b2 = JStr p2 ->
  user_by_email db (toLowerCase (sanitizeString e1)) = None ->
  user_by_email db (toLowerCase (sanitizeString e2)) = Some u ->
  bcrypt_compare p2 (u_password u) = false ->
  login env db b1 now1 = login env db b2 now2
  /\ login env db b2 now2 =
     failure 401 "Invalid email or password" (Some "INVALID_CREDENTIALS").
Proof.
  intros V1 V2 E1 E2 P2 L1 L2 C.
  destruct (validateLogin_passed b1 V1) as (e & p1 & E1' & P1).
  unfold login, login_handler; rewrite V1, V2, E1, E2, P1, P2.
  cbv zeta; rewrite L1, L2, C; split; reflexivity.
Qed.

End Login.

(** ** Updating a task *)

Lemma NoDup_map_inj {A B} (f : A -> B) (l : list A) (x y : A) :
  NoDup (map f l) -> In x l -> In y l -> f x = f y -> x = y.
Proof.
  induction l as [|a l IH]; simpl; [tauto|].
  intros H; inversion_clear H as [|? ? Ha Hl].
  intros [->|Hx] [->|Hy] E; auto.
  - exfalso; apply Ha; rewrite E; now apply in_map.
  - exfalso; apply Ha; rewrite <- E; now apply in_map.
Qed.

Lemma find_map_by_id (g : Task -> Task) (l : list Task) (t : Task) :
  (forall x, t_id (g x) = t_id x) ->
  NoDup (map t_id l) -> In t l ->
  find (fun x => t_id x =? t_id t) (map g l) = Some (g t).
Proof.
  intros Hg; induction l as [|a l IH]; simpl; [tauto|].
  intros H; inversion_clear H as [|? ? Ha Hl].
  rewrite Hg. intros [->|Ht].
  - now rewrite Z.eqb_refl.
  - destruct (t_id a =? t_id t) eqn:E; [|auto].
    exfalso; apply Ha. replace (t_id a) with (t_id t) by lia.
    now apply in_map.
Qed.

(** The UPDATE that the handler assembles from an acceptable body is the
    update said field by field. *)
Lemma assembled_update (b : TaskBody) (now : Z) (t : Task) :
  acceptable b = true ->
  exists description_set,
    blank_title (b_title b) = Some false /\
    truthy (b_status b) && negb (includes statuses (b_status b)) = false /\
    description_update (b_description b) = Some description_set /\
    touch now
      (fold_left assign
         (title_update (b_title b) ++ description_set
          ++ when_present SetStatus (b_status b)
          ++ when_present SetDeadline (b_deadline b)
          ++ when_present SetReminderTime (b_reminder_time b)) t)
    = updated_row b now t /\
    (title_update (b_title b) ++ description_set
     ++ when_present SetStatus (b_status b)
     ++ when_present SetDeadline (b_deadline b)
     ++ when_present SetReminderTime (b_reminder_time b) = []
     <-> has_field b = false).
Proof.
  destruct b as [ti de st dl rt]; unfold acceptable, has_field;
    cbn [b_title b_description b_status b_deadline b_reminder_time].
  intros H; apply andb_true_iff in H; destruct H as [H Hst].
  apply andb_true_iff in H; destruct H as [Hti Hde].
  assert (Hs : truthy st && negb (includes statuses st) = false).
  { destruct st; try reflexivity; rewrite Hst; apply andb_false_r. }
  destruct ti as [| | | |title]; try discriminate;
    destruct de as [| | | |descr]; try discriminate;
    (eexists; split;
       [simpl; try (apply negb_true_iff in Hti; rewrite Hti); reflexivity|];
     split; [exact Hs|]; split; [reflexivity|]);
    destruct st, dl, rt; simpl; split; try reflexivity;
    split; discriminate || reflexivity.
Qed.

Lemma updateTask_rejected (db : Db) (userId id : Z) (b : TaskBody) (now : Z) :
  http (fst (updateTask db userId id b now)) <> 200 ->
  snd (updateTask db userId id b now) = db.
Proof.
  unfold updateTask.
  destruct (task_of_owner db id userId); [|reflexivity].
  destruct (blank_title (b_title b)) as [[|]|]; try reflexivity.
  destruct (_ && _); [reflexivity|].
  destruct (description_update (b_description b)); [|reflexivity].
  cbv zeta. destruct (_ ++ _); [reflexivity|].
  simpl; intros H; now contradiction H.
Qed.

Lemma assign_other_column (a : assignment) (t : Task) (c : column) :
  column_of a <> c -> cell c (assign t a) = cell c t.
Proof.
  destruct a, c; simpl; intros H; try reflexivity; now contradiction H.
Qed.

Lemma assignments_other_columns (l : list assignment) (c : column) :
  (forall a, In a l -> column_of a <> c) ->
  forall t, cell c (fold_left assign l t) = cell c t.
Proof.
  induction l as [|a l IH]; intros H t; simpl; [reflexivity|].
  rewrite IH by (intros x Hx; apply H; now right).
  apply assign_other_column, H; now left.
Qed.

(** The UPDATE statement sets no column whose key is absent. *)
Lemma assembled_columns (b : TaskBody) (d : list assignment)
    (a : assignment) :
  description_update (b_description b) = Some d ->
  In a (title_update (b_title b) ++ d
        ++ when_present SetStatus (b_status b)
        ++ when_present SetDeadline (b_deadline b)
        ++ when_present SetReminderTime (b_reminder_time b)) ->
  field (column_of a) b <> JUndefined.
Proof.
  intros Hd H.
  repeat (apply in_app_or in H; destruct H as [H|H]).
  - destruct (b_title b) eqn:E; simpl in H; try contradiction.
    destruct H as [<-|[]]; simpl; congruence.
  - destruct (b_description b) eqn:E; simpl in Hd; inversion Hd; subst d;
      simpl in H; try contradiction;
      destruct H as [<-|[]]; simpl; congruence.
  - destruct (b_status b) eqn:E; simpl in H; try contradiction;
      destruct H as [<-|[]]; simpl; congruence.
  - destruct (b_deadline b) eqn:E; simpl in H; try contradiction;
      destruct H as [<-|[]]; simpl; congruence.
  - destruct (b_reminder_time b) eqn:E; simpl in H; try contradiction;
      destruct H as [<-|[]]; simpl; congruence.
Qed.

(** An update of an owned task that is answered 200 has run the UPDATE
    statement on that row and on no other, and answers with the row. *)
Lemma updateTask_accepted (db : Db) (t : Task) (b : TaskBody) (now : Z) :
  NoDup (map t_id (tasks db)) ->
  In t (tasks db) ->
  http (fst (updateTask db (t_user_id t) (t_id t) b now)) = 200 ->
  exists updates,
    (forall a, In a updates -> field (column_of a) b <> JUndefined)
    /\ updateTask db (t_user_id t) (t_id t) b now
       = ({| http := 200; success := true;
             message := Some "Task updated successfully";
             errors := None; code := None;
             data := TaskRow (touch now (fold_left assign updates t)) |},
          {| users := users db;
             tasks := map (fun x => if t_id x =? t_id t
                                    then touch now (fold_left assign updates t)
                                    else x) (tasks db);
             user_seq := user_seq db;
             task_seq := task_seq db |}).
Proof.
  intros Hnd Hin. unfold updateTask.
  destruct (task_of_owner db (t_id t) (t_user_id t)); [|discriminate].
  destruct (blank_title (b_title b)) as [[|]|]; try discriminate.
  destruct (_ && _); [discriminate|].
  destruct (description_update (b_description b)) as [d|] eqn:Hd;
    [|discriminate].
  cbv zeta.
  destruct (title_update (b_title b) ++ d ++ _) as [|a l] eqn:E;
    [discriminate|].
  rewrite <- E. intros _.
  exists (title_update (b_title b) ++ d
          ++ when_present SetStatus (b_status b)
          ++ when_present SetDeadline (b_deadline b)
          ++ when_present SetReminderTime (b_reminder_time b)).
  split; [intros x; now apply assembled_columns|].
  set (ups := title_update (b_title b) ++ d ++ _).
  assert (Hdb : update_tasks db ups (t_id t) (t_user_id t) now
            = {| users := users db;
                 tasks := map (fun x => if t_id x =? t_id t
                                        then touch now (fold_left assign ups t)
                                        else x) (tasks db);
                 user_seq := user_seq db;
                 task_seq := task_seq db |}).
  { unfold update_tasks; f_equal.
    apply map_ext_in; intros x Hx.
    destruct (t_id x =? t_id t) eqn:I; [|reflexivity].
    rewrite (NoDup_map_inj t_id (tasks db) x t Hnd Hx Hin) by lia.
    now rewrite !Z.eqb_refl. }
  rewrite Hdb. unfold updated, task_by_id; cbn [tasks].
  rewrite (find_map_by_id
             (fun x => if t_id x =? t_id t
                       then touch now (fold_left assign ups t) else x)
             (tasks db) t); auto.
  - now rewrite Z.eqb_refl.
  - intros x; destruct (t_id x =? t_id t) eqn:I; [|reflexivity].
    cbn [touch t_id]. destruct (assignments_frame ups t) as (-> & _). lia.
Qed.

(** C5, amended. For an owned task: an update that is answered 200 sets
    no field whose key is absent, keeps the identifier, the owner and
    [created_at], refreshes [updated_at], changes no other row and
    answers with the reloaded row; one that is not answered 200 changes
    nothing. For a body whose fields the handler accepts: with no
    recognized key the request is answered 400 and the database stays as
    it is; otherwise it is answered 200 and, when its deadline and
    reminder time are values that the column keeps as bound, the row
    takes exactly the values sent. *)
Theorem updateTask_changes_present_fields {P : Platform}
    (db : Db) (t : Task) (b : TaskBody) (now : Z) :
  NoDup (map t_id (tasks db)) ->
  In t (tasks db) ->
  (acceptable b = true -> has_field b = false ->
   updateTask db (t_user_id t) (t_id t) b now =
   (failure 400 "No fields to update" None, db))
  /\ (acceptable b = true -> datetimes_kept b = true ->
      has_field b = true ->
      updateTask db (t_user_id t) (t_id t) b now =
      ({| http := 200; success := true;
          message := Some "Task updated successfully";
          errors := None; code := None;
          data := TaskRow (updated_row b now t) |},
       {| users := users db;
          tasks := map (fun x => if t_id x =? t_id t
                                 then updated_row b now x else x) (tasks db);
          user_seq := user_seq db;
          task_seq := task_seq db |}))
  /\ (acceptable b = true -> has_field b = true ->
      http (fst (updateTask db (t_user_id t) (t_id t) b now)) = 200)
  /\ (http (fst (updateTask db (t_user_id t) (t_id t) b now)) = 200 ->
      exists t',
        updateTask db (t_user_id t) (t_id t) b now
        = ({| http := 200; success := true;
              message := Some "Task updated successfully";
              errors := None; code := None; data := TaskRow t' |},
           {| users := users db;
              tasks := map (fun x => if t_id x =? t_id t then t' else x)
                         (tasks db);
              user_seq := user_seq db;
              task_seq := task_seq db |})
        /\ t_id t' = t_id t /\ t_user_id t' = t_user_id t
        /\ t_created_at t' = t_created_at t /\ t_updated_at t' = now
        /\ forall c, field c b = JUndefined -> cell c t' = cell c t)
  /\ (http (fst (updateTask db (t_user_id t) (t_id t) b now)) <> 200 ->
      snd (updateTask db (t_user_id t) (t_id t) b now) = db).
Proof.
  intros Hnd Hin.
  assert (Hown : task_of_owner db (t_id t) (t_user_id t) <> None).
  { unfold task_of_owner; intros H.
    apply (find_none _ _ H) in Hin. rewrite !Z.eqb_refl in Hin.
    discriminate. }
  assert (Hsame : forall g : Task -> Task,
    map (fun x => if (t_id x =? t_id t) && (t_user_id x =? t_user_id t)
                  then g x else x) (tasks db)
    = map (fun x => if t_id x =? t_id t then g x else x) (tasks db)).
  { intros g; apply map_ext_in; intros x Hx.
    destruct (t_id x =? t_id t) eqn:E; [|reflexivity].
    rewrite (NoDup_map_inj t_id (tasks db) x t Hnd Hx Hin) by lia.
    now rewrite Z.eqb_refl. }
  assert (Hyes : acceptable b = true -> has_field b = true ->
    updateTask db (t_user_id t) (t_id t) b now =
    ({| http := 200; success := true;
        message := Some "Task updated successfully";
        errors := None; code := None;
        data := TaskRow (updated_row b now t) |},
     {| users := users db;
        tasks := map (fun x => if t_id x =? t_id t
                               then updated_row b now x else x) (tasks db);
        user_seq := user_seq db;
        task_seq := task_seq db |})).
  { intros Hacc Hyes. unfold updateTask.
    destruct (task_of_owner db (t_id t) (t_user_id t)); [|contradiction].
    destruct (assembled_update b now t Hacc)
      as (d & -> & -> & Hd & _ & Hnil).
    rewrite Hd; cbv zeta.
    destruct (title_update (b_title b) ++ d ++ _) as [|a l] eqn:E.
    { rewrite (proj1 Hnil eq_refl) in Hyes; discriminate. }
    rewrite <- E; clear Hnil E a l.
    assert (Hdb : update_tasks db
               (title_update (b_title b) ++ d
                ++ when_present SetStatus (b_status b)
                ++ when_present SetDeadline (b_deadline b)
                ++ when_present SetReminderTime (b_reminder_time b))
               (t_id t) (t_user_id t) now
             = {| users := users db;
                  tasks := map (fun x => if t_id x =? t_id t
                                         then updated_row b now x else x)
                             (tasks db);
                  user_seq := user_seq db;
                  task_seq := task_seq db |}).
    { unfold update_tasks; f_equal. rewrite Hsame.
      apply map_ext; intros x. destruct (t_id x =? t_id t); [|reflexivity].
      destruct (assembled_update b now x Hacc)
        as (d' & _ & _ & Hd' & Hrow & _).
      assert (d' = d) by congruence; subst d'. exact Hrow. }
    rewrite Hdb. unfold updated, task_by_id; simpl tasks.
    rewrite (find_map_by_id
               (fun x => if t_id x =? t_id t then updated_row b now x else x)
               (tasks db) t); auto.
    + now rewrite Z.eqb_refl.
    + intros x; destruct (t_id x =? t_id t); reflexivity. }
  split; [|split; [|split; [|split; [|apply updateTask_rejected]]]].
  - intros Hacc Hno. unfold updateTask.
    destruct (task_of_owner db (t_id t) (t_user_id t)); [|contradiction].
    destruct (assembled_update b now t Hacc)
      as (d & -> & -> & -> & _ & Hnil).
    cbv zeta. apply Hnil in Hno. rewrite Hno. reflexivity.
  - intros Hacc _; exact (Hyes Hacc).
  - intros Hacc Hf; now rewrite (Hyes Hacc Hf).
  - intros H200.
    destruct (updateTask_accepted db t b now Hnd Hin H200)
      as (ups & Hcols & ->).
    exists (touch now (fold_left assign ups t)).
    destruct (assignments_frame ups t) as (Eid & Eown & Ecr).
    repeat split; auto.
    intros c Hc.
    transitivity (cell c (fold_left assign ups t));
      [destruct c; reflexivity|].
    apply assignments_other_columns.
    intros a Ha E; apply (Hcols a Ha). now rewrite E.
Qed.

(** ** Tokens *)

Lemma until_space_all (s : jsstring) : ~ In 32%N s -> until_space s = s.
Proof.
  induction s as [|c s IH]; simpl; [reflexivity|].
  intros H. destruct (N.eqb c 32) eqn:E.
  - apply N.eqb_eq in E; exfalso; auto.
  - f_equal; apply IH; auto.
Qed.

Lemma bearer_token_of_header (token : jsstring) :
  ~ In 32%N token -> bearer_token (lit "Bearer " ++ token) = Some token.
Proof.
  intros H; unfold bearer_token; simpl. now rewrite until_space_all.
Qed.

Section Tokens.

Context {P : Platform} {J : JwtContract P} (env : Env).

(** A token of [generateToken], sent as [Bearer <token>] before it
    expires, is resolved to the identifier it was made for. *)
Lemma authenticateToken_generateToken (id now clock : Z) :
  clock / 1000 < now / 1000 + or_default (JWT_EXPIRES_IN env) default_expiry ->
  authenticateToken env (Some (lit "Bearer " ++ generateToken env id now))
    clock
  = Authenticated
      {| userId := id; tokenIssuedAt := now / 1000;
         tokenExpiresAt :=
           now / 1000 + or_default (JWT_EXPIRES_IN env) default_expiry |}.
Proof.
  intros Hclock. unfold authenticateToken.
  rewrite bearer_token_of_header by apply sign_no_space.
  destruct (generateToken env id now) eqn:G;
    [exfalso; revert G; apply sign_nonempty|].
  rewrite <- G; unfold generateToken.
  rewrite verify_sign by exact Hclock. reflexivity.
Qed.

Lemma register_created (db : Db) (b : RegisterBody) (now : Z) :
  http (fst (register env db b now)) = 201 ->
  exists u created,
    users (snd (register env db b now)) = users db ++ [u] /\
    user_by_id (snd (register env db b now)) (u_id u) = Some created /\
    fst (register env db b now) =
    {| http := 201; success := true;
       message := Some "User registered successfully";
       errors := None; code := None;
       data := Identity (u_id created) (u_name created) (u_email created)
                 (generateToken env (u_id u) now) (u_created_at created) |}.
Proof.
  unfold register.
  destruct (validateRegistration b) eqn:V; [|discriminate].
  destruct (validateRegistration_passed b V)
    as (name & email & password & -> & -> & -> & Hc & _).
  unfold register_handler; cbv zeta.
  destruct (len (sanitizeString name) <? 2); [discriminate|].
  destruct (_ || _); [discriminate|].
  destruct (len password <? 6); [discriminate|].
  destruct (negb (strict_eq (JStr password) (r_confirmPassword b)));
    [discriminate|].
  destruct (user_by_email db (toLowerCase (sanitizeString email)));
    [discriminate|].
  unfold insert_user; cbv zeta.
  destruct (next_id (user_seq db) (map u_id (users db)) =? 0);
    [discriminate|].
  match goal with
  | |- context [user_by_id ?d ?i] => destruct (user_by_id d i) eqn:L
  end; [|discriminate].
  intros _; eexists; eexists; simpl; split; [reflexivity|].
  split; [exact L | reflexivity].
Qed.

(** C8. The token returned by a successful registration, presented as a
    bearer token under the same secret before its expiry, passes
    [authenticateToken], which attaches the identifier of the row just
    created; the middleware reads the header and the clock only, so the
    handler behind it is entered with that identifier whatever the
    database holds. *)
Theorem registration_token_round_trip
    (db : Db) (b : RegisterBody) (now clock : Z) :
  http (fst (register env db b now)) = 201 ->
  clock / 1000 < now / 1000 + or_default (JWT_EXPIRES_IN env) default_expiry ->
  exists u name email token createdAt,
    users (snd (register env db b now)) = users db ++ [u] /\
    data (fst (register env db b now)) =
      Identity (u_id u) name email token createdAt /\
    authenticateToken env (Some (lit "Bearer " ++ token)) clock =
      Authenticated
        {| userId := u_id u; tokenIssuedAt := now / 1000;
           tokenExpiresAt :=
             now / 1000 + or_default (JWT_EXPIRES_IN env) default_expiry |} /\
    forall (any : Db) (h : Z -> response * Db),
      authenticated env (Some (lit "Bearer " ++ token)) clock any h
      = h (u_id u).
Proof.
  intros Hok Hclock.
  destruct (register_created db b now Hok) as (u & c & Hu & Hc & ->).
  apply user_by_id_In in Hc; destruct Hc as [_ Hid].
  exists u, (u_name c), (u_email c), (generateToken env (u_id u) now),
    (u_created_at c).
  rewrite Hid; simpl data.
  pose proof (authenticateToken_generateToken (u_id u) now clock Hclock) as A.
  repeat split; auto.
  intros any h; unfold authenticated; rewrite A; reflexivity.
Qed.

End Tokens.

(** ** The reminder job *)

Lemma str_leb_trans (a b c : jsstring) :
  str_leb a b = true -> str_leb b c = true -> str_leb a c = true.
Proof.
  revert b c; induction a as [|x a IH]; intros [|y b] [|z c]; simpl;
    try congruence.
  destruct (N.ltb x y) eqn:Hxy, (N.ltb y x) eqn:Hyx;
    destruct (N.ltb y z) eqn:Hyz, (N.ltb z y) eqn:Hzy;
    destruct (N.ltb x z) eqn:Hxz, (N.ltb z x) eqn:Hzx;
    try reflexivity; try discriminate;
    rewrite ?N.ltb_lt, ?N.ltb_ge in *; try lia.
  apply IH.
Qed.

(** *** The order of texts and the order of time *)

Lemma str_leb_compare (a b : jsstring) :
  str_leb a b = true <-> str_compare a b <> Gt.
Proof.
  revert b; induction a as [|x a IH]; intros [|y b]; simpl;
    try (split; [discriminate | reflexivity]);
    try (split; [discriminate | intros H; now contradiction H]).
  destruct (N.compare_spec x y) as [->|H|H]; simpl.
  - rewrite N.ltb_irrefl. apply IH.
  - apply N.ltb_lt in H; rewrite H. split; [discriminate|reflexivity].
  - assert (N.ltb x y = false) by (apply N.ltb_ge; lia).
    apply N.ltb_lt in H; rewrite H0, H.
    split; [discriminate | intros C; now contradiction C].
Qed.

Lemma str_compare_app (a b x y : jsstring) :
  List.length a = List.length b ->
  str_compare (a ++ x) (b ++ y)
  = then_compare (str_compare a b) (str_compare x y).
Proof.
  revert b; induction a as [|c a IH]; intros [|d b]; simpl;
    try discriminate; [reflexivity|].
  intros H; injection H as H. rewrite (IH b H).
  destruct (N.compare c d); reflexivity.
Qed.

Lemma digit_compare (m n : Z) :
  0 <= m < 10 -> 0 <= n < 10 ->
  N.compare (Z.to_N (48 + m)) (Z.to_N (48 + n)) = (m ?= n).
Proof.
  intros Hm Hn. rewrite Z2N.inj_compare by lia.
  apply Z.add_compare_mono_l.
Qed.

Lemma then_compare_digits (q1 q2 r1 r2 b : Z) :
  0 < b -> 0 <= r1 < b -> 0 <= r2 < b ->
  then_compare (q1 ?= q2) (r1 ?= r2) = (q1 * b + r1 ?= q2 * b + r2).
Proof.
  intros Hb H1 H2.
  destruct (Z.compare_spec q1 q2) as [->|H|H]; simpl.
  - symmetry; apply Z.add_compare_mono_l.
  - symmetry; apply Z.compare_lt_iff. nia.
  - symmetry; apply Z.compare_gt_iff. nia.
Qed.

Lemma pad_length (width : nat) (n : Z) : List.length (pad width n) = width.
Proof.
  revert n; induction width as [|w IH]; intros n; simpl; [reflexivity|].
  rewrite length_app, IH; simpl; lia.
Qed.

Lemma pad_compare (width : nat) :
  forall m n, 0 <= m < 10 ^ Z.of_nat width -> 0 <= n < 10 ^ Z.of_nat width ->
  str_compare (pad width m) (pad width n) = (m ?= n).
Proof.
  induction width as [|w IH]; intros m n Hm Hn.
  - simpl in *. replace m with 0 by lia; replace n with 0 by lia. reflexivity.
  - rewrite Nat2Z.inj_succ, Z.pow_succ_r in Hm, Hn by lia.
    cbn [pad]. rewrite str_compare_app by now rewrite !pad_length.
    rewrite IH by (split; [apply Z.div_pos; lia
                          | apply Z.div_lt_upper_bound; lia]).
    cbn [str_compare]. unfold digit.
    rewrite digit_compare by (apply Z.mod_pos_bound; lia).
    replace (then_compare (m mod 10 ?= n mod 10) Eq)
      with (m mod 10 ?= n mod 10)
      by (destruct (m mod 10 ?= n mod 10); reflexivity).
    rewrite (then_compare_digits _ _ _ _ 10)
      by (try apply Z.mod_pos_bound; lia).
    rewrite (Z.mul_comm (m / 10)), (Z.mul_comm (n / 10)).
    now rewrite <- !Z.div_mod by lia.
Qed.

Lemma date_text_compare (a b : Date) (x y : jsstring) :
  valid_date a -> valid_date b ->
  str_compare (date_text a ++ x) (date_text b ++ y)
  = then_compare (utc_year a ?= utc_year b)
      (then_compare (utc_month a ?= utc_month b)
         (then_compare (utc_day a ?= utc_day b) (str_compare x y))).
Proof.
  intros Va Vb. unfold date_text.
  rewrite <- !app_assoc.
  rewrite str_compare_app by now rewrite !pad_length.
  rewrite pad_compare by (unfold valid_date in *;
                          change (10 ^ Z.of_nat 4) with 10000; lia).
  f_equal. cbn [lit map list_ascii_of_string app N_of_ascii N_of_digits].
  change (lit "-") with [45%N]. cbn [app str_compare].
  rewrite N.compare_refl; cbn [then_compare].
  rewrite str_compare_app by now rewrite !pad_length.
  rewrite pad_compare by (unfold valid_date in *;
                          change (10 ^ Z.of_nat 2) with 100; lia).
  f_equal. cbn [app str_compare].
  rewrite N.compare_refl; cbn [then_compare].
  rewrite str_compare_app by now rewrite !pad_length.
  rewrite pad_compare by (unfold valid_date in *;
                          change (10 ^ Z.of_nat 2) with 100; lia).
  reflexivity.
Qed.

Lemma toISOString_compare (a b : Date) :
  valid_date a -> valid_date b ->
  str_compare (toISOString a) (toISOString b) = date_compare a b.
Proof.
  intros Va Vb. unfold toISOString, date_compare.
  rewrite date_text_compare by assumption.
  do 3 f_equal.
  change (lit "T") with [84%N]; change (lit ":") with [58%N];
    change (lit ".") with [46%N]; change (lit "Z") with [90%N].
  cbn [app str_compare]. rewrite N.compare_refl; cbn [then_compare].
  rewrite str_compare_app by now rewrite !pad_length.
  rewrite pad_compare by (unfold valid_date in *;
                          change (10 ^ Z.of_nat 2) with 100; lia).
  f_equal. cbn [app str_compare].
  rewrite N.compare_refl; cbn [then_compare].
  rewrite str_compare_app by now rewrite !pad_length.
  rewrite pad_compare by (unfold valid_date in *;
                          change (10 ^ Z.of_nat 2) with 100; lia).
  f_equal. cbn [app str_compare].
  rewrite N.compare_refl; cbn [then_compare].
  rewrite str_compare_app by now rewrite !pad_length.
  rewrite pad_compare by (unfold valid_date in *;
                          change (10 ^ Z.of_nat 2) with 100; lia).
  f_equal. cbn [app str_compare].
  rewrite N.compare_refl; cbn [then_compare].
  rewrite str_compare_app by now rewrite !pad_length.
  rewrite pad_compare by (unfold valid_date in *;
                          change (10 ^ Z.of_nat 3) with 1000; lia).
  cbn [str_compare]. rewrite N.compare_refl.
  destruct (utc_ms a ?= utc_ms b); reflexivity.
Qed.

Lemma date_text_midnight (a b : Date) :
  valid_date a -> valid_date b ->
  str_compare (date_text a) (toISOString b) <> Gt
  <-> date_compare (midnight a) b <> Gt.
Proof.
  intros Va Vb. unfold toISOString, date_compare.
  rewrite <- (app_nil_r (date_text a)) at 1.
  rewrite date_text_compare by assumption.
  cbn [midnight utc_year utc_month utc_day utc_hours utc_minutes
       utc_seconds utc_ms].
  change (lit "T") with [84%N]. cbn [app str_compare].
  destruct (utc_year a ?= utc_year b); cbn [then_compare]; try tauto.
  destruct (utc_month a ?= utc_month b); cbn [then_compare]; try tauto.
  destruct (utc_day a ?= utc_day b); cbn [then_compare]; try tauto.
  split; [intros _|discriminate].
  destruct Vb as (_ & _ & _ & Hh & Hm & Hs & Hms).
  destruct (Z.compare_spec 0 (utc_hours b)); cbn [then_compare];
    [|discriminate|lia].
  destruct (Z.compare_spec 0 (utc_minutes b)); cbn [then_compare];
    [|discriminate|lia].
  destruct (Z.compare_spec 0 (utc_seconds b)); cbn [then_compare];
    [|discriminate|lia].
  destruct (Z.compare_spec 0 (utc_ms b)); [discriminate|discriminate|lia].
Qed.

Section Reminders.

Context {P : Platform}.

Lemma reminderSweep_In (db : Db) (nowIso : jsstring) (t : Task)
    (e : jsstring) :
  In (t, e) (reminderSweep db nowIso) <->
  In t (tasks db)
  /\ reminder_due (t_reminder_time t) nowIso = true
  /\ not_done (t_status t) = true
  /\ exists u, In u (users db) /\ u_id u = t_user_id t /\ u_email u = e.
Proof.
  unfold reminderSweep; rewrite in_flat_map; split.
  - intros (x & Hx & Hrow). apply filter_In in Hx; destruct Hx as [Hx Hc].
    apply andb_true_iff in Hc; destruct Hc as [Hd Hs].
    apply in_map_iff in Hrow; destruct Hrow as (u & E & Hu).
    apply filter_In in Hu; destruct Hu as [Hu Hid].
    inversion E; subst. repeat split; auto. exists u; repeat split; auto; lia.
  - intros (Ht & Hd & Hs & u & Hu & Hid & He).
    exists t; split.
    + apply filter_In; split; [auto | now rewrite Hd, Hs].
    + apply in_map_iff; exists u; split; [now rewrite He|].
      apply filter_In; split; [auto | lia].
Qed.

Context {S : SqliteContract P}.

Lemma digit_is_digit (n : Z) : Validation.is_digit (digit n) = true.
Proof.
  unfold Validation.is_digit, digit.
  pose proof (Z.mod_pos_bound n 10 ltac:(lia)) as H.
  apply andb_true_iff; split; apply N.leb_le; lia.
Qed.

(** A text that starts with a date spells no number. *)
Lemma date_text_not_numeric (d : Date) (x : jsstring) :
  numeric_text (date_text d ++ x) = false.
Proof.
  change (date_text d ++ x)
    with ([digit (utc_year d / 10 / 10 / 10); digit (utc_year d / 10 / 10);
           digit (utc_year d / 10)]
          ++ digit (utc_year d) :: 45%N
             :: (pad 2 (utc_month d) ++ lit "-" ++ pad 2 (utc_day d)) ++ x).
  apply no_minus_after_digit, digit_is_digit.
Qed.

(** For a reminder that the application wrote, the comparison of the
    query is the comparison of the moments. *)
Lemma reminder_due_is_due (r : reminder) (now : Date) :
  valid_reminder r -> valid_date now ->
  (reminder_due (reminder_value r) (toISOString now) = true <-> due r now).
Proof.
  destruct r as [|d|d]; cbn [reminder_value valid_reminder due reminder_due];
    intros Vr Vn.
  - split; [discriminate | contradiction].
  - unfold toISOString at 1. rewrite date_text_not_numeric; cbn [orb].
    fold (toISOString d). rewrite str_leb_compare.
    now rewrite toISOString_compare.
  - rewrite <- (app_nil_r (date_text d)) at 1.
    rewrite date_text_not_numeric; cbn [orb].
    rewrite str_leb_compare. now apply date_text_midnight.
Qed.

(** A reminder that is due stays due. *)
Lemma due_later (r : reminder) (now1 now2 : Date) :
  valid_reminder r -> valid_date now1 -> valid_date now2 ->
  due r now1 -> not_after now1 now2 -> due r now2.
Proof.
  intros Vr V1 V2 H1 H12.
  apply (reminder_due_is_due r now2 Vr V2).
  apply (reminder_due_is_due r now1 Vr V1) in H1.
  unfold not_after in H12.
  rewrite <- toISOString_compare, <- str_leb_compare in H12 by assumption.
  destruct (reminder_value r) as [| | | |x]; simpl in *; auto.
  rewrite orb_true_iff in *. destruct H1 as [H1|H1]; [auto | right].
  eapply str_leb_trans; eauto.
Qed.


End Reminders.

(** ** The sample platform keeps the contract of jsonwebtoken *)

Lemma zdecode_zcode (z : Z) :
  Sample.zdecode (if z <? 0 then 45%N else 43%N) (33 + Z.to_N (Z.abs z))%N = z.
Proof.
  unfold Sample.zdecode; destruct (z <? 0) eqn:E; simpl N.eqb; cbv iota; lia.
Qed.

Lemma zcode_no_space (z : Z) : ~ In 32%N (Sample.zcode z).
Proof.
  unfold Sample.zcode; intros [H|[H|[]]]; [|lia].
  destruct (z <? 0); discriminate.
Qed.

Lemma sample_contract : JwtContract Sample.platform.
Proof.
  split; cbn [jwt_sign jwt_verify Sample.platform]; unfold Sample.sign.
  - intros c k o; discriminate.
  - intros c k o H.
    repeat (apply in_app_or in H; destruct H as [H|H];
            [exact (zcode_no_space _ H)|]).
    unfold Sample.seal in H; apply in_map_iff in H.
    destruct H as (x & E & _); lia.
  - intros c k o clock Hclock. unfold Sample.zcode, Sample.verify.
    cbn [app]. rewrite str_eqb_refl, !zdecode_zcode.
    replace (clock <? c_iat c + expiresIn o) with true by lia.
    reflexivity.
Qed.

(** * The backend on sample requests *)

#[local] Existing Instance Sample.platform.

Example sanitize_tag :
  sanitizeString (lit "  <b>Ann</b> ") = lit "bAnn/b".
Proof. reflexivity. Qed.

Example sanitize_scheme :
  sanitizeString (lit "JaVaScRiPt:alert(1)") = lit "alert(1)".
Proof. reflexivity. Qed.

Example sanitize_handler :
  sanitizeString (lit "a onClick=x on= onn=y") = lit "a x on= y".
Proof. reflexivity. Qed.

Example email_pattern :
  map emailRegex_test
    [lit "ann@x.com"; lit "a@b.c"; lit "a@b."; lit "a@.c"; lit "a b@x.c";
     lit "a@b@x.c"]
  = [true; true; false; false; false; false].
Proof. reflexivity. Qed.

Example bearer_header :
  map bearer_token [lit "Bearer abc.def"; lit "Bearer"; lit "Bearer  abc"]
  = [Some (lit "abc.def"); None; Some []].
Proof. reflexivity. Qed.

(** The scenario of a new user: registration, login, a first task that
    defaults to "To Do", its completion and its removal. *)
Example newest_first :
  map t_created_at
    (order_by_created_desc
       (tasks (snd (createTask Sample.db 1 Sample.new_task 5000))))
  = [5000; 3000].
Proof. reflexivity. Qed.

Example scenario :
  let r := register Sample.env empty_db Sample.ann_registration 1000 in
  let c := createTask (snd r) 1 Sample.new_task 2000 in
  let u := updateTask (snd c) 1 1 Sample.mark_done 3000 in
  let d := deleteTask (snd u) 1 1 in
  http (fst r) = 201
  /\ http (login Sample.env (snd r)
             (Sample.credentials "ann@x.com" "Abc123") 1500) = 200
  /\ fst c = {| http := 201; success := true;
                message := Some "Task created successfully";
                errors := None; code := None; data := RunResult 1 1 |}
  /\ map t_status (tasks (snd c)) = [JStr (lit "To Do")]
  /\ data (listTasks (snd c) 1 (JStr (lit "Done"))) = TaskRows []
  /\ http (fst u) = 200
  /\ map t_status (tasks (snd u)) = [JStr (lit "Done")]
  /\ http (fst d) = 200
  /\ http (getTask (snd d) 1 1) = 404.
Proof. vm_compute. repeat split. Qed.

(** ** Registration and the password rule *)

Section PasswordLength.

Context {P : Platform} (env : Env).

(** X2. A password shorter than 6 or longer than 128 code units is refused
    with 400 and no row is written, whatever the runtime and the
    libraries are. *)
Lemma register_refuses_password_length
    (db : Db) (b : RegisterBody) (now : Z) (p : jsstring) :
  r_password b = JStr p -> len p < 6 \/ 128 < len p ->
  http (fst (register env db b now)) = 400
  /\ snd (register env db b now) = db.
Proof.
  intros E H. unfold register.
  destruct (validateRegistration b) eqn:V; [|split; reflexivity].
  exfalso. unfold validateRegistration in V.
  apply app_eq_nil in V; destruct V as [_ V].
  apply app_eq_nil in V; destruct V as [_ V].
  apply app_eq_nil in V; destruct V as [V _].
  rewrite E in V; unfold password_errors in V.
  destruct (negb (truthy (JStr p))); [discriminate|].
  destruct (len p <? 6) eqn:A; [discriminate|].
  destruct (128 <? len p) eqn:B; [discriminate|]. lia.
Qed.

End PasswordLength.

(** C3 at its failing input. A registration whose password has six lower
    case letters, no upper case letter and no digit, which the password
    rule of middleware/validation.js does not match, is answered 201 and
    its row is stored. *)
Theorem register_accepts_letters_only_password :
  Validation.password_matches (lit "abcdef") = false
  /\ http (fst (register Sample.env empty_db Sample.weak_registration 1000))
     = 201
  /\ map u_email
       (users (snd (register Sample.env empty_db
                      Sample.weak_registration 1000)))
     = [lit "ann@x.com"].
Proof. vm_compute. repeat split. Qed.

(** ** Task status and deadline *)

(** X3. A status that is sent, truthy and outside the three values is
    refused, by [POST /] and by [PUT /:id], and nothing is written. *)
Lemma invalid_truthy_status_changes_nothing
    (db : Db) (userId id : Z) (b : TaskBody) (now : Z) :
  truthy (b_status b) = true -> includes statuses (b_status b) = false ->
  snd (createTask db userId b now) = db
  /\ http (fst (createTask db userId b now)) <> 201
  /\ snd (updateTask db userId id b now) = db
  /\ http (fst (updateTask db userId id b now)) <> 200.
Proof.
  intros T I.
  assert (S : match b_status b with
              | JUndefined => JStr (lit "To Do") | v => v end = b_status b)
    by (destruct (b_status b); [discriminate T | | | |]; reflexivity).
  assert (C : snd (createTask db userId b now) = db
              /\ http (fst (createTask db userId b now)) <> 201).
  { unfold createTask; cbv zeta; rewrite S, T, I.
    change (true && negb false) with true; cbv iota.
    destruct (negb (truthy (b_title b)));
      [split; [reflexivity | discriminate]|].
    destruct (b_title b) as [| | | |title];
      try (split; [reflexivity | discriminate]).
    destruct (len (trim title) =? 0); split; reflexivity || discriminate. }
  assert (U : snd (updateTask db userId id b now) = db
              /\ http (fst (updateTask db userId id b now)) <> 200).
  { unfold updateTask; rewrite T, I.
    change (true && negb false) with true; cbv iota.
    destruct (task_of_owner db id userId);
      [|split; [reflexivity | discriminate]].
    destruct (blank_title (b_title b)) as [[|]|];
      split; reflexivity || discriminate. }
  tauto.
Qed.

(** X4. With no status in the body the stored status is "To Do". *)
Lemma createTask_default_status
    (db db' : Db) (userId : Z) (b : TaskBody) (now : Z) (r : response) :
  b_status b = JUndefined ->
  createTask db userId b now = (r, db') -> http r = 201 ->
  exists t, tasks db' = tasks db ++ [t] /\ t_status t = JStr (lit "To Do").
Proof.
  intros S E H.
  destruct (createTask_effect db userId b now)
    as [[_ N]|(ti & d & db2 & id & _ & I & C)];
    [rewrite E in N; contradiction|].
  rewrite E in C; inversion C; subst; clear C.
  rewrite S in I; unfold insert_task in I.
  destruct (user_by_id db userId); [|discriminate].
  inversion I; subst; simpl. eexists; split; reflexivity.
Qed.

(** C4 at its failing inputs. The status guard is [status && ...]: an
    empty string or a null sent as status passes it, so [POST /] stores a
    task whose status is none of the three values, and [PUT /:id] sets
    such a status on a stored task. *)
Theorem falsy_status_is_stored :
  includes statuses (JStr []) = false
  /\ includes statuses JNull = false
  /\ fst (createTask Sample.db 1 Sample.empty_status_task 5000)
     = {| http := 201; success := true;
          message := Some "Task created successfully";
          errors := None; code := None; data := RunResult 2 1 |}
  /\ map t_status
       (tasks (snd (createTask Sample.db 1 Sample.empty_status_task 5000)))
     = [JStr (lit "To Do"); JStr []]
  /\ map t_status
       (tasks (snd (createTask Sample.db 1 Sample.null_status_task 5000)))
     = [JStr (lit "To Do"); JNull]
  /\ http (fst (updateTask Sample.db 1 1 Sample.empty_status_update 5000))
     = 200
  /\ map t_status
       (tasks (snd (updateTask Sample.db 1 1
                      Sample.empty_status_update 5000)))
     = [JStr []].
Proof. vm_compute. repeat split. Qed.

(** C6 at its failing input. [POST /] reads [deadline || null] and binds
    it unchecked: a deadline that is no timestamp is stored as sent. *)
Theorem unparsable_deadline_is_stored :
  fst (createTask Sample.db 1 Sample.bad_deadline_task 5000)
  = {| http := 201; success := true;
       message := Some "Task created successfully";
       errors := None; code := None; data := RunResult 2 1 |}
  /\ map t_deadline
       (tasks (snd (createTask Sample.db 1 Sample.bad_deadline_task 5000)))
     = [JNull; JStr (lit "not-a-date")].
Proof. vm_compute. repeat split. Qed.

(** ** Sample runs of the theorems above *)

(** C1 on the sample database: Bob asks for Ann's task. *)
Lemma getTask_foreign_sample :
  getTask Sample.db 2 (t_id Sample.spec_task)
  = failure 404 "Task not found" None
  /\ data (getTask Sample.db 2 (t_id Sample.spec_task)) = NoData
  /\ getTask Sample.db 2 (t_id Sample.spec_task) = getTask Sample.db 2 7.
Proof.
  apply (getTask_foreign_is_not_found Sample.db Sample.spec_task 2 7).
  - simpl; repeat constructor; simpl; tauto.
  - simpl; auto.
  - simpl; lia.
  - simpl; intros [H|[]]; lia.
Defined.

(** C2 as stated fails on a request that does not pass [validateLogin]:
    a blank password sent with an email that matches no user is answered
    400 with the validation messages, while a wrong password for an
    existing email is answered 401. *)
Lemma login_blank_password_is_400 :
  user_by_email Sample.db
    (toLowerCase (sanitizeString (lit "nobody@x.com"))) = None
  /\ login Sample.env Sample.db (Sample.credentials "nobody@x.com" "   ") 1
     = validation_failed ["Password cannot be empty"]
  /\ http (validation_failed ["Password cannot be empty"]) = 400
  /\ user_by_email Sample.db
       (toLowerCase (sanitizeString (lit "ann@x.com"))) = Some Sample.ann
  /\ bcrypt_compare (lit "wrong") (u_password Sample.ann) = false
  /\ http (login Sample.env Sample.db
             (Sample.credentials "ann@x.com" "wrong") 1) = 401.
Proof. vm_compute. repeat split. Qed.

(** C2, amended, on the sample database. *)
Lemma login_failures_sample :
  login Sample.env Sample.db (Sample.credentials "nobody@x.com" "Abc123") 1
  = login Sample.env Sample.db (Sample.credentials "ann@x.com" "wrong") 2
  /\ login Sample.env Sample.db (Sample.credentials "ann@x.com" "wrong") 2
     = failure 401 "Invalid email or password" (Some "INVALID_CREDENTIALS").
Proof.
  apply (login_failures_are_identical Sample.env Sample.db
           (Sample.credentials "nobody@x.com" "Abc123")
           (Sample.credentials "ann@x.com" "wrong") 1 2
           (lit "nobody@x.com") (lit "ann@x.com") (lit "wrong") Sample.ann);
    reflexivity.
Defined.

(** C5 as stated fails on a body whose title is blank: the key is
    present, the request is answered 400, and the row keeps its title and
    its [updated_at]. *)
Lemma blank_title_update_is_refused :
  present (b_title Sample.blank_title_update) = true
  /\ updateTask Sample.db 1 1 Sample.blank_title_update 9999
     = (failure 400 "Task title cannot be empty" None, Sample.db)
  /\ map t_updated_at (tasks Sample.db) = [3000].
Proof. vm_compute. repeat split. Qed.

(** C5, amended, on the sample database: Ann marks her task done and
    gives it a deadline, and Ann sends a body with no field. *)
Lemma updateTask_status_sample :
  let b := Sample.task_body JUndefined (JStr (lit "Done"))
             (JStr (lit "2025-06-01")) in
  updateTask Sample.db 1 1 b 9999
  = ({| http := 200; success := true;
        message := Some "Task updated successfully";
        errors := None; code := None;
        data := TaskRow (updated_row b 9999 Sample.spec_task) |},
     {| users := users Sample.db;
        tasks := [updated_row b 9999 Sample.spec_task];
        user_seq := 2; task_seq := 1 |})
  /\ t_title (updated_row b 9999 Sample.spec_task) = lit "Write spec"
  /\ t_deadline (updated_row b 9999 Sample.spec_task)
     = JStr (lit "2025-06-01")
  /\ updateTask Sample.db 1 1 Sample.no_fields 9999
     = (failure 400 "No fields to update" None, Sample.db).
Proof.
  intros b.
  destruct (updateTask_changes_present_fields Sample.db Sample.spec_task
              b 9999) as (_ & H & _);
    [simpl; repeat constructor; simpl; tauto | simpl; auto |].
  destruct (updateTask_changes_present_fields Sample.db Sample.spec_task
              Sample.no_fields 9999) as (H0 & _);
    [simpl; repeat constructor; simpl; tauto | simpl; auto |].
  split; [apply H; reflexivity|].
  split; [reflexivity|]. split; [reflexivity|].
  apply H0; reflexivity.
Defined.



(** C8 on the sample platform: Ann registers at clock 1000 and presents
    her token a little later. *)
Lemma registration_token_sample :
  exists u name email token createdAt,
    users (snd (register Sample.env empty_db Sample.ann_registration 1000))
    = users empty_db ++ [u] /\
    data (fst (register Sample.env empty_db Sample.ann_registration 1000))
    = Identity (u_id u) name email token createdAt /\
    authenticateToken Sample.env (Some (lit "Bearer " ++ token)) 5000
    = Authenticated
        {| userId := u_id u; tokenIssuedAt := 1000 / 1000;
           tokenExpiresAt :=
             1000 / 1000
             + or_default (JWT_EXPIRES_IN Sample.env) default_expiry |} /\
    forall (any : Db) (h : Z -> response * Db),
      authenticated Sample.env (Some (lit "Bearer " ++ token)) 5000 any h
      = h (u_id u).
Proof.
  apply (@registration_token_round_trip Sample.platform sample_contract
           Sample.env empty_db Sample.ann_registration 1000 5000).
  - reflexivity.
  - vm_compute; reflexivity.
Defined.

Lemma sample_sqlite_contract : SqliteContract Sample.platform.
Proof.
  constructor; intros pre d post _.
  cbn [numeric_text Sample.platform]; unfold Sample.digits.
  destruct (pre ++ d :: 45%N :: post) eqn:E; [reflexivity|].
  rewrite <- E, forallb_app. cbn [forallb].
  change ((48 <=? 45)%N && (45 <=? 57)%N) with false.
  now rewrite andb_false_r, andb_false_r.
Qed.

Lemma sample_wf : wf Sample.db.
Proof.
  split; simpl; try lia.
  - repeat constructor; simpl; intuition discriminate.
  - repeat constructor; simpl; intuition discriminate.
  - repeat constructor; simpl; tauto.
  - intros t [<-|[]]; exists Sample.ann; simpl; auto.
Qed.



(** C10 on a sample registration: the row holds the sanitized name and
    the sanitized, lower-cased email. *)
Lemma sanitized_registration_sample :
  map (fun u => (u_name u, u_email u))
    (users (snd (register Sample.env empty_db
                   (Sample.registration " <b>Ann</b>" "Ann@X.com " "Abc123")
                   1000)))
  = [(lit "bAnn/b", lit "ann@x.com")].
Proof.
  destruct (sanitizeInput_clean_and_used_by_register Sample.env)
    as (_ & _ & H).
  destruct (H empty_db
              (Sample.registration " <b>Ann</b>" "Ann@X.com " "Abc123") 1000)
    as [E|(n & e & u & En & Ee & _ & -> & Hn & He)].
  - vm_compute in E; discriminate.
  - simpl. rewrite Hn, He.
    inversion En; inversion Ee; subst. reflexivity.
Defined.

(** Ann registers with a password of three characters. *)
Lemma register_short_password_sample :
  http (fst (register Sample.env Sample.db
               (Sample.registration "Ann" "ann2@x.com" "Ab1") 1000)) = 400
  /\ snd (register Sample.env Sample.db
            (Sample.registration "Ann" "ann2@x.com" "Ab1") 1000) = Sample.db.
Proof.
  apply (register_refuses_password_length Sample.env Sample.db
           (Sample.registration "Ann" "ann2@x.com" "Ab1") 1000 (lit "Ab1"));
    [reflexivity | left; vm_compute; reflexivity].
Defined.

(** Ann sends the status "Later". *)
Lemma invalid_status_sample :
  snd (createTask Sample.db 1 Sample.later_task 5000) = Sample.db
  /\ http (fst (createTask Sample.db 1 Sample.later_task 5000)) <> 201
  /\ snd (updateTask Sample.db 1 1 Sample.later_task 5000) = Sample.db
  /\ http (fst (updateTask Sample.db 1 1 Sample.later_task 5000)) <> 200.
Proof.
  apply (invalid_truthy_status_changes_nothing Sample.db 1 1
           Sample.later_task 5000); reflexivity.
Defined.

(** Ann creates a task without a status. *)
Lemma default_status_sample :
  exists t,
    tasks (snd (createTask Sample.db 1 Sample.new_task 5000))
    = tasks Sample.db ++ [t]
    /\ t_status t = JStr (lit "To Do").
Proof.
  apply (createTask_default_status Sample.db _ 1 Sample.new_task 5000
           (fst (createTask Sample.db 1 Sample.new_task 5000)));
    reflexivity.
Defined.

(** Ann deletes her task twice. *)
Lemma deleteTask_twice_sample :
  deleteTask (snd (deleteTask Sample.db 1 1)) 1 1
  = (failure 404 "Task not found" None, snd (deleteTask Sample.db 1 1)).
Proof. apply (deleteTask_twice Sample.db 1 1); reflexivity. Defined.

(** * Further properties of the task routes *)

(** ** One owner's requests and the tasks of the others *)

Lemma filter_filter_implied {A} (p q : A -> bool) (l : list A) :
  (forall x, p x = true -> q x = true) ->
  filter p (filter q l) = filter p l.
Proof.
  intros H; induction l as [|x l IH]; simpl; [reflexivity|].
  destruct (q x) eqn:Q; simpl; destruct (p x) eqn:Px; try congruence.
  rewrite (H x Px) in Q; discriminate.
Qed.

Lemma filter_map_fixed {A} (p : A -> bool) (f : A -> A) (l : list A) :
  (forall x, p (f x) = p x) -> (forall x, p x = true -> f x = x) ->
  filter p (map f l) = filter p l.
Proof.
  intros H1 H2; induction l as [|x l IH]; simpl; [reflexivity|].
  rewrite H1, IH. destruct (p x) eqn:Px; [now rewrite H2 | reflexivity].
Qed.

(** X6. Creating, updating or deleting a task as one user leaves every
    task of every other user, and every user row, as it was, whatever
    the identifier and the body of the request. *)
Theorem other_owners_tasks_untouched
    (db : Db) (userId id : Z) (b : TaskBody) (now : Z) :
  let others (d : Db) :=
    filter (fun t => negb (t_user_id t =? userId)) (tasks d) in
  (others (snd (createTask db userId b now)) = others db
   /\ users (snd (createTask db userId b now)) = users db)
  /\ (others (snd (updateTask db userId id b now)) = others db
      /\ users (snd (updateTask db userId id b now)) = users db)
  /\ (others (snd (deleteTask db userId id)) = others db
      /\ users (snd (deleteTask db userId id)) = users db).
Proof.
  intros others; unfold others; split; [|split].
  - destruct (createTask_effect db userId b now)
      as [[-> _]|(ti & d & db' & i & _ & I & ->)]; [auto|].
    unfold insert_task in I. destruct (user_by_id db userId); [|discriminate].
    inversion I; subst; simpl.
    rewrite filter_app; simpl. rewrite Z.eqb_refl; simpl.
    now rewrite app_nil_r.
  - destruct (updateTask_effect db userId id b now)
      as [[-> _]|(ups & ->)]; [auto|].
    unfold update_tasks; simpl; split; [|reflexivity].
    apply filter_map_fixed; intros x.
    + destruct ((t_id x =? id) && (t_user_id x =? userId)); [|reflexivity].
      simpl. now destruct (assignments_frame ups x) as (_ & -> & _).
    + intros Hx. destruct (t_user_id x =? userId); [discriminate|].
      now rewrite andb_false_r.
  - unfold deleteTask. destruct (task_of_owner db id userId); [|auto].
    simpl; split; [|reflexivity].
    apply filter_filter_implied; intros x Hx.
    destruct (t_user_id x =? userId); [discriminate|].
    now rewrite andb_false_r.
Qed.

(** X7. An update or a delete aimed at a task of another owner is
    answered 404 "Task not found" and writes nothing. *)
Theorem foreign_task_cannot_be_changed
    (db : Db) (t : Task) (u : Z) (b : TaskBody) (now : Z) :
  NoDup (map t_id (tasks db)) ->
  In t (tasks db) ->
  u <> t_user_id t ->
  updateTask db u (t_id t) b now = (failure 404 "Task not found" None, db)
  /\ deleteTask db u (t_id t) = (failure 404 "Task not found" None, db).
Proof.
  intros Hnd Hin Hne; unfold updateTask, deleteTask.
  rewrite (task_of_owner_other db t u Hnd Hin Hne); split; reflexivity.
Qed.

(** ** Deleting a task *)

(** X8. Deleting an owned task is answered 200 and removes that row and
    no other; the task can no longer be read. *)
Theorem deleteTask_removes_the_task (db : Db) (t : Task) :
  NoDup (map t_id (tasks db)) ->
  In t (tasks db) ->
  http (fst (deleteTask db (t_user_id t) (t_id t))) = 200
  /\ (forall x, In x (tasks (snd (deleteTask db (t_user_id t) (t_id t))))
                <-> In x (tasks db) /\ x <> t)
  /\ users (snd (deleteTask db (t_user_id t) (t_id t))) = users db
  /\ getTask (snd (deleteTask db (t_user_id t) (t_id t)))
       (t_user_id t) (t_id t)
     = failure 404 "Task not found" None.
Proof.
  intros Hnd Hin.
  assert (Hown : task_of_owner db (t_id t) (t_user_id t) <> None).
  { unfold task_of_owner; intros H.
    apply (find_none _ _ H) in Hin. rewrite !Z.eqb_refl in Hin.
    discriminate. }
  unfold deleteTask.
  destruct (task_of_owner db (t_id t) (t_user_id t)); [|contradiction].
  simpl; repeat split.
  - apply filter_In in H; tauto.
  - apply filter_In in H; destruct H as [_ H]. intros ->.
    rewrite !Z.eqb_refl in H; discriminate.
  - intros [Hx Hne]; apply filter_In; split; [exact Hx|].
    destruct (t_id x =? t_id t) eqn:E; [|reflexivity].
    exfalso; apply Hne.
    apply (NoDup_map_inj t_id (tasks db) x t Hnd Hx Hin); lia.
  - unfold getTask, task_of_owner; simpl.
    now rewrite (find_filter_negb
                   (fun x => (t_id x =? t_id t)
                             && (t_user_id x =? t_user_id t))).
Qed.

(** ** Listing tasks *)

Lemma insert_desc_perm (t : Task) (l : list Task) :
  Permutation (insert_desc t l) (t :: l).
Proof.
  induction l as [|x l IH]; simpl; [reflexivity|].
  destruct (t_created_at x <=? t_created_at t); [reflexivity|].
  rewrite IH; apply perm_swap.
Qed.

Lemma order_by_created_desc_perm (l : list Task) :
  Permutation (order_by_created_desc l) l.
Proof.
  induction l as [|x l IH]; simpl; [reflexivity|].
  rewrite insert_desc_perm; now constructor.
Qed.

Lemma insert_desc_ordered (t : Task) (l : list Task) :
  newest_first_order l -> newest_first_order (insert_desc t l).
Proof.
  induction l as [|x l IH]; simpl; [tauto|].
  intros [Hx Hl]. destruct (t_created_at x <=? t_created_at t) eqn:E; simpl.
  - repeat split; auto. intros y [<-|Hy]; [lia|].
    specialize (Hx y Hy); lia.
  - split; [|auto]. intros y Hy.
    apply (Permutation_in _ (insert_desc_perm t l)) in Hy.
    destruct Hy as [<-|Hy]; [lia | auto].
Qed.

Lemma order_by_created_desc_ordered (l : list Task) :
  newest_first_order (order_by_created_desc l).
Proof.
  induction l as [|x l IH]; simpl; [exact I|].
  now apply insert_desc_ordered.
Qed.

(** In a list that is newest first, keeping some rows and inserting a
    row are done in either order. *)
Lemma includes_statuses (v : jsval) :
  includes statuses v = true ->
  truthy v = true /\ exists s, v = JStr s /\ In s statuses.
Proof.
  destruct v as [| | | |s]; simpl; try discriminate.
  rewrite !orb_true_iff, !str_eqb_eq.
  intros [->|[->|[->|H]]]; try discriminate; (split; [reflexivity|]);
    eexists; split; try reflexivity; simpl; auto.
Qed.

Lemma strict_eq_refl_iff (a : jsval) (s : jsstring) :
  strict_eq a (JStr s) = true <-> a = JStr s.
Proof.
  destruct a; simpl; try (split; [discriminate | congruence]).
  rewrite str_eqb_eq; split; congruence.
Qed.

(** X9. [GET /api/tasks] is answered 200 with exactly the tasks of the
    caller, each once, newest first; a status filter that is one of the
    three values narrows them to the tasks of that status, and any other
    filter value is ignored. *)
Theorem listTasks_returns_own_tasks (db : Db) (userId : Z) (status : jsval) :
  exists rows,
    listTasks db userId status
    = {| http := 200; success := true; message := None; errors := None;
         code := None; data := TaskRows rows |}
    /\ Permutation rows
         (filter (fun t => (t_user_id t =? userId)
                           && (negb (includes statuses status)
                               || strict_eq (t_status t) status))
            (tasks db))
    /\ newest_first_order rows
    /\ (forall t, In t rows <->
                  In t (tasks db) /\ t_user_id t = userId
                  /\ (includes statuses status = true ->
                      t_status t = status)).
Proof.
  unfold listTasks; cbv zeta.
  set (own := filter (fun t => t_user_id t =? userId) (tasks db)).
  set (rows := if truthy status && includes statuses status
               then filter (fun t => strict_eq (t_status t) status) own
               else own).
  assert (Hrows : rows = filter (fun t => (t_user_id t =? userId)
                           && (negb (includes statuses status)
                               || strict_eq (t_status t) status))
                           (tasks db)).
  { unfold rows, own. destruct (includes statuses status) eqn:I.
    - destruct (includes_statuses status I) as [-> _]; simpl.
      clear; induction (tasks db) as [|x l IH]; simpl; [reflexivity|].
      destruct (t_user_id x =? userId); simpl; [|exact IH].
      destruct (strict_eq (t_status x) status); simpl; now rewrite IH.
    - rewrite andb_false_r; simpl.
      apply filter_ext; intros x; now rewrite andb_true_r. }
  exists (order_by_created_desc rows); split; [reflexivity|].
  split; [rewrite <- Hrows; apply order_by_created_desc_perm|].
  split; [apply order_by_created_desc_ordered|].
  intros t. split.
  - intros H. apply (Permutation_in _ (order_by_created_desc_perm rows)) in H.
    rewrite Hrows in H; apply filter_In in H; destruct H as [Ht H].
    apply andb_true_iff in H; destruct H as [Hu Hs].
    repeat split; [exact Ht | lia |].
    intros I; rewrite I in Hs; simpl in Hs.
    destruct (includes_statuses status I) as (_ & s & -> & _).
    now apply strict_eq_refl_iff.
  - intros (Ht & Hu & Hs).
    apply (Permutation_in _ (Permutation_sym
                               (order_by_created_desc_perm rows))).
    rewrite Hrows; apply filter_In; split; [exact Ht|].
    apply andb_true_iff; split; [lia|].
    destruct (includes statuses status) eqn:I; [|reflexivity]; simpl.
    destruct (includes_statuses status I) as (_ & s & E & _).
    rewrite (Hs eq_refl), E. apply strict_eq_refl_iff; reflexivity.
Qed.

Lemma newest_first_filter (p : Task -> bool) (l : list Task) :
  newest_first_order l -> newest_first_order (filter p l).
Proof.
  induction l as [|x l IH]; simpl; [auto|].
  intros [Hx Hl]. destruct (p x); simpl; [split|]; auto.
  intros y Hy; apply filter_In in Hy; apply Hx; tauto.
Qed.

Lemma rows_filter_perm (p : Task -> bool) (l l' : list Task) :
  Permutation l l' -> Permutation (filter p l) (filter p l').
Proof.
  induction 1 as [|x l l' H IH|x y l|l l' l'' H1 IH1 H2 IH2]; simpl.
  - apply perm_nil.
  - destruct (p x); [apply perm_skip|]; exact IH.
  - destruct (p x), (p y); try apply Permutation_refl.
    apply perm_swap.
  - eapply perm_trans; eauto.
Qed.

(** Rows of pairwise different ages have one newest-first order. *)
Lemma newest_first_unique (l1 : list Task) :
  forall l2,
    Permutation l1 l2 ->
    NoDup (map t_created_at l1) ->
    newest_first_order l1 -> newest_first_order l2 -> l1 = l2.
Proof.
  induction l1 as [|x l1 IH]; intros l2 Hp Hnd H1 H2.
  - apply Permutation_nil in Hp; now subst.
  - destruct l2 as [|y l2];
      [apply Permutation_sym, Permutation_nil in Hp; discriminate|].
    assert (Hxy : x = y).
    { assert (Hx : In x (y :: l2))
        by (apply (Permutation_in _ Hp); now left).
      assert (Hy : In y (x :: l1))
        by (apply (Permutation_in _ (Permutation_sym Hp)); now left).
      destruct Hx as [Hx|Hx]; [now subst|].
      destruct Hy as [Hy|Hy]; [now subst|].
      apply (NoDup_map_inj t_created_at (x :: l1) x y Hnd);
        [now left | now right |].
      destruct H1 as [H1 _], H2 as [H2 _].
      specialize (H1 y Hy); specialize (H2 x Hx); lia. }
    subst y. f_equal.
    apply IH.
    + now apply Permutation_cons_inv in Hp.
    + simpl in Hnd; now inversion Hnd.
    + apply H1.
    + apply H2.
Qed.

(** X10. Filtering on the server and filtering the unfiltered response,
    as the dashboard does, give the same rows, and in the same order
    when no two tasks of the caller have the same [created_at] (among
    rows of the same age the statement's ORDER BY fixes no order):
    whatever answers the two requests get, the filtered answer is the
    unfiltered one filtered. The answers of [listTasks] are such
    answers. *)
Theorem listTasks_filter_commutes
    (db : Db) (userId : Z) (s : jsstring) :
  In s statuses ->
  NoDup (map t_created_at
           (filter (fun t => t_user_id t =? userId) (tasks db))) ->
  (forall every part,
      listing db userId JUndefined every ->
      listing db userId (JStr s) part ->
      part = filter (fun t => strict_eq (t_status t) (JStr s)) every)
  /\ exists every part,
       data (listTasks db userId JUndefined) = TaskRows every
       /\ listing db userId JUndefined every
       /\ data (listTasks db userId (JStr s)) = TaskRows part
       /\ listing db userId (JStr s) part.
Proof.
  intros Hs Hnd.
  assert (I : includes statuses (JStr s) = true).
  { simpl in Hs; destruct Hs as [<-|[<-|[<-|[]]]]; reflexivity. }
  assert (F1 : forall l : list Task,
    filter (fun t => (t_user_id t =? userId)
                     && (negb (includes statuses JUndefined)
                         || strict_eq (t_status t) JUndefined)) l
    = filter (fun t => t_user_id t =? userId) l).
  { intros l; apply filter_ext; intros t. simpl. apply andb_true_r. }
  assert (F2 : forall l : list Task,
    filter (fun t => (t_user_id t =? userId)
                     && (negb (includes statuses (JStr s))
                         || strict_eq (t_status t) (JStr s))) l
    = filter (fun t => strict_eq (t_status t) (JStr s))
        (filter (fun t => t_user_id t =? userId) l)).
  { intros l; rewrite I; simpl negb; simpl orb.
    induction l as [|x l IH]; simpl; [reflexivity|].
    destruct (t_user_id x =? userId); simpl; [|exact IH].
    destruct (strict_eq (t_status x) (JStr s)); now rewrite IH. }
  split.
  - intros every part [P1 O1] [P2 O2]. rewrite F1 in P1; rewrite F2 in P2.
    apply newest_first_unique.
    + eapply perm_trans; [exact P2|].
      apply rows_filter_perm, Permutation_sym, P1.
    + apply (Permutation_NoDup
               (l := map t_created_at
                       (filter (fun t => strict_eq (t_status t) (JStr s))
                          (filter (fun t => t_user_id t =? userId)
                             (tasks db)))));
        [apply Permutation_map, Permutation_sym, P2|].
      clear -Hnd.
      induction (filter (fun t => t_user_id t =? userId) (tasks db))
        as [|x l IH]; simpl; [constructor|].
      simpl in Hnd; inversion_clear Hnd as [|? ? Hx Hl].
      destruct (strict_eq (t_status x) (JStr s)); simpl; [|auto].
      apply NoDup_cons; [|auto].
      intros H; apply Hx. apply in_map_iff in H.
      destruct H as (y & E & Hy). apply filter_In in Hy.
      rewrite <- E; apply in_map; tauto.
    + exact O2.
    + now apply newest_first_filter.
  - assert (T : truthy (JStr s) = true).
    { simpl in Hs; destruct Hs as [<-|[<-|[<-|[]]]]; reflexivity. }
    assert (N : truthy JUndefined && includes statuses JUndefined = false)
      by reflexivity.
    unfold listTasks; cbv zeta. rewrite N, T, I.
    change (true && true) with true; cbv iota; cbn [data].
    do 2 eexists; split; [reflexivity|]. split; [|split; [reflexivity|]].
    + split; [rewrite F1; apply order_by_created_desc_perm
             |apply order_by_created_desc_ordered].
    + split; [rewrite F2; apply order_by_created_desc_perm
             |apply order_by_created_desc_ordered].
Qed.

(** ** Creating a task *)

Lemma find_app_last {A} (p : A -> bool) (l : list A) (x : A) :
  (forall y, In y l -> p y = false) -> p x = true ->
  find p (l ++ [x]) = Some x.
Proof.
  intros Hl Hx; induction l as [|y l IH]; simpl; [now rewrite Hx|].
  rewrite (Hl y (or_introl eq_refl)). apply IH.
  intros z Hz; apply Hl; right; exact Hz.
Qed.

Section Created.

Context {P : Platform}.

(** X11. A task that [POST /api/tasks] created from a body whose status,
    deadline and reminder time are values that their columns keep as
    bound is read back by its owner with the values that were sent: the
    title and the description trimmed, the status or "To Do", the
    deadline and the reminder time or NULL; its identifier is new and
    all the other tasks stay. *)
Theorem createTask_then_getTask
    (db : Db) (userId : Z) (b : TaskBody) (now : Z) :
  http (fst (createTask db userId b now)) = 201 ->
  kept_as_text (b_status b) = true ->
  kept_as_datetime (js_or (b_deadline b) JNull) = true ->
  kept_as_datetime (js_or (b_reminder_time b) JNull) = true ->
  exists id,
    data (fst (createTask db userId b now)) = RunResult id 1
    /\ ~ In id (map t_id (tasks db))
    /\ tasks (snd (createTask db userId b now))
       = tasks db ++ [created_row b userId now id]
    /\ getTask (snd (createTask db userId b now)) userId id
       = {| http := 200; success := true; message := None; errors := None;
            code := None; data := TaskRow (created_row b userId now id) |}.
Proof.
  intros H201 _ _ _; revert H201.
  unfold createTask; cbv zeta.
  destruct (negb (truthy (b_title b))); [discriminate|].
  destruct (b_title b) as [| | | |title] eqn:Et; try discriminate.
  destruct (len (trim title) =? 0); [discriminate|].
  destruct (_ && _); [discriminate|].
  assert (Hd : description_param (b_description b) <> None ->
               description_param (b_description b)
               = Some match b_description b with
                      | JStr s => trim s | _ => [] end)
    by (unfold description_param; destruct (b_description b); intros H;
        try reflexivity; now contradiction H).
  destruct (description_param (b_description b)) as [d|] eqn:D;
    [|discriminate].
  specialize (Hd ltac:(discriminate)); inversion Hd; subst d; clear Hd.
  unfold insert_task. destruct (user_by_id db userId); [|discriminate].
  intros _; cbn [fst snd data tasks].
  set (id := next_id (task_seq db) (map t_id (tasks db))).
  exists id; split; [reflexivity|].
  split; [apply next_id_fresh|].
  unfold created_row, js_or; rewrite Et; split; [reflexivity|].
  unfold getTask, task_of_owner; cbn [tasks].
  rewrite find_app_last; [reflexivity| |].
  - intros y Hy. destruct (t_id y =? id) eqn:E; [|reflexivity].
    exfalso; apply (next_id_fresh (task_seq db) (map t_id (tasks db))).
    fold id. replace id with (t_id y) by lia. now apply in_map.
  - simpl; now rewrite !Z.eqb_refl.
Qed.

End Created.

(** ** Identifiers are not handed out twice *)

Section Identifiers.

Context {P : Platform} (env : Env).

Lemma step_counters_cover (db : Db) (op : Op) :
  counters_cover db -> counters_cover (step env db op).
Proof.
  intros [Hu Ht]; destruct op as [b now|u b now|u id b now|u id]; simpl.
  - destruct (register_effect env db b now)
      as [[-> _]|(n & e & p & _ & _ & _ & _ & _ & _ & _ & ->)];
      [split; auto|].
    pose proof (next_id_above (user_seq db) (map u_id (users db))) as [Hs _].
    split; simpl; [|exact Ht].
    intros x Hx; apply in_app_or in Hx; destruct Hx as [Hx|[<-|[]]];
      [specialize (Hu x Hx); lia | simpl; lia].
  - destruct (createTask_effect db u b now)
      as [[-> _]|(ti & d & db' & id & _ & I & ->)]; [split; auto|].
    unfold insert_task in I. destruct (user_by_id db u); [|discriminate].
    inversion I; subst; clear I.
    pose proof (next_id_above (task_seq db) (map t_id (tasks db))) as [Hs _].
    split; simpl; [exact Hu|].
    intros x Hx; apply in_app_or in Hx; destruct Hx as [Hx|[<-|[]]];
      [specialize (Ht x Hx); lia | simpl; lia].
  - destruct (updateTask_effect db u id b now) as [[-> _]|(ups & ->)];
      [split; auto|].
    split; simpl; [exact Hu|].
    intros x Hx; apply in_map_iff in Hx; destruct Hx as (y & <- & Hy).
    specialize (Ht y Hy).
    destruct ((t_id y =? id) && (t_user_id y =? u)); [|exact Ht].
    simpl. now destruct (assignments_frame ups y) as (-> & _).
  - unfold deleteTask. destruct (task_of_owner db id u); [|split; auto].
    split; simpl; [exact Hu|].
    intros x Hx; apply filter_In in Hx; destruct Hx as [Hx _]; auto.
Qed.

Lemma run_counters_cover (db : Db) (ops : list Op) :
  counters_cover db -> counters_cover (run env db ops).
Proof.
  revert db; induction ops as [|op ops IH]; intros db C; simpl; [exact C|].
  apply IH, step_counters_cover, C.
Qed.

Lemma step_task_seq (db : Db) (op : Op) :
  task_seq db <= task_seq (step env db op).
Proof.
  destruct op as [b now|u b now|u id b now|u id]; simpl.
  - destruct (register_effect env db b now)
      as [[-> _]|(n & e & p & _ & _ & _ & _ & _ & _ & _ & ->)];
      simpl; lia.
  - destruct (createTask_effect db u b now)
      as [[-> _]|(ti & d & db' & id & _ & I & ->)]; [lia|].
    unfold insert_task in I. destruct (user_by_id db u); [|discriminate].
    inversion I; subst; simpl.
    pose proof (next_id_above (task_seq db) (map t_id (tasks db))); lia.
  - destruct (updateTask_effect db u id b now) as [[-> _]|(ups & ->)];
      simpl; lia.
  - unfold deleteTask. destruct (task_of_owner db id u); simpl; lia.
Qed.

Lemma run_task_seq (db : Db) (ops : list Op) :
  task_seq db <= task_seq (run env db ops).
Proof.
  revert db; induction ops as [|op ops IH]; intros db; simpl; [lia|].
  pose proof (step_task_seq db op). specialize (IH (step env db op)). lia.
Qed.

(** X12. The identifier of a task is never given to a later task: on
    every run from the empty database, a task created after any further
    requests, deletions included, gets an identifier above that of
    every task that existed before. *)
Theorem task_ids_are_not_reused
    (before after : list Op) (t : Task) (userId : Z) (b : TaskBody)
    (now : Z) :
  let db := run env (run env empty_db before) after in
  In t (tasks (run env empty_db before)) ->
  http (fst (createTask db userId b now)) = 201 ->
  exists id,
    data (fst (createTask db userId b now)) = RunResult id 1 /\ t_id t < id.
Proof.
  intros db Ht Hok.
  assert (C : counters_cover (run env empty_db before)).
  { apply run_counters_cover; split; simpl; tauto. }
  destruct C as [_ C]; specialize (C t Ht).
  pose proof (run_task_seq (run env empty_db before) after) as M.
  destruct (createTask_effect db userId b now)
    as [[_ N]|(ti & d & db' & id & _ & I & E)]; [contradiction|].
  rewrite E; simpl. exists id; split; [reflexivity|].
  unfold insert_task in I. destruct (user_by_id db userId); [|discriminate].
  inversion I; subst.
  pose proof (next_id_above (task_seq db) (map t_id (tasks db))) as [Hs _].
  unfold db in Hs at 1; lia.
Qed.

End Identifiers.

(** * Further properties of the authentication routes *)

Lemma find_app_first_match {A} (p : A -> bool) (l r : list A) (x : A) :
  find p l = None -> p x = true -> find p (l ++ x :: r) = Some x.
Proof.
  intros Hl Hx; induction l as [|y l IH]; simpl in *; [now rewrite Hx|].
  destruct (p y); [discriminate | auto].
Qed.

Section Sessions.

Context {P : Platform} (env : Env).

(** Requests only append rows to [users]. *)
Lemma step_appends_users (db : Db) (op : Op) :
  exists more, users (step env db op) = users db ++ more.
Proof.
  destruct op as [b now|w b now|w id b now|w id]; simpl.
  - destruct (register_effect env db b now)
      as [[-> _]|(n & e & p & _ & _ & _ & _ & _ & _ & _ & ->)];
      [exists []; now rewrite app_nil_r | eexists; reflexivity].
  - exists []; rewrite app_nil_r.
    destruct (createTask_effect db w b now)
      as [[-> _]|(t & d & db' & id & _ & I & ->)]; [reflexivity|].
    unfold insert_task in I. destruct (user_by_id db w); [|discriminate].
    now inversion I.
  - destruct (updateTask_effect db w id b now) as [[-> _]|(ups & ->)];
      exists []; now rewrite app_nil_r.
  - unfold deleteTask; destruct (task_of_owner db id w);
      exists []; now rewrite app_nil_r.
Qed.

Lemma run_appends_users (db : Db) (ops : list Op) :
  exists more, users (run env db ops) = users db ++ more.
Proof.
  revert db; induction ops as [|op ops IH]; intros db; simpl.
  - exists []; now rewrite app_nil_r.
  - destruct (step_appends_users db op) as (m1 & E1).
    destruct (IH (step env db op)) as (m2 & E2).
    exists (m1 ++ m2). now rewrite E2, E1, app_assoc.
Qed.

(** A registration that is answered 201 appended the row it reports. *)
Lemma register_success (db : Db) (b : RegisterBody) (now : Z) :
  http (fst (register env db b now)) = 201 ->
  exists name email password u,
    r_name b = JStr name /\ r_email b = JStr email /\
    r_password b = JStr password /\
    user_by_email db (toLowerCase (sanitizeString email)) = None /\
    u = {| u_id := next_id (user_seq db) (map u_id (users db));
           u_name := sanitizeString name;
           u_email := toLowerCase (sanitizeString email);
           u_password := bcrypt_hash password saltRounds;
           u_created_at := now; u_updated_at := now |} /\
    users (snd (register env db b now)) = users db ++ [u] /\
    fst (register env db b now)
    = {| http := 201; success := true;
         message := Some "User registered successfully";
         errors := None; code := None;
         data := Identity (u_id u) (u_name u) (u_email u)
                   (generateToken env (u_id u) now) (u_created_at u) |}.
Proof.
  unfold register.
  destruct (validateRegistration b) eqn:V; [|discriminate].
  destruct (validateRegistration_passed b V)
    as (name & email & password & -> & -> & -> & Hc & _).
  unfold register_handler; cbv zeta.
  destruct (len (sanitizeString name) <? 2); [discriminate|].
  destruct (_ || _); [discriminate|].
  destruct (len password <? 6); [discriminate|].
  destruct (negb (strict_eq (JStr password) (r_confirmPassword b)));
    [discriminate|].
  destruct (user_by_email db (toLowerCase (sanitizeString email))) eqn:L;
    [discriminate|].
  unfold insert_user; cbv zeta.
  destruct (next_id (user_seq db) (map u_id (users db)) =? 0);
    [discriminate|].
  unfold user_by_id; cbn [users].
  rewrite find_app_last.
  - intros _. exists name, email, password. eexists.
    repeat split; try reflexivity; exact L.
  - intros y Hy. destruct (u_id y =? _) eqn:E; [|reflexivity].
    exfalso; apply (next_id_fresh (user_seq db) (map u_id (users db))).
    apply in_map_iff; exists y; split; [lia | exact Hy].
  - simpl; apply Z.eqb_refl.
Qed.

(** X13. Registration is observable through login: after a registration
    that succeeded, and whatever was requested since, a login with an
    email that is the same after sanitization and lower-casing and with
    the same password, if it passes [validateLogin], is answered 200
    with the identifier, the name, the email and the creation time that
    the registration returned. *)
Theorem register_then_login {B : BcryptContract P}
    (db : Db) (b : RegisterBody) (c : LoginBody) (ops : list Op)
    (now later : Z) (e e' p : jsstring) :
  r_email b = JStr e -> r_password b = JStr p ->
  l_email c = JStr e' -> l_password c = JStr p ->
  toLowerCase (sanitizeString e) = toLowerCase (sanitizeString e') ->
  validateLogin c = [] ->
  http (fst (register env db b now)) = 201 ->
  exists id name email createdAt,
    fst (register env db b now)
    = {| http := 201; success := true;
         message := Some "User registered successfully";
         errors := None; code := None;
         data := Identity id name email (generateToken env id now)
                   createdAt |}
    /\ login env (run env (snd (register env db b now)) ops) c later
       = {| http := 200; success := true;
            message := Some "Login successful";
            errors := None; code := None;
            data := Identity id name email (generateToken env id later)
                      createdAt |}.
Proof.
  intros Ee Ep Ee' Ep' Enorm V Hok.
  destruct (register_success db b now Hok)
    as (n & e0 & p0 & u & _ & Ee0 & Ep0 & L & Hu & Husers & ->).
  rewrite Ee in Ee0; inversion Ee0; subst e0; clear Ee0.
  rewrite Ep in Ep0; inversion Ep0; subst p0; clear Ep0.
  exists (u_id u), (u_name u), (u_email u), (u_created_at u).
  split; [reflexivity|].
  destruct (run_appends_users (snd (register env db b now)) ops)
    as (more & Hrun).
  unfold login; rewrite V, Ee', Ep'. unfold login_handler; cbv zeta.
  unfold user_by_email in *. rewrite Hrun, Husers, <- app_assoc.
  rewrite <- Enorm. simpl app.
  rewrite (find_app_first_match _ (users db) more u L)
    by (rewrite Hu; simpl; apply str_eqb_refl).
  replace (u_password u) with (bcrypt_hash p saltRounds)
    by (rewrite Hu; reflexivity).
  rewrite compare_hash; reflexivity.
Qed.

(** X14. The token of a successful login, presented as a bearer token
    before it expires, is resolved by [authenticateToken] to the
    identifier that the login returned. *)
Theorem login_token_authenticates {J : JwtContract P}
    (db : Db) (c : LoginBody) (now clock : Z)
    (id : Z) (name email token : jsstring) (createdAt : Z) :
  data (login env db c now) = Identity id name email token createdAt ->
  clock / 1000 < now / 1000 + or_default (JWT_EXPIRES_IN env) default_expiry ->
  http (login env db c now) = 200
  /\ authenticateToken env (Some (lit "Bearer " ++ token)) clock
     = Authenticated
         {| userId := id; tokenIssuedAt := now / 1000;
            tokenExpiresAt :=
              now / 1000 + or_default (JWT_EXPIRES_IN env) default_expiry |}.
Proof.
  unfold login.
  destruct (validateLogin c); [|discriminate].
  destruct (l_email c); try discriminate.
  destruct (l_password c); try discriminate.
  unfold login_handler; cbv zeta.
  destruct (user_by_email db _) as [u|]; [|discriminate].
  destruct (negb _); [discriminate|].
  simpl; intros E Hclock; inversion E; subst; split; [reflexivity|].
  now apply authenticateToken_generateToken.
Qed.

End Sessions.

(** ** The access control middleware *)

Lemma after_space_app (scheme rest : jsstring) :
  ~ In 32%N scheme -> after_space (scheme ++ 32%N :: rest) = Some rest.
Proof.
  induction scheme as [|c s IH]; simpl; [reflexivity|].
  intros H. destruct (N.eqb c 32) eqn:E.
  - apply N.eqb_eq in E; exfalso; auto.
  - apply IH; auto.
Qed.

Lemma until_space_app (token rest : jsstring) :
  ~ In 32%N token -> until_space (token ++ 32%N :: rest) = token.
Proof.
  induction token as [|c s IH]; simpl; [reflexivity|].
  intros H. destruct (N.eqb c 32) eqn:E.
  - apply N.eqb_eq in E; exfalso; auto.
  - f_equal; apply IH; auto.
Qed.

Section Middleware.

Context {P : Platform} (env : Env).

(** X15. [authenticateToken] turns a request away with status 401 and
    no data, and never otherwise: it lets a request through only with
    the claims that [jwt.verify] decoded, under the server's secret,
    from the non-empty second word of the Authorization header. *)
Theorem authenticateToken_outcomes (authHeader : option jsstring) (now : Z) :
  match authenticateToken env authHeader now with
  | Rejected r => http r = 401 /\ success r = false /\ data r = NoData
  | Authenticated u =>
      exists h token d,
        authHeader = Some h /\ bearer_token h = Some token /\ token <> [] /\
        jwt_verify token (JWT_SECRET env) (now / 1000) = Decoded d /\
        u = {| userId := d_userId d; tokenIssuedAt := d_iat d;
               tokenExpiresAt := d_exp d |}
  end.
Proof.
  unfold authenticateToken.
  destruct authHeader as [[|c h]|]; [repeat split| |repeat split].
  destruct (bearer_token (c :: h)) as [[|c' token]|] eqn:B;
    [repeat split| |repeat split].
  destruct (jwt_verify (c' :: token) (JWT_SECRET env) (now / 1000)) as [d| | |]
    eqn:V; try (repeat split).
  exists (c :: h), (c' :: token), d; repeat split; auto; discriminate.
Qed.

(** X16. The scheme word of the Authorization header is not looked at,
    and neither is anything after the token: any first word, even an
    empty one, followed by a space and the token is treated as
    [Bearer <token>]. *)
Theorem authenticateToken_ignores_scheme
    (scheme token rest : jsstring) (now : Z) :
  ~ In 32%N scheme -> ~ In 32%N token ->
  authenticateToken env (Some (scheme ++ 32%N :: token)) now
  = authenticateToken env (Some (lit "Bearer " ++ token)) now
  /\ authenticateToken env (Some (scheme ++ 32%N :: token ++ 32%N :: rest)) now
     = authenticateToken env (Some (lit "Bearer " ++ token)) now.
Proof.
  intros Hs Ht.
  assert (B1 : bearer_token (scheme ++ 32%N :: token) = Some token).
  { unfold bearer_token; rewrite after_space_app by exact Hs.
    now rewrite until_space_all. }
  assert (B2 : bearer_token (scheme ++ 32%N :: token ++ 32%N :: rest)
               = Some token).
  { unfold bearer_token; rewrite after_space_app by exact Hs.
    now rewrite until_space_app. }
  assert (B0 : bearer_token (lit "Bearer " ++ token) = Some token)
    by now apply bearer_token_of_header.
  unfold authenticateToken; rewrite B0, B1, B2.
  destruct scheme; split; reflexivity.
Qed.

(** X17. The middleware does not look at the type of a token: a refresh
    token of [generateRefreshToken], presented as a bearer token before
    it expires, is accepted like an access token. *)
Theorem refresh_token_is_accepted {J : JwtContract P}
    (refreshExpiresIn : option Z) (id now clock : Z) :
  clock / 1000 < now / 1000 + or_default refreshExpiresIn refresh_expiry ->
  authenticateToken env
    (Some (lit "Bearer " ++ generateRefreshToken env refreshExpiresIn id now))
    clock
  = Authenticated
      {| userId := id; tokenIssuedAt := now / 1000;
         tokenExpiresAt :=
           now / 1000 + or_default refreshExpiresIn refresh_expiry |}.
Proof.
  intros Hclock. unfold authenticateToken.
  rewrite bearer_token_of_header by apply sign_no_space.
  destruct (generateRefreshToken env refreshExpiresIn id now) eqn:G;
    [exfalso; revert G; apply sign_nonempty|].
  rewrite <- G; unfold generateRefreshToken.
  rewrite verify_sign by exact Hclock. reflexivity.
Qed.

(** X18. [validateToken] and the middleware agree: a token without a
    space is valid with some claims exactly when [Bearer <token>] is let
    through with those claims. *)
Theorem validateToken_agrees_with_middleware
    (token : jsstring) (now : Z) (d : decoded_token) :
  token <> [] -> ~ In 32%N token ->
  (validateToken env token now = Some d <->
   authenticateToken env (Some (lit "Bearer " ++ token)) now
   = Authenticated {| userId := d_userId d; tokenIssuedAt := d_iat d;
                      tokenExpiresAt := d_exp d |}).
Proof.
  intros Hne Hsp. unfold validateToken, authenticateToken.
  rewrite bearer_token_of_header by exact Hsp.
  destruct token as [|c token]; [contradiction|].
  change (lit "Bearer " ++ c :: token)
    with (66%N :: (lit "earer " ++ c :: token)).
  cbv iota.
  destruct (jwt_verify (c :: token) (JWT_SECRET env) (now / 1000))
    as [d'| | |]; split; try discriminate.
  - intros E; inversion E; reflexivity.
  - intros E; inversion E. destruct d, d'; simpl in *; congruence.
Qed.

End Middleware.

(** * Further properties of [sanitizeInput] *)

Lemma deleted_refl (s : jsstring) : subsequence s s.
Proof. induction s; [apply sub_nil | now apply sub_keep]. Qed.

Lemma deleted_trans (a b c : jsstring) :
  subsequence a b -> subsequence b c -> subsequence a c.
Proof.
  intros Hab Hbc; revert a Hab.
  induction Hbc as [|x b c Hbc IH|x b c Hbc IH]; intros a Hab.
  - exact Hab.
  - apply sub_drop, IH, Hab.
  - inversion Hab; subst; [apply sub_drop | apply sub_keep]; auto.
Qed.

Lemma deleted_snoc (a b : jsstring) (x : N) :
  subsequence a b -> subsequence (a ++ [x]) (b ++ [x]).
Proof.
  induction 1; simpl;
    [apply sub_keep, sub_nil | now apply sub_drop | now apply sub_keep].
Qed.

Lemma deleted_snoc_drop (a b : jsstring) (x : N) :
  subsequence a b -> subsequence a (b ++ [x]).
Proof.
  induction 1; simpl;
    [apply sub_drop, sub_nil | now apply sub_drop | now apply sub_keep].
Qed.

Lemma deleted_rev (a b : jsstring) :
  subsequence a b -> subsequence (rev a) (rev b).
Proof.
  induction 1; simpl;
    [apply sub_nil | now apply deleted_snoc_drop | now apply deleted_snoc].
Qed.

Lemma angle_filter_deletes (s : jsstring) :
  subsequence (filter (fun c => negb (is_angle c)) s) s.
Proof.
  induction s as [|x s IH]; simpl; [apply sub_nil|].
  destruct (negb (is_angle x)); [apply sub_keep | apply sub_drop]; exact IH.
Qed.

Lemma strip_deletes (m : jsstring -> option nat) (s : jsstring) :
  forall skip, subsequence (strip m skip s) s.
Proof.
  induction s as [|x s IH]; simpl; [intros _; apply sub_nil|].
  intros [|k]; [|apply sub_drop, IH].
  destruct (m (x :: s)) as [[|k]|];
    [apply sub_keep | apply sub_drop | apply sub_keep]; apply IH.
Qed.

Lemma trimStart_deletes (s : jsstring) : subsequence (trimStart s) s.
Proof.
  induction s as [|x s IH]; simpl; [apply sub_nil|].
  destruct (is_space x); [apply sub_drop, IH | apply deleted_refl].
Qed.

Lemma trim_deletes (s : jsstring) : subsequence (trim s) s.
Proof.
  unfold trim.
  apply deleted_trans with (b := trimStart s); [|apply trimStart_deletes].
  rewrite <- (rev_involutive (trimStart s)) at 2.
  apply deleted_rev, trimStart_deletes.
Qed.

Lemma trimStart_kept (s : jsstring) :
  (forall c, hd_error s = Some c -> is_space c = false) -> trimStart s = s.
Proof.
  destruct s as [|x s]; simpl; [reflexivity|].
  intros H; now rewrite (H x eq_refl).
Qed.

Lemma trimStart_before (l r : jsstring) :
  r <> [] -> (forall c, hd_error r = Some c -> is_space c = false) ->
  trimStart (l ++ r) = trimStart l ++ r.
Proof.
  intros Hne Hr; induction l as [|x l IH]; simpl.
  - now apply trimStart_kept.
  - destruct (is_space x); [exact IH | reflexivity].
Qed.

Lemma trim_keeps_word (a x : jsstring) :
  a <> [] ->
  (forall c, hd_error a = Some c -> is_space c = false) ->
  (forall c, hd_error (rev a) = Some c -> is_space c = false) ->
  trim (a ++ x) = a ++ rev (trimStart (rev x)).
Proof.
  intros Hne Hhd Hlast; unfold trim.
  rewrite (trimStart_kept (a ++ x)).
  - rewrite (rev_app_distr a x), trimStart_before; auto.
    + now rewrite rev_app_distr, rev_involutive.
    + intros E; apply Hne. rewrite <- (rev_involutive a), E. reflexivity.
  - destruct a; [contradiction | exact Hhd].
Qed.

Lemma strip_without_match (m : jsstring -> option nat) (s : jsstring) :
  (forall pre suf, s = pre ++ suf -> m suf = None) -> strip m O s = s.
Proof.
  induction s as [|x s IH]; simpl; [reflexivity|].
  intros H. rewrite (H [] (x :: s) eq_refl). f_equal; apply IH.
  intros pre suf E; apply (H (x :: pre) suf); simpl; congruence.
Qed.

Lemma prefix_ci_In (pat s : jsstring) (p : N) :
  prefix_ci pat s = true -> In p pat -> exists c, In c s /\ fold_ascii c = p.
Proof.
  revert s; induction pat as [|q pat IH]; simpl; [tauto|].
  intros [|c s]; [discriminate|].
  intros H; apply andb_true_iff in H; destruct H as [Hc Hs].
  intros [<-|Hp].
  - exists c; split; [now left | now apply N.eqb_eq].
  - destruct (IH s Hs Hp) as (c' & Hin & E). exists c'; split; [now right | auto].
Qed.

Lemma match_javascript_colon (s : jsstring) :
  ~ In 58%N s -> match_javascript s = None.
Proof.
  intros H; unfold match_javascript.
  destruct (prefix_ci (lit "javascript:") s) eqn:E; [|reflexivity].
  exfalso; apply H.
  destruct (prefix_ci_In _ _ 58%N E) as (c & Hin & Hc).
  { simpl; tauto. }
  replace 58%N with c; [exact Hin|].
  unfold fold_ascii in Hc.
  destruct ((65 <=? c)%N && (c <=? 90)%N) eqn:B; [|exact Hc].
  apply andb_true_iff in B; destruct B as [B1 B2].
  apply N.leb_le in B1, B2; lia.
Qed.

Lemma match_handler_equals (s : jsstring) :
  ~ In 61%N s -> match_handler s = None.
Proof.
  intros H; unfold match_handler.
  destruct s as [|o [|n t]]; try reflexivity.
  destruct (_ && _); [|reflexivity].
  destruct (word_run t) as [|k] eqn:W; [reflexivity|].
  destruct (skipn (S k) t) as [|e r] eqn:K; [reflexivity|].
  destruct (N.eqb e 61) eqn:E; [|reflexivity].
  exfalso; apply H. apply N.eqb_eq in E; subst e.
  right; right. rewrite <- (firstn_skipn (S k) t), K.
  apply in_or_app; right; now left.
Qed.

(** X19. [sanitizeInput] only deletes: its result is the input with
    some code units left out, the others in their order. *)
Theorem sanitizeString_only_deletes (s : jsstring) :
  subsequence (sanitizeString s) s.
Proof.
  unfold sanitizeString.
  eapply deleted_trans; [apply trim_deletes|].
  eapply deleted_trans; [apply strip_deletes|].
  eapply deleted_trans; [apply strip_deletes|].
  apply angle_filter_deletes.
Qed.

(** X20. A string with none of [<], [>], [:] and [=] that neither
    starts nor ends with white space is returned as it is. *)
Theorem sanitizeString_keeps_plain_text (s : jsstring) :
  (forall c, In c s -> is_angle c = false /\ c <> 58%N /\ c <> 61%N) ->
  no_outer_space s ->
  sanitizeString s = s.
Proof.
  intros Hc [Hhd Hlast]; unfold sanitizeString.
  assert (F : filter (fun c => negb (is_angle c)) s = s).
  { apply forallb_filter_id, forallb_forall. intros c Hin.
    now destruct (Hc c Hin) as (-> & _). }
  rewrite F, (strip_without_match match_javascript),
    (strip_without_match match_handler).
  - unfold trim. rewrite (trimStart_kept s Hhd), (trimStart_kept _ Hlast).
    apply rev_involutive.
  - intros pre suf ->. apply match_handler_equals.
    intros Hin. destruct (Hc 61%N) as (_ & _ & H); [|now apply H].
    apply in_or_app; now right.
  - intros pre suf ->. apply match_javascript_colon.
    intros Hin. destruct (Hc 58%N) as (_ & H & _); [|now apply H].
    apply in_or_app; now right.
Qed.

(** X21. Each pattern is removed in one pass, so removing a match can
    make a new one: whatever follows, an input that starts with
    [javajavascript:script:] gives a result that starts with
    [javascript:], and one that starts with [oonclick=nclick=] gives a
    result that starts with [onclick=]. *)
Theorem sanitizeString_is_a_single_pass (t : jsstring) :
  exists r1 r2,
    sanitizeString (lit "javajavascript:script:" ++ t)
    = lit "javascript:" ++ r1
    /\ sanitizeString (lit "oonclick=nclick=" ++ t) = lit "onclick=" ++ r2.
Proof.
  pose (f := filter (fun c => negb (is_angle c)) t).
  assert (E1 : strip match_handler O
                 (strip match_javascript O
                    (filter (fun c => negb (is_angle c))
                       (lit "javajavascript:script:" ++ t)))
               = lit "javascript:"
                 ++ strip match_handler O (strip match_javascript O f)).
  { simpl. fold f. destruct (strip match_javascript O f); reflexivity. }
  assert (E2 : strip match_handler O
                 (strip match_javascript O
                    (filter (fun c => negb (is_angle c))
                       (lit "oonclick=nclick=" ++ t)))
               = lit "onclick="
                 ++ strip match_handler O (strip match_javascript O f)).
  { simpl. fold f. destruct (strip match_javascript O f); reflexivity. }
  unfold sanitizeString; rewrite E1, E2.
  do 2 eexists; split; apply trim_keeps_word;
    try discriminate; simpl; intros c E; inversion E; reflexivity.
Qed.

(** * Connecting to the database *)

Lemma testConnection_from_waits (attempt : nat -> bool) (left : nat) :
  forall (i : nat) (delay : Z),
  exists n : nat,
    snd (testConnection_from attempt i left delay)
    = map (fun k => delay * 2 ^ Z.of_nat k) (seq 0 n)
    /\ (forall k, (k < n)%nat -> attempt (i + k)%nat = false)
    /\ (fst (testConnection_from attempt i left delay) = true ->
        attempt (i + n)%nat = true /\ (n < left)%nat)
    /\ (fst (testConnection_from attempt i left delay) = false ->
        n = (left - 1)%nat
        /\ forall k, (k < left)%nat -> attempt (i + k)%nat = false).
Proof.
  induction left as [|left IH]; intros i delay.
  - exists O; simpl; repeat split; try discriminate; intros; lia.
  - destruct left as [|left].
    + exists O; simpl; rewrite Nat.add_0_r; repeat split; auto; try lia.
      intros k Hk; replace k with O by lia. now rewrite Nat.add_0_r.
    + change (testConnection_from attempt i (S (S left)) delay)
        with (if attempt i then (true, [])
              else let (connected, waited) :=
                     testConnection_from attempt (S i) (S left) (delay * 2) in
                   (connected, delay :: waited)).
      destruct (attempt i) eqn:A.
      * exists O; simpl; rewrite Nat.add_0_r; repeat split; auto;
          try discriminate; lia.
      * destruct (IH (S i) (delay * 2)) as (n & Hw & Hf & Ht & Hn).
        destruct (testConnection_from attempt (S i) (S left) (delay * 2))
          as [connected waited].
        simpl fst in *; simpl snd in *.
        exists (S n); split; [|split; [|split]].
        -- rewrite Hw. cbn [seq map]. f_equal; [simpl; lia|].
           rewrite <- seq_shift, map_map. apply map_ext; intros k.
           rewrite Nat2Z.inj_succ, Z.pow_succ_r by lia. ring.
        -- intros [|k] Hk; [now rewrite Nat.add_0_r|].
           rewrite Nat.add_succ_r. apply (Hf k); lia.
        -- intros C; destruct (Ht C) as [Ha Hl].
           rewrite Nat.add_succ_r. split; [exact Ha | lia].
        -- intros C; destruct (Hn C) as [-> Hall]. split; [lia|].
           intros [|k] Hk; [now rewrite Nat.add_0_r|].
           rewrite Nat.add_succ_r. apply (Hall k); lia.
Qed.


(** X23. [initializeDatabase] gives up, with the error 'Failed to
    establish database connection', exactly when five queries in a row
    fail, and then it has waited 1, 2, 4 and 8 seconds; otherwise it goes
    on to [initDatabase]. *)
Theorem initializeDatabase_gives_up {A}
    (attempt : nat -> bool) (initDatabase : A) :
  (initializeDatabase attempt initDatabase = None <->
   forall i, (i < 5)%nat -> attempt i = false)
  /\ (initializeDatabase attempt initDatabase = None ->
      snd (testConnection attempt 5 1000) = [1000; 2000; 4000; 8000])
  /\ (initializeDatabase attempt initDatabase <> None ->
      initializeDatabase attempt initDatabase = Some initDatabase).
Proof.
  unfold initializeDatabase, testConnection; simpl.
  destruct (attempt 0%nat) eqn:A0; simpl.
  { repeat split; try discriminate; auto.
    intros H; rewrite H in A0 by lia; discriminate. }
  destruct (attempt 1%nat) eqn:A1; simpl.
  { repeat split; try discriminate; auto.
    intros H; rewrite H in A1 by lia; discriminate. }
  destruct (attempt 2%nat) eqn:A2; simpl.
  { repeat split; try discriminate; auto.
    intros H; rewrite H in A2 by lia; discriminate. }
  destruct (attempt 3%nat) eqn:A3; simpl.
  { repeat split; try discriminate; auto.
    intros H; rewrite H in A3 by lia; discriminate. }
  destruct (attempt 4%nat) eqn:A4; simpl.
  { repeat split; try discriminate; auto.
    intros H; rewrite H in A4 by lia; discriminate. }
  repeat split; auto; try (intros H; now contradiction H).
  intros _ i Hi.
  destruct i as [|[|[|[|[|i]]]]]; auto; lia.
Qed.

(** * The client and the server *)

Section Client.

Context {P : Platform} (env : Env).

(** X24. Registration measures the password as it is sent and login
    measures it trimmed: an account that was registered with a password
    made of white space cannot be logged into, since every login with
    that password is answered 400 before any lookup. *)
Theorem blank_password_cannot_log_in
    (db : Db) (b : RegisterBody) (now later : Z) (p : jsstring)
    (email : jsval) :
  r_password b = JStr p ->
  trim p = [] ->
  http (fst (register env db b now)) = 201 ->
  http (login env (snd (register env db b now))
          {| l_email := email; l_password := JStr p |} later) = 400
  /\ In "Password cannot be empty"
       (validateLogin {| l_email := email; l_password := JStr p |}).
Proof.
  intros Hp Ht H201.
  assert (Hne : p <> []).
  { intros ->. unfold register, validateRegistration in H201.
    rewrite Hp in H201; simpl in H201.
    destruct (name_errors (r_name b) ++ email_errors (r_email b) ++ _)
      eqn:E; [|discriminate].
    apply app_eq_nil in E; destruct E as [_ E].
    apply app_eq_nil in E; destruct E as [_ E]. discriminate. }
  assert (Hin : In "Password cannot be empty"
                  (validateLogin {| l_email := email;
                                    l_password := JStr p |})).
  { unfold validateLogin; apply in_or_app; right; simpl.
    destruct p; [contradiction|]. cbn [negb].
    rewrite Ht. now left. }
  split; [|exact Hin].
  unfold login. destruct (validateLogin _); [contradiction|reflexivity].
Qed.

(** X25. Opening the edit form of the dashboard on a task without a
    reminder and saving it as it is sends [reminder_time: ''], which
    [PUT /:id] stores as it is: before, no sweep of the reminder job
    returns the task; after, every sweep does, whatever the clock, as
    long as the task is not done. *)
Theorem saving_an_unchanged_form_sets_a_reminder
    (db : Db) (t : Task) (u : User) (b : TaskBody) (now : Z) :
  NoDup (map t_id (tasks db)) ->
  In t (tasks db) ->
  In u (users db) -> u_id u = t_user_id t ->
  t_reminder_time t = JNull ->
  not_done (t_status t) = true ->
  Frontend.openEditModal t = Some b ->
  http (fst (updateTask db (t_user_id t) (t_id t) b now)) = 200 ->
  (forall nowIso e, ~ In (t, e) (reminderSweep db nowIso))
  /\ exists t',
       t_id t' = t_id t /\ t_status t' = t_status t
       /\ t_reminder_time t' = JStr []
       /\ forall nowIso,
            In (t', u_email u)
              (reminderSweep
                 (snd (updateTask db (t_user_id t) (t_id t) b now)) nowIso).
Proof.
  intros Hnd Hin Hu Hid Hrem Hst Hopen H200; split.
  { intros nowIso e H; apply reminderSweep_In in H.
    destruct H as (_ & H & _). rewrite Hrem in H; discriminate. }
  unfold Frontend.openEditModal in Hopen; rewrite Hrem in Hopen.
  destruct (Frontend.date_field (t_deadline t)) as [dl|]; [|discriminate].
  simpl in Hopen; inversion Hopen; subst b; clear Hopen.
  assert (Hown : task_of_owner db (t_id t) (t_user_id t) <> None).
  { unfold task_of_owner; intros H.
    apply (find_none _ _ H) in Hin. rewrite !Z.eqb_refl in Hin.
    discriminate. }
  revert H200; unfold updateTask.
  destruct (task_of_owner db (t_id t) (t_user_id t)); [|contradiction].
  cbn [b_title b_description b_status b_deadline b_reminder_time
       blank_title description_update description_param option_map
       title_update].
  destruct (len (trim (t_title t)) =? 0); [discriminate|].
  destruct (truthy (t_status t) && negb (includes statuses (t_status t)));
    [discriminate|].
  cbv zeta. cbn [app]. intros _. cbn [snd].
  set (ups := SetTitle (trim (t_title t))
              :: SetDescription (trim (t_description t))
              :: when_present SetStatus (t_status t)
                 ++ when_present SetDeadline dl
                 ++ when_present SetReminderTime (JStr [])).
  exists (touch now (fold_left assign ups t)).
  destruct (assignments_frame ups t) as (Eid & Eown & _).
  assert (Est : t_status (fold_left assign ups t) = t_status t).
  { unfold ups. destruct (t_status t) eqn:Es, dl; simpl; now rewrite ?Es. }
  assert (Erm : t_reminder_time (fold_left assign ups t) = JStr []).
  { unfold ups. destruct (t_status t), dl; reflexivity. }
  split; [exact Eid|]. split; [exact Est|]. split; [exact Erm|].
  intros nowIso. apply reminderSweep_In.
  split; [|split; [|split]].
  - unfold update_tasks; cbn [tasks]. apply in_map_iff.
    exists t; split; [|exact Hin]. now rewrite !Z.eqb_refl.
  - cbn [touch t_reminder_time]. rewrite Erm. simpl. apply orb_true_r.
  - cbn [touch t_status]. now rewrite Est.
  - exists u; repeat split; [exact Hu|].
    cbn [touch t_user_id]. now rewrite Eown.
Qed.

End Client.

(** ** The registration schema of the client and the server's checks *)

Lemma span_parts (f : N -> bool) (s : jsstring) :
  s = fst (span f s) ++ snd (span f s).
Proof.
  induction s as [|c s IH]; simpl; [reflexivity|].
  destruct (f c); [|reflexivity].
  destruct (span f s); simpl in *; congruence.
Qed.

Lemma emailRegex_no_outer_space (s : jsstring) :
  emailRegex_test s = true -> no_outer_space s.
Proof.
  unfold emailRegex_test; intros H.
  pose proof (span_parts email_unit s) as E.
  destruct (span email_unit s) as [[|c0 pre] [|at_ domain]] eqn:S;
    try discriminate.
  simpl in E.
  apply andb_true_iff in H; destruct H as [H Hdot].
  apply andb_true_iff in H; destruct H as [_ Hdom].
  assert (H0 : email_unit c0 = true).
  { destruct s as [|c s]; simpl in S; [discriminate|].
    destruct (email_unit c) eqn:U; [|discriminate].
    destruct (span email_unit s); inversion S; subst; exact U. }
  split; intros c Hc.
  - rewrite E in Hc; simpl in Hc; inversion Hc; subst.
    apply andb_true_iff in H0; destruct H0 as [H0 _].
    now apply negb_true_iff.
  - assert (In c domain).
    { rewrite E in Hc.
      change (c0 :: pre ++ at_ :: domain)
        with ((c0 :: pre) ++ [at_] ++ domain) in Hc.
      rewrite !rev_app_distr in Hc.
      destruct domain as [|d domain]; [discriminate|].
      apply in_rev. destruct (rev (d :: domain)) as [|x r] eqn:R.
      - apply (f_equal (@List.length N)) in R.
        rewrite length_rev in R; discriminate.
      - simpl in Hc; inversion Hc; now left. }
    rewrite forallb_forall in Hdom. specialize (Hdom c H).
    apply andb_true_iff in Hdom; destruct Hdom as [Hs _].
    now apply negb_true_iff.
Qed.

Lemma trim_kept (s : jsstring) : no_outer_space s -> trim s = s.
Proof.
  intros [Hhd Hlast]; unfold trim.
  rewrite (trimStart_kept s Hhd), (trimStart_kept _ Hlast).
  apply rev_involutive.
Qed.

Lemma trim_shorter (s : jsstring) : len (trim s) <= len s.
Proof.
  assert (L : forall x, (List.length (trimStart x) <= List.length x)%nat).
  { intros x; destruct (trimStart_suffix x) as (pre & E & _).
    rewrite E at 2. rewrite length_app; lia. }
  unfold len, trim. rewrite length_rev.
  pose proof (L (rev (trimStart s))) as A. rewrite length_rev in A.
  pose proof (L s). lia.
Qed.

(** X26. A registration form that the registration schema of
    useFormValidation.js accepts has an email and a password that the
    [validateRegistration] middleware of the route accepts as well, and
    a password with a lower case letter, an upper case letter and a
    digit. That middleware turns the form away exactly when the name is
    shorter than two code units once trimmed, which the client measures
    untrimmed, or the confirmation is not a string. This is said of the
    middleware alone: the handler behind it has checks of its own (the
    length of the sanitized name, a known email). The registration page
    itself compares the two passwords and nothing else before it
    posts. *)
Theorem client_schema_and_server_validation (f : Frontend.RegistrationForm) :
  Frontend.registration_valid f = true ->
  email_errors (Frontend.f_email f) = []
  /\ password_errors (Frontend.f_password f) = []
  /\ (exists p, Frontend.f_password f = JStr p
                /\ Validation.password_matches p = true)
  /\ (validateRegistration (Frontend.registerUser f) = [] <->
      (exists s, Frontend.f_name f = JStr s /\ 2 <= len (trim s))
      /\ is_string (Frontend.f_confirmPassword f) = true).
Proof.
  destruct f as [n e p c]; unfold Frontend.registration_valid.
  cbn [Frontend.f_name Frontend.f_email Frontend.f_password
       Frontend.f_confirmPassword Frontend.registerUser].
  unfold Frontend.validateField.
  intros H.
  destruct (find _ [Frontend.required; Frontend.minLength 2;
                    Frontend.maxLength 100]) eqn:Fn; [discriminate|].
  destruct (find _ [Frontend.required; Frontend.email;
                    Frontend.maxLength 255]) eqn:Fe; [discriminate|].
  destruct (find _ [Frontend.required; Frontend.minLength 6;
                    Frontend.maxLength 128; Frontend.password]) eqn:Fp;
    [discriminate|].
  destruct (find _ [Frontend.required; Frontend.confirmPassword]) eqn:Fc;
    [discriminate|].
  clear H.
  destruct n as [| | | |[|n0 n]]; try discriminate.
  destruct e as [| |eb|ez|[|e0 e]]; try discriminate;
    [destruct eb; discriminate
    |simpl in Fe; destruct (ez =? 0); discriminate|].
  destruct p as [| | | |[|p0 p]]; try discriminate.
  cbn [find Frontend.passes truthy negb andb orb] in Fn, Fe, Fp.
  destruct (2 <=? len (n0 :: n)) eqn:N2; [|discriminate].
  destruct (len (n0 :: n) <=? 100) eqn:N100; [|discriminate].
  destruct (emailRegex_test (e0 :: e)) eqn:Re; [|discriminate].
  destruct (len (e0 :: e) <=? 255) eqn:E255; [|discriminate].
  destruct (6 <=? len (p0 :: p)) eqn:P6; [|discriminate].
  destruct (len (p0 :: p) <=? 128) eqn:P128; [|discriminate].
  destruct (Validation.password_matches (p0 :: p)) eqn:Pm; [|discriminate].
  clear Fn Fe Fp. rename Fc into H.
  assert (Ee : email_errors (JStr (e0 :: e)) = []).
  { cbn [email_errors truthy negb].
    rewrite (trim_kept _ (emailRegex_no_outer_space _ Re)), Re.
    replace (255 <? len (e0 :: e)) with false; [reflexivity|].
    symmetry; apply Z.ltb_ge. now apply Z.leb_le. }
  assert (Ep : password_errors (JStr (p0 :: p)) = []).
  { cbn [password_errors truthy negb].
    replace (len (p0 :: p) <? 6) with false
      by (symmetry; apply Z.ltb_ge; now apply Z.leb_le).
    replace (128 <? len (p0 :: p)) with false
      by (symmetry; apply Z.ltb_ge; now apply Z.leb_le).
    reflexivity. }
  split; [exact Ee|]. split; [exact Ep|].
  split; [exists (p0 :: p); auto|].
  unfold validateRegistration, Frontend.registerUser.
  cbn [r_name r_email r_password r_confirmPassword Frontend.f_name
       Frontend.f_email Frontend.f_password Frontend.f_confirmPassword].
  rewrite Ee, Ep. cbn [app].
  assert (N100' : (100 <? len (trim (n0 :: n))) = false).
  { apply Z.ltb_ge. pose proof (trim_shorter (n0 :: n)).
    apply Z.leb_le in N100. lia. }
  cbn [name_errors truthy negb]. rewrite N100'.
  split.
  - intros E. apply app_eq_nil in E; destruct E as [En Ec].
    split.
    + exists (n0 :: n); split; [reflexivity|].
      destruct (len (trim (n0 :: n)) <? 2) eqn:L; [discriminate|].
      now apply Z.ltb_ge in L.
    + unfold confirm_errors in Ec.
      destruct c as [| | | |c]; try reflexivity; simpl in Ec;
        try discriminate.
      * destruct b; discriminate.
      * destruct (negb (z =? 0)); discriminate.
  - intros [(s & Es & Hs) Hc]. inversion Es; subst s.
    replace (len (trim (n0 :: n)) <? 2) with false
      by (symmetry; now apply Z.ltb_ge).
    cbn [app]. destruct c as [| | | |c]; try discriminate.
    unfold confirm_errors.
    destruct c as [|c1 c]; [discriminate|].
    cbn [find Frontend.passes truthy negb andb orb] in H.
    cbn [truthy is_string negb orb].
    destruct (strict_eq (JStr (p0 :: p)) (JStr (c1 :: c))) eqn:Q;
      [reflexivity|].
    assert (Q' : strict_eq (JStr (c1 :: c)) (JStr (p0 :: p)) = false).
    { unfold strict_eq in *. apply str_eqb_neq. apply str_eqb_neq in Q.
      congruence. }
    rewrite Q' in H. discriminate.
Qed.

(** * The further properties on sample data *)

Lemma sample_bcrypt_contract : BcryptContract Sample.platform.
Proof.
  constructor; intros password rounds.
  cbn [bcrypt_compare bcrypt_hash Sample.platform].
  unfold Sample.compare, Sample.hash. apply str_eqb_refl.
Qed.

(** Bob aims at the task of Ann. *)
Lemma foreign_task_sample :
  updateTask Sample.db 2 1 Sample.mark_done 5000
  = (failure 404 "Task not found" None, Sample.db)
  /\ deleteTask Sample.db 2 1
     = (failure 404 "Task not found" None, Sample.db).
Proof.
  apply (foreign_task_cannot_be_changed Sample.db Sample.spec_task 2
           Sample.mark_done 5000).
  - simpl; repeat constructor; simpl; tauto.
  - simpl; auto.
  - simpl; discriminate.
Defined.

(** Ann deletes her task. *)
Lemma deleteTask_sample :
  http (fst (deleteTask Sample.db 1 1)) = 200
  /\ getTask (snd (deleteTask Sample.db 1 1)) 1 1
     = failure 404 "Task not found" None.
Proof.
  destruct (deleteTask_removes_the_task Sample.db Sample.spec_task)
    as (H1 & _ & _ & H4).
  - simpl; repeat constructor; simpl; tauto.
  - simpl; auto.
  - split; [exact H1 | exact H4].
Defined.

(** Ann has a task to do and one that is done, and lists the first. *)
Lemma listTasks_filter_sample :
  let done := Sample.task_body (JStr (lit "y")) (JStr (lit "Done"))
                JUndefined in
  let db := snd (createTask Sample.db 1 done 5000) in
  listing db 1 JUndefined [created_row done 1 5000 2; Sample.spec_task]
  /\ data (listTasks db 1 (JStr (lit "To Do"))) = TaskRows [Sample.spec_task].
Proof.
  intros done db.
  assert (L : listing db 1 JUndefined
                [created_row done 1 5000 2; Sample.spec_task]).
  { split; [apply perm_swap | simpl; intuition (subst; simpl; lia)]. }
  split; [exact L|].
  destruct (listTasks_filter_commutes db 1 (lit "To Do"))
    as (H & every & part & E1 & L1 & E2 & L2).
  - simpl; auto.
  - simpl; repeat constructor; simpl; intuition discriminate.
  - rewrite E2, (H _ part L L2). reflexivity.
Defined.

(** Ann creates a task with a deadline and reads it. *)
Lemma createTask_then_getTask_sample :
  let b := Sample.task_body (JStr (lit " Buy milk ")) JUndefined
             (JStr (lit "2025-06-01")) in
  exists id,
    data (fst (createTask Sample.db 1 b 5000)) = RunResult id 1
    /\ ~ In id (map t_id (tasks Sample.db))
    /\ tasks (snd (createTask Sample.db 1 b 5000))
       = tasks Sample.db ++ [created_row b 1 5000 id]
    /\ getTask (snd (createTask Sample.db 1 b 5000)) 1 id
       = {| http := 200; success := true; message := None; errors := None;
            code := None; data := TaskRow (created_row b 1 5000 id) |}.
Proof.
  intros b.
  apply (createTask_then_getTask Sample.db 1 b 5000); reflexivity.
Defined.

(** Ann registers, creates a task, deletes it and creates another one. *)
Lemma task_ids_sample :
  exists id,
    data (fst (createTask
                 (run Sample.env
                    (run Sample.env empty_db
                       [Register Sample.ann_registration 1000;
                        CreateTask 1 Sample.new_task 1500])
                    [DeleteTask 1 1])
                 1 Sample.new_task 5000)) = RunResult id 1
    /\ t_id (created_row Sample.new_task 1 1500 1) < id.
Proof.
  apply (task_ids_are_not_reused Sample.env
           [Register Sample.ann_registration 1000;
            CreateTask 1 Sample.new_task 1500]
           [DeleteTask 1 1]
           (created_row Sample.new_task 1 1500 1) 1 Sample.new_task 5000).
  - vm_compute; auto.
  - reflexivity.
Defined.

(** Ann registers, creates a task and logs in, writing her email in
    another case. *)
Lemma register_then_login_sample :
  exists id name email createdAt,
    fst (register Sample.env empty_db Sample.ann_registration 1000)
    = {| http := 201; success := true;
         message := Some "User registered successfully";
         errors := None; code := None;
         data := Identity id name email (generateToken Sample.env id 1000)
                   createdAt |}
    /\ login Sample.env
         (run Sample.env
            (snd (register Sample.env empty_db Sample.ann_registration 1000))
            [CreateTask 1 Sample.new_task 1500])
         (Sample.credentials " ANN@x.com" "Abc123") 9000
       = {| http := 200; success := true;
            message := Some "Login successful";
            errors := None; code := None;
            data := Identity id name email (generateToken Sample.env id 9000)
                      createdAt |}.
Proof.
  apply (register_then_login Sample.env (B := sample_bcrypt_contract)
           empty_db Sample.ann_registration
           (Sample.credentials " ANN@x.com" "Abc123")
           [CreateTask 1 Sample.new_task 1500] 1000 9000
           (lit "ann@x.com") (lit " ANN@x.com") (lit "Abc123"));
    reflexivity.
Defined.

(** Ann logs in and presents her token. *)
Lemma login_token_sample :
  http (login Sample.env Sample.db
          (Sample.credentials "ann@x.com" "Abc123") 1000) = 200
  /\ authenticateToken Sample.env
       (Some (lit "Bearer " ++ generateToken Sample.env 1 1000)) 5000
     = Authenticated
         {| userId := 1; tokenIssuedAt := 1000 / 1000;
            tokenExpiresAt :=
              1000 / 1000
              + or_default (JWT_EXPIRES_IN Sample.env) default_expiry |}.
Proof.
  apply (login_token_authenticates Sample.env (J := sample_contract)
           Sample.db (Sample.credentials "ann@x.com" "Abc123") 1000 5000
           1 (lit "Ann") (lit "ann@x.com") (generateToken Sample.env 1 1000)
           1000).
  - reflexivity.
  - vm_compute; reflexivity.
Defined.

(** The token of Ann behind the word [Basic], and with more text. *)
Lemma scheme_sample :
  authenticateToken Sample.env
    (Some (lit "Basic" ++ 32%N :: generateToken Sample.env 1 1000)) 5000
  = authenticateToken Sample.env
      (Some (lit "Bearer " ++ generateToken Sample.env 1 1000)) 5000
  /\ authenticateToken Sample.env
       (Some (lit "Basic" ++ 32%N :: generateToken Sample.env 1 1000
              ++ 32%N :: lit "x")) 5000
     = authenticateToken Sample.env
         (Some (lit "Bearer " ++ generateToken Sample.env 1 1000)) 5000.
Proof.
  apply (authenticateToken_ignores_scheme Sample.env (lit "Basic")
           (generateToken Sample.env 1 1000) (lit "x") 5000);
    intros H; vm_compute in H; intuition discriminate.
Defined.

(** A refresh token of Ann. *)
Lemma refresh_token_sample :
  authenticateToken Sample.env
    (Some (lit "Bearer " ++ generateRefreshToken Sample.env None 1 1000))
    5000
  = Authenticated
      {| userId := 1; tokenIssuedAt := 1000 / 1000;
         tokenExpiresAt := 1000 / 1000 + or_default None refresh_expiry |}.
Proof.
  apply (refresh_token_is_accepted Sample.env (J := sample_contract)
           None 1 1000 5000).
  vm_compute; reflexivity.
Defined.

(** The token of Ann, validated and presented. *)
Lemma validateToken_sample :
  validateToken Sample.env (generateToken Sample.env 1 1000) 5000
  = Some {| d_userId := 1; d_iat := 1; d_exp := 86401 |}
  /\ authenticateToken Sample.env
       (Some (lit "Bearer " ++ generateToken Sample.env 1 1000)) 5000
     = Authenticated
         {| userId := 1; tokenIssuedAt := 1; tokenExpiresAt := 86401 |}.
Proof.
  assert (V : validateToken Sample.env (generateToken Sample.env 1 1000) 5000
              = Some {| d_userId := 1; d_iat := 1; d_exp := 86401 |})
    by reflexivity.
  split; [exact V|].
  apply (validateToken_agrees_with_middleware Sample.env
           (generateToken Sample.env 1 1000) 5000
           {| d_userId := 1; d_iat := 1; d_exp := 86401 |}).
  - vm_compute; discriminate.
  - intros H; vm_compute in H; intuition discriminate.
  - exact V.
Defined.

(** A name. *)
Lemma plain_text_sample : sanitizeString (lit "Ann Lee") = lit "Ann Lee".
Proof.
  apply (sanitizeString_keeps_plain_text (lit "Ann Lee")).
  - intros c H; vm_compute in H.
    repeat (destruct H as [<-|H];
            [repeat split; try reflexivity; discriminate|]).
    contradiction.
  - split; intros c H; vm_compute in H; inversion H; reflexivity.
Defined.

(** Ann registers with a password of six spaces. *)
Lemma blank_password_sample :
  http (login Sample.env
          (snd (register Sample.env empty_db
                  (Sample.registration "Ann" "ann@x.com" "      ") 1000))
          {| l_email := JStr (lit "ann@x.com");
             l_password := JStr (lit "      ") |} 2000) = 400
  /\ In "Password cannot be empty"
       (validateLogin {| l_email := JStr (lit "ann@x.com");
                         l_password := JStr (lit "      ") |}).
Proof.
  apply (blank_password_cannot_log_in Sample.env empty_db
           (Sample.registration "Ann" "ann@x.com" "      ") 1000 2000
           (lit "      ") (JStr (lit "ann@x.com")));
    reflexivity.
Defined.

(** Ann creates a task without a reminder, opens its edit form and saves
    it. *)
Lemma unchanged_form_sample :
  let db := snd (createTask Sample.db 1 Sample.new_task 5000) in
  let t := created_row Sample.new_task 1 5000 2 in
  let b := {| b_title := JStr (lit "x"); b_description := JStr [];
              b_status := JStr (lit "To Do"); b_deadline := JStr [];
              b_reminder_time := JStr [] |} in
  Frontend.openEditModal t = Some b
  /\ exists t',
       t_id t' = t_id t /\ t_status t' = t_status t
       /\ t_reminder_time t' = JStr []
       /\ forall nowIso,
            In (t', u_email Sample.ann)
              (reminderSweep (snd (updateTask db 1 2 b 6000)) nowIso).
Proof.
  intros db t b. split; [reflexivity|].
  apply (saving_an_unchanged_form_sets_a_reminder db t Sample.ann b 6000);
    try reflexivity.
  - simpl; repeat constructor; simpl; intuition discriminate.
  - simpl; auto.
  - simpl; auto.
Defined.

(** A form that both sides accept. *)
Lemma client_schema_sample :
  validateRegistration
    (Frontend.registerUser
       {| Frontend.f_name := JStr (lit "Ann");
          Frontend.f_email := JStr (lit "ann@x.com");
          Frontend.f_password := JStr (lit "Abc123");
          Frontend.f_confirmPassword := JStr (lit "Abc123") |}) = [].
Proof.
  apply (client_schema_and_server_validation
           {| Frontend.f_name := JStr (lit "Ann");
              Frontend.f_email := JStr (lit "ann@x.com");
              Frontend.f_password := JStr (lit "Abc123");
              Frontend.f_confirmPassword := JStr (lit "Abc123") |}).
  - reflexivity.
  - split; [|reflexivity].
    exists (lit "Ann"); split; [reflexivity | vm_compute; discriminate].
Defined.
